(** * calstools: the extraction-to-event pipeline of [app.py]

    A shallow embedding of [clean_json_string] and
    [create_google_calendar_event], together with the parts of the Python
    runtime they rely on ([str] methods, [re], [datetime]), and the
    properties of the design document checked against them. *)

From Stdlib Require Import ZArith QArith List Bool String Ascii Lia.
Import ListNotations.
Local Open Scope Z_scope.
Set Warnings "-register-all".

(** ** Python strings

    A Python [str] is a sequence of Unicode code points.  String literals of
    the source are written here as UTF-8 text and decoded with [py]. *)

Module PyStr.

Abbreviation char := Z (only parsing).
Abbreviation str := (list Z) (only parsing).

Fixpoint bytes_of (s : string) : list Z :=
  match s with
  | EmptyString => []
  | String a s' => Z.of_N (N_of_ascii a) :: bytes_of s'
  end.

Fixpoint utf8_decode (bs : list Z) : str :=
  match bs with
  | [] => []
  | b0 :: t0 =>
    if b0 <? 128 then b0 :: utf8_decode t0
    else
      match t0 with
      | [] => []
      | b1 :: t1 =>
        if b0 <? 224 then (b0 mod 32 * 64 + b1 mod 64) :: utf8_decode t1
        else
          match t1 with
          | [] => []
          | b2 :: t2 =>
            if b0 <? 240
            then (b0 mod 16 * 4096 + b1 mod 64 * 64 + b2 mod 64) :: utf8_decode t2
            else
              match t2 with
              | [] => []
              | b3 :: t3 =>
                (b0 mod 8 * 262144 + b1 mod 64 * 4096 + b2 mod 64 * 64 + b3 mod 64)
                  :: utf8_decode t3
              end
          end
      end
  end.

Definition py (s : string) : str := utf8_decode (bytes_of s).

Definition len (s : str) : Z := Z.of_nat (List.length s).

Fixpoint str_eqb (a b : str) : bool :=
  match a, b with
  | [], [] => true
  | x :: a', y :: b' => (x =? y) && str_eqb a' b'
  | _, _ => false
  end.

(** [str.isspace] on one character, which is also the class [\s] of [re] on
    [str] patterns (Unicode 14 as shipped with CPython 3.11). *)
Definition isspace (c : char) : bool :=
  ((9 <=? c) && (c <=? 13)) || ((28 <=? c) && (c <=? 32))
  || (c =? 133) || (c =? 160) || (c =? 5760)
  || ((8192 <=? c) && (c <=? 8202))
  || (c =? 8232) || (c =? 8233) || (c =? 8239) || (c =? 8287) || (c =? 12288).

Fixpoint lstrip (s : str) : str :=
  match s with
  | c :: s' => if isspace c then lstrip s' else s
  | [] => []
  end.

Definition rstrip (s : str) : str := rev (lstrip (rev s)).

(** [s.strip()] *)
Definition strip (s : str) : str := rstrip (lstrip s).

(** [s.find(c)] for a one-character needle: lowest index, or -1. *)
Fixpoint find (c : char) (s : str) : Z :=
  match s with
  | [] => -1
  | x :: s' =>
    if x =? c then 0
    else let r := find c s' in if r <? 0 then -1 else r + 1
  end.

(** [s.rfind(c)] for a one-character needle: highest index, or -1. *)
Fixpoint rfind (c : char) (s : str) : Z :=
  match s with
  | [] => -1
  | x :: s' =>
    let r := rfind c s' in
    if 0 <=? r then r + 1 else if x =? c then 0 else -1
  end.

(** Index adjustment of a slice bound: a negative bound counts from the end,
    and the result is clipped to [0 .. len]. *)
Definition slice_index (n i : Z) : Z :=
  if i <? 0 then Z.max 0 (i + n) else Z.min i n.

(** [s[start:stop]] *)
Definition slice (s : str) (start stop : Z) : str :=
  let a := slice_index (len s) start in
  let b := slice_index (len s) stop in
  firstn (Z.to_nat (b - a)) (skipn (Z.to_nat a) s).

End PyStr.
Import PyStr.

(** ** The backtracking matcher of [re]

    Ordered alternation, greedy repetition of a character class, capturing
    groups; a continuation stands for the rest of the pattern, so that a
    failure of the rest makes the matcher try the next choice. *)

Module Re.

Inductive regex : Type :=
| Eps
| Chr (c : char)
| Cls (p : char -> bool)
| Cat (r1 r2 : regex)
| Alt (r1 r2 : regex)
| Star (p : char -> bool)
| Grp (name : string) (r : regex).

Definition groups := list (string * str).

Fixpoint star_k {A : Type} (p : char -> bool) (k : str -> option A) (s : str)
  : option A :=
  match s with
  | c :: s' =>
    if p c
    then match star_k p k s' with Some r => Some r | None => k s end
    else k s
  | [] => k []
  end.

Fixpoint exec {A : Type} (r : regex) (s : str) (g : groups)
  (k : str -> groups -> option A) : option A :=
  match r with
  | Eps => k s g
  | Chr c =>
    match s with
    | x :: s' => if x =? c then k s' g else None
    | [] => None
    end
  | Cls p =>
    match s with
    | x :: s' => if p x then k s' g else None
    | [] => None
    end
  | Cat r1 r2 => exec r1 s g (fun s1 g1 => exec r2 s1 g1 k)
  | Alt r1 r2 =>
    match exec r1 s g k with
    | Some x => Some x
    | None => exec r2 s g k
    end
  | Star p => star_k p (fun s' => k s' g) s
  | Grp name r =>
    exec r s g
      (fun s' g' =>
         k s' ((name, firstn (List.length s - List.length s') s) :: g'))
  end.

(** [re.match(r, s)]: the number of characters matched at the start of [s]
    and the groups. *)
Definition re_match (r : regex) (s : str) : option (nat * groups) :=
  exec r s [] (fun s' g => Some ((List.length s - List.length s')%nat, g)).

Fixpoint group (name : string) (g : groups) : str :=
  match g with
  | [] => []
  | (n, v) :: g' => if String.eqb n name then v else group name g'
  end.

(** [re.sub(r, '', s)] for a pattern that matches no empty string: scanning
    from the left, each match is deleted and the scan resumes behind it; a
    character at which no match starts is kept.  [skip] counts the characters
    of the current match still to be deleted. *)
Fixpoint sub_delete (r : regex) (skip : nat) (s : str) : str :=
  match s with
  | [] => []
  | c :: s' =>
    match skip with
    | S n => sub_delete r n s'
    | O =>
      match re_match r s with
      | Some (S n, _) => sub_delete r n s'
      | _ => c :: sub_delete r 0 s'
      end
    end
  end.

Fixpoint lit (l : str) : regex :=
  match l with
  | [] => Eps
  | c :: l' => Cat (Chr c) (lit l')
  end.

Definition plus (p : char -> bool) : regex := Cat (Cls p) (Star p).

End Re.
Import Re.

(** ** [clean_json_string] (app.py, lines 102-106) *)

(** The pattern [```json\s*|\s*```]. *)
Definition fence_re : regex :=
  Alt (Cat (lit (py "```json")) (Star isspace))
      (Cat (Star isspace) (lit (py "```"))).

Definition clean_json_string (json_string : str) : str :=
  let json_string := sub_delete fence_re 0 json_string in
  let json_string := strip json_string in
  slice json_string (find 123 json_string) (rfind 125 json_string + 1).

(** Whether the text "```" occurs in [s]. *)
Definition starts_with_fence (s : str) : bool :=
  match s with
  | a :: b :: c :: _ => (a =? 96) && (b =? 96) && (c =? 96)
  | _ => false
  end.

Fixpoint has_fence (s : str) : bool :=
  match s with
  | [] => false
  | _ :: s' => starts_with_fence s || has_fence s'
  end.

(** ** Exceptions and results *)

Inductive exn : Type :=
| ValueError
| TypeError
| OverflowError
| AttributeError
| HttpError (status : Z)
| OtherException (what : str).

Inductive result (A : Type) : Type :=
| Ok (a : A)
| Raise (e : exn).
Arguments Ok {A} a.
Arguments Raise {A} e.

(** ** [datetime] (naive values, as the program uses them) *)

Module PyDatetime.

Record datetime : Type := mkDatetime {
  year : Z; month : Z; day : Z;
  hour : Z; minute : Z; second : Z; microsecond : Z }.

Record timedelta : Type := mkTimedelta {
  days : Z; seconds : Z; microseconds : Z }.

Definition MINYEAR : Z := 1.
Definition MAXYEAR : Z := 9999.
Definition MAXORDINAL : Z := 3652059.

Definition is_leap (y : Z) : bool :=
  (y mod 4 =? 0) && (negb (y mod 100 =? 0) || (y mod 400 =? 0)).

Definition days_before_year (year : Z) : Z :=
  let y := year - 1 in y * 365 + y / 4 - y / 100 + y / 400.

Definition DAYS_IN_MONTH (m : Z) : Z :=
  nth (Z.to_nat m) [-1; 31; 28; 31; 30; 31; 30; 31; 31; 30; 31; 30; 31] (-1).

Definition DAYS_BEFORE_MONTH (m : Z) : Z :=
  nth (Z.to_nat m) [-1; 0; 31; 59; 90; 120; 151; 181; 212; 243; 273; 304; 334] (-1).

Definition days_in_month (y m : Z) : Z :=
  if (m =? 2) && is_leap y then 29 else DAYS_IN_MONTH m.

Definition days_before_month (y m : Z) : Z :=
  DAYS_BEFORE_MONTH m + (if (2 <? m) && is_leap y then 1 else 0).

Definition ymd2ord (y m d : Z) : Z :=
  days_before_year y + days_before_month y m + d.

Definition DI400Y : Z := days_before_year 401.
Definition DI100Y : Z := days_before_year 101.
Definition DI4Y : Z := days_before_year 5.

Definition ord2ymd (n : Z) : Z * Z * Z :=
  let n := n - 1 in
  let n400 := n / DI400Y in
  let n := n mod DI400Y in
  let year := n400 * 400 + 1 in
  let n100 := n / DI100Y in
  let n := n mod DI100Y in
  let n4 := n / DI4Y in
  let n := n mod DI4Y in
  let n1 := n / 365 in
  let n := n mod 365 in
  let year := year + (n100 * 100 + n4 * 4 + n1) in
  if (n1 =? 4) || (n100 =? 4) then (year - 1, 12, 31)
  else
    let leapyear := (n1 =? 3) && (negb (n4 =? 24) || (n100 =? 3)) in
    let month := Z.shiftr (n + 50) 5 in
    let preceding :=
      DAYS_BEFORE_MONTH month + (if (2 <? month) && leapyear then 1 else 0) in
    if n <? preceding
    then
      let month := month - 1 in
      let preceding :=
        preceding
        - (DAYS_IN_MONTH month + (if (month =? 2) && leapyear then 1 else 0)) in
      (year, month, n - preceding + 1)
    else (year, month, n - preceding + 1).

(** [_check_date_fields] *)
Definition check_date_fields (y m d : Z) : bool :=
  (MINYEAR <=? y) && (y <=? MAXYEAR) && (1 <=? m) && (m <=? 12)
  && (1 <=? d) && (d <=? days_in_month y m).

(** [_check_time_fields] *)
Definition check_time_fields (hh mm ss us : Z) : bool :=
  (0 <=? hh) && (hh <=? 23) && (0 <=? mm) && (mm <=? 59)
  && (0 <=? ss) && (ss <=? 59) && (0 <=? us) && (us <=? 999999).

(** The constructor [datetime(year, month, day, hour, minute, second,
    microsecond)]. *)
Definition new_datetime (y m d hh mm ss us : Z) : result datetime :=
  if check_date_fields y m d && check_time_fields hh mm ss us
  then Ok (mkDatetime y m d hh mm ss us)
  else Raise ValueError.

Definition valid (dt : datetime) : bool :=
  check_date_fields (year dt) (month dt) (day dt)
  && check_time_fields (hour dt) (minute dt) (second dt) (microsecond dt).

Definition toordinal (dt : datetime) : Z :=
  ymd2ord (year dt) (month dt) (day dt).

(** A [timedelta] is kept normalised: [0 <= seconds < 86400] and
    [0 <= microseconds < 10^6]. *)
Definition timedelta_of_us (us : Z) : timedelta :=
  {| days := us / 86400000000;
     seconds := us mod 86400000000 / 1000000;
     microseconds := us mod 1000000 |}.

Definition total_us (td : timedelta) : Z :=
  (days td * 86400 + seconds td) * 1000000 + microseconds td.

(** [timedelta(days=d, seconds=s, microseconds=us, minutes=m, hours=h)] *)
Definition new_timedelta (d s us m h : Z) : timedelta :=
  timedelta_of_us ((((d * 24 + h) * 60 + m) * 60 + s) * 1000000 + us).

Definition timedelta_add (a b : timedelta) : timedelta :=
  timedelta_of_us (total_us a + total_us b).

(** [datetime.__add__] *)
Definition datetime_add (self : datetime) (other : timedelta) : result datetime :=
  let delta :=
    new_timedelta (toordinal self) (second self) (microsecond self)
                  (minute self) (hour self) in
  let delta := timedelta_add delta other in
  let hh := seconds delta / 3600 in
  let rem := seconds delta mod 3600 in
  let mm := rem / 60 in
  let ss := rem mod 60 in
  if (0 <? days delta) && (days delta <=? MAXORDINAL)
  then
    let '(y, m, d) := ord2ymd (days delta) in
    Ok (mkDatetime y m d hh mm ss (microseconds delta))
  else Raise OverflowError.

(** [datetime.__sub__] on two naive values *)
Definition datetime_sub (self other : datetime) : timedelta :=
  let secs1 := second self + minute self * 60 + hour self * 3600 in
  let secs2 := second other + minute other * 60 + hour other * 3600 in
  new_timedelta (toordinal self - toordinal other) (secs1 - secs2)
                (microsecond self - microsecond other) 0 0.

(** [dt.replace(hour=hh, minute=mm)]: the other fields are kept.  The
    constructor check that [replace] runs cannot fail on a valid [dt] with an
    hour and minute in range (lemma [replace_hour_minute_checked]). *)
Definition replace_hour_minute (dt : datetime) (hh mm : Z) : datetime :=
  mkDatetime (year dt) (month dt) (day dt) hh mm (second dt) (microsecond dt).

(** [td.total_seconds()].  The program's floats are modelled by exact
    rationals: every value it computes with them is an integer far below
    2^53 (lemma [day_of_delta_us]), on which binary64 arithmetic is exact. *)
Definition total_seconds (td : timedelta) : Q := Qmake (total_us td) 1000000.

(** [int(x)] on a float: truncation toward zero. *)
Definition int_of_float (x : Q) : Z := Z.quot (Qnum x) (Zpos (Qden x)).

(** Decimal digits of [n], zero padded to [w] places: the [%0wd] of the
    format strings below, whose arguments never need more places. *)
Fixpoint zero_padded (w : nat) (n : Z) : str :=
  match w with
  | O => []
  | S w' => zero_padded w' (n / 10) ++ [48 + n mod 10]
  end.

(** [dt.isoformat()] *)
Definition isoformat (dt : datetime) : str :=
  zero_padded 4 (year dt) ++ py "-" ++ zero_padded 2 (month dt) ++ py "-"
  ++ zero_padded 2 (day dt) ++ py "T"
  ++ zero_padded 2 (hour dt) ++ py ":" ++ zero_padded 2 (minute dt) ++ py ":"
  ++ zero_padded 2 (second dt)
  ++ (if microsecond dt =? 0 then [] else py "." ++ zero_padded 6 (microsecond dt)).

End PyDatetime.
Import PyDatetime.

(** ** [datetime.strptime(date, "%Y년 %m월 %d일 %H:%M")] *)

Module Strptime.

(** The first code point of each run of ten Unicode decimal digits (category
    Nd); [\d] matches exactly these characters and [int] reads them. *)
Definition decimal_zeros : list Z :=
  [48; 1632; 1776; 1984; 2406; 2534; 2662; 2790; 2918; 3046; 3174; 3302;
   3430; 3558; 3664; 3792; 3872; 4160; 4240; 6112; 6160; 6470; 6608; 6784;
   6800; 6992; 7088; 7232; 7248; 42528; 43216; 43264; 43472; 43504; 43600;
   44016; 65296; 66720; 68912; 69734; 69872; 69942; 70096; 70384; 70736;
   70864; 71248; 71360; 71472; 71904; 72016; 72784; 73040; 73120; 92768;
   92864; 93008; 120782; 120792; 120802; 120812; 120822; 123200; 123632;
   125264; 130032].

Fixpoint digit_in (zeros : list Z) (c : char) : option Z :=
  match zeros with
  | [] => None
  | z :: zs => if (z <=? c) && (c <? z + 10) then Some (c - z) else digit_in zs c
  end.

Definition digit_value (c : char) : option Z := digit_in decimal_zeros c.

(** [\d] *)
Definition isdecimal (c : char) : bool :=
  match digit_value c with Some _ => true | None => false end.

(** [[a-b]] for two ASCII digits *)
Definition range (a b : string) (c : char) : bool :=
  match py a, py b with
  | [lo], [hi] => (lo <=? c) && (c <=? hi)
  | _, _ => false
  end.

Definition chr (a : string) : regex := lit (py a).

Fixpoint int_digits (acc : Z) (s : str) : result Z :=
  match s with
  | [] => Ok acc
  | c :: s' =>
    match digit_value c with
    | Some d => int_digits (acc * 10 + d) s'
    | None => Raise ValueError
    end
  end.

(** [int(s)] on a string of decimal digits, surrounding whitespace allowed *)
Definition int (s : str) : result Z :=
  match strip s with
  | [] => Raise ValueError
  | t => int_digits 0 t
  end.

(** The pattern that [_strptime.TimeRE.pattern] builds from the format:
    [(?P<Y>\d\d\d\d)년\s+(?P<m>1[0-2]|0[1-9]|[1-9])월\s+(?P<d>3[0-1]|[1-2]\d|0[1-9]|[1-9]| [1-9])일\s+(?P<H>2[0-3]|[0-1]\d|\d):(?P<M>[0-5]\d|\d)]
    (compiled with IGNORECASE, which changes nothing for these characters). *)
Definition re_Y : regex :=
  Grp "Y" (Cat (Cls isdecimal) (Cat (Cls isdecimal) (Cat (Cls isdecimal) (Cls isdecimal)))).
Definition re_m : regex :=
  Grp "m" (Alt (Cat (chr "1") (Cls (range "0" "2")))
          (Alt (Cat (chr "0") (Cls (range "1" "9")))
               (Cls (range "1" "9")))).
Definition re_d : regex :=
  Grp "d" (Alt (Cat (chr "3") (Cls (range "0" "1")))
          (Alt (Cat (Cls (range "1" "2")) (Cls isdecimal))
          (Alt (Cat (chr "0") (Cls (range "1" "9")))
          (Alt (Cls (range "1" "9"))
               (Cat (chr " ") (Cls (range "1" "9"))))))).
Definition re_H : regex :=
  Grp "H" (Alt (Cat (chr "2") (Cls (range "0" "3")))
          (Alt (Cat (Cls (range "0" "1")) (Cls isdecimal))
               (Cls isdecimal))).
Definition re_M : regex :=
  Grp "M" (Alt (Cat (Cls (range "0" "5")) (Cls isdecimal)) (Cls isdecimal)).

Definition format_regex : regex :=
  Cat re_Y (Cat (chr "년") (Cat (plus isspace)
  (Cat re_m (Cat (chr "월") (Cat (plus isspace)
  (Cat re_d (Cat (chr "일") (Cat (plus isspace)
  (Cat re_H (Cat (chr ":") re_M)))))))))).

Definition bind_result {A B : Type} (r : result A) (k : A -> result B) : result B :=
  match r with Ok a => k a | Raise e => Raise e end.

(** [_strptime] on a [str]: match at the start, no text left over, then the
    fields are converted and the date and the datetime are constructed. *)
Definition strptime_str (data_string : str) : result datetime :=
  match re_match format_regex data_string with
  | None => Raise ValueError
  | Some (e, found) =>
    if negb (Nat.eqb (List.length data_string) e) then Raise ValueError
    else
      bind_result (int (group "Y" found)) (fun y =>
      bind_result (int (group "m" found)) (fun m =>
      bind_result (int (group "d" found)) (fun d =>
      bind_result (int (group "H" found)) (fun hh =>
      bind_result (int (group "M" found)) (fun mm =>
      if check_date_fields y m d then new_datetime y m d hh mm 0 0
      else Raise ValueError)))))
  end.

End Strptime.
Import Strptime.

(** ** Decoded JSON values *)

(** What [json.loads] returns: [None], [bool], [int], [float] (kept as its
    binary64 bit pattern), [str], [list], and [dict] as its items in insertion
    order (keys are distinct). *)
Inductive json : Type :=
| JNull
| JBool (b : bool)
| JInt (n : Z)
| JFloat (bits : Z)
| JStr (s : str)
| JArr (l : list json)
| JObj (items : list (str * json)).

Fixpoint lookup (key : str) (items : list (str * json)) : option json :=
  match items with
  | [] => None
  | (k, v) :: items' => if str_eqb k key then Some v else lookup key items'
  end.

(** [event_dict.get(key, default)]; only a [dict] has the method. *)
Definition py_get (event_dict : json) (key : str) (default : json) : result json :=
  match event_dict with
  | JObj items =>
    match lookup key items with
    | Some v => Ok v
    | None => Ok default
    end
  | _ => Raise AttributeError
  end.

(** [isinstance(v, str)] *)
Definition is_str (v : json) : bool :=
  match v with JStr _ => true | _ => false end.

(** [v == s] for a string literal [s] *)
Definition eq_str (v : json) (s : str) : bool :=
  match v with JStr t => str_eqb t s | _ => false end.

(** The sequence that [for date in dates] runs over. *)
Definition py_iter (dates : json) : result (list json) :=
  match dates with
  | JArr l => Ok l
  | JObj items => Ok (map (fun kv => JStr (fst kv)) items)
  | JStr s => Ok (map (fun c => JStr [c]) s)
  | _ => Raise TypeError
  end.

(** [datetime.strptime(date, "%Y년 %m월 %d일 %H:%M")] *)
Definition strptime (date : json) : result datetime :=
  match date with
  | JStr data_string => strptime_str data_string
  | _ => Raise TypeError
  end.

(** ** The calendar event body (app.py, lines 167-199) *)

Record override : Type := mkOverride { method : str; minutes : Z }.

Inductive reminders_block : Type :=
| UseDefault                           (* {'useDefault': True} *)
| Overrides (l : list override).       (* {'useDefault': False, 'overrides': l} *)

Record time_point : Type := mkTimePoint { dateTime : str; timeZone : str }.

Record event_body : Type := mkEvent {
  summary : json;
  location : json;
  description : json;
  start : time_point;
  end_ : time_point;
  reminders : reminders_block }.

(** Lines 181-199. *)
Definition reminders_for (reminder : json) (dt : datetime) : reminders_block :=
  if eq_str reminder (py "이벤트 2일 전") then
    Overrides [mkOverride (py "popup") (2 * 24 * 60)]
  else if eq_str reminder (py "당일 오전 8시 45분") then
    let minutes_until_reminder :=
      int_of_float
        (total_seconds (datetime_sub (replace_hour_minute dt 8 45) dt) / (60 # 1)) in
    let minutes_until_reminder :=
      if minutes_until_reminder <? 0 then 0 else minutes_until_reminder in
    Overrides [mkOverride (py "popup") minutes_until_reminder]
  else UseDefault.

(** Lines 167-199. *)
Definition make_event (text location details reminder : json)
  (dt end_time : datetime) : event_body :=
  {| summary := text;
     location := location;
     description := details;
     start := mkTimePoint (isoformat dt) (py "Asia/Seoul");
     end_ := mkTimePoint (isoformat end_time) (py "Asia/Seoul");
     reminders := reminders_for reminder dt |}.

(** Lines 148-155: the five fields read from the decoded object. *)
Record event_record : Type := mkRecord {
  text : json;
  dates : json;
  rec_location : json;
  details : json;
  reminder : json }.

Definition read_event_record (event_dict : json) : result event_record :=
  bind_result (py_get event_dict (py "주제") (JStr [])) (fun text =>
  bind_result (py_get event_dict (py "일시") (JArr [])) (fun dates =>
  bind_result (py_get event_dict (py "위치") (JStr [])) (fun location =>
  bind_result (py_get event_dict (py "설명") (JStr [])) (fun details =>
  bind_result (py_get event_dict (py "알림_설정") (JStr (py "기본 알림"))) (fun reminder =>
  let dates := if is_str dates then JArr [dates] else dates in
  Ok (mkRecord text dates location details reminder)))))).

(** ** The collaborators of [create_google_calendar_event] *)

(** The session, the Google client library, the JSON decoder, the clock and
    the calendar service.  [World] is whatever the clock and the service
    depend on and change. *)
Record Collaborators : Type := mkCollaborators {
  World : Type;
  Token : Type;
  Credentials : Type;
  Service : Type;
  Handle : Type;
  (* Credentials.from_authorized_user_info(token, SCOPES) *)
  from_authorized_user_info : Token -> result Credentials;
  (* build('calendar', 'v3', credentials=creds) *)
  build : Credentials -> result Service;
  (* json.loads *)
  json_loads : str -> result json;
  (* datetime.now() *)
  now : World -> datetime * World;
  (* service.events().insert(calendarId='primary', body=event).execute() *)
  execute_insert : Service -> event_body -> World -> result Handle * World }.

Section App.

Variable C : Collaborators.

(** What the user is shown ([st.warning], [st.error]) and what the calendar
    service was asked to do, in the order it happened. *)
Inductive effect : Type :=
| Warning (msg : str)
| ErrorCalendarApi (error : exn)       (* f'Google Calendar API 오류 발생: {error}' *)
| ErrorUnexpected (e : exn)            (* f'예기치 못한 오류 발생: {str(e)}' *)
| Insert (body : event_body) (outcome : result (Handle C)).

Record state : Type := mkState { world : World C; log : list effect }.

(** Computations that change the state and may raise. *)
Definition M (A : Type) : Type := state -> result A * state.

Definition ret {A : Type} (a : A) : M A := fun s => (Ok a, s).

Definition raise {A : Type} (e : exn) : M A := fun s => (Raise e, s).

Definition bind {A B : Type} (m : M A) (k : A -> M B) : M B :=
  fun s =>
    match m s with
    | (Ok a, s') => k a s'
    | (Raise e, s') => (Raise e, s')
    end.

Definition lift {A : Type} (r : result A) : M A := fun s => (r, s).

(** [try: body except ...: handler]; the handler says which exceptions it
    takes by returning [Some]. *)
Definition try_except {A : Type} (body : M A) (handler : exn -> option (M A)) : M A :=
  fun s =>
    match body s with
    | (Ok a, s') => (Ok a, s')
    | (Raise e, s') =>
      match handler e with
      | Some h => h s'
      | None => (Raise e, s')
      end
    end.

Definition emit (e : effect) : M unit :=
  fun s => (Ok tt, mkState (world s) (log s ++ [e])).

Definition st_warning (msg : str) : M unit := emit (Warning msg).

Definition datetime_now : M datetime :=
  fun s => let '(dt, w) := now C (world s) in (Ok dt, mkState w (log s)).

Definition insert_execute (service : Service C) (body : event_body) : M (Handle C) :=
  fun s =>
    let '(r, w) := execute_insert C service body (world s) in
    (r, mkState w (log s ++ [Insert body r])).

Notation "x <- m ;; k" := (bind m (fun x => k))
  (at level 61, m at next level, right associativity).
Notation "m ;;; k" := (bind m (fun _ => k))
  (at level 61, right associativity).

(** [for x in xs: acc = body(acc, x)] *)
Fixpoint for_each {A B : Type} (body : B -> A -> M B) (acc : B) (xs : list A) : M B :=
  match xs with
  | [] => ret acc
  | x :: xs' => acc' <- body acc x ;; for_each body acc' xs'
  end.

(** [st.session_state], as far as the function reads it *)
Record session_state : Type := mkSession { google_token : option (Token C) }.

(** Lines 62-65. *)
Definition get_google_credentials (ss : session_state) : M (option (Credentials C)) :=
  match google_token ss with
  | None => ret None
  | Some token => creds <- lift (from_authorized_user_info C token) ;; ret (Some creds)
  end.

Definition auth_needed : str := py "Google 계정 연동이 필요합니다.".

(** Lines 160-163. *)
Definition resolve_start (date : json) : M datetime :=
  try_except (lift (strptime date))
    (fun e =>
       match e with
       | ValueError =>
         Some (n <- datetime_now ;; lift (datetime_add n (new_timedelta 7 0 0 0 0)))
       | _ => None
       end).

(** Lines 159-202: one turn of the loop. *)
Definition loop_body (service : Service C) (r : event_record)
  (created_events : list (Handle C)) (date : json) : M (list (Handle C)) :=
  dt <- resolve_start date ;;
  end_time <- lift (datetime_add dt (new_timedelta 0 0 0 0 1)) ;;
  let event :=
    make_event (text r) (rec_location r) (details r) (reminder r) dt end_time in
  created_event <- insert_execute service event ;;
  ret (created_events ++ [created_event]).

Definition for_dates (service : Service C) (r : event_record)
  (created_events : list (Handle C)) (ds : list json) : M (list (Handle C)) :=
  for_each (loop_body service r) created_events ds.

(** Lines 205-213. *)
Definition handlers (e : exn) : option (M (option (list (Handle C)))) :=
  match e with
  | HttpError status =>
    Some ((if (status =? 401) || (status =? 403)
           then st_warning auth_needed
           else emit (ErrorCalendarApi e)) ;;; ret None)
  | _ => Some (emit (ErrorUnexpected e) ;;; ret None)
  end.

(** Lines 145-204: the body of the [try] statement. *)
Definition try_block (creds : Credentials C) (event_info : str)
  : M (option (list (Handle C))) :=
  service <- lift (build C creds) ;;
  event_dict <- lift (json_loads C event_info) ;;
  r <- lift (read_event_record event_dict) ;;
  ds <- lift (py_iter (dates r)) ;;
  created_events <- for_dates service r [] ds ;;
  ret (Some created_events).

(** Lines 134-213.  The result is [None] or the list [created_events].  A
    [Credentials] object is always true, so [not creds] holds for [None]
    only. *)
Definition create_google_calendar_event (ss : session_state) (event_info : str)
  : M (option (list (Handle C))) :=
  match google_token ss with
  | None => st_warning auth_needed ;;; ret None
  | Some _ =>
    creds <- get_google_credentials ss ;;
    match creds with
    | None => st_warning auth_needed ;;; ret None
    | Some creds => try_except (try_block creds event_info) handlers
    end
  end.

(** *** Observations on a run *)

(** The two durations of the program: [timedelta(days=7)] and
    [timedelta(hours=1)]. *)
Definition week : timedelta := new_timedelta 7 0 0 0 0.
Definition one_hour : timedelta := new_timedelta 0 0 0 0 1.

(** A logged submission, and one that the calendar service accepted. *)
Definition is_insert (e : effect) : Prop :=
  exists body outcome, e = Insert body outcome.

Definition ok_insert (e : effect) : Prop :=
  exists body h, e = Insert body (Ok h).

(** The start that line 161 or line 163 gives for the string [d]. *)
Definition resolved_from (d : str) (dt : datetime) : Prop :=
  strptime_str d = Ok dt
  \/ (strptime_str d = Raise ValueError
      /\ exists w, datetime_add (fst (now C w)) week = Ok dt).

(** The log entry of an accepted draft with start [dt], end [end_time] and
    handle [h], for [x = (dt, end_time, h)]. *)
Definition draft_entry (r : event_record) (x : datetime * datetime * Handle C)
  : effect :=
  Insert (make_event (text r) (rec_location r) (details r) (reminder r)
                     (fst (fst x)) (snd (fst x)))
         (Ok (snd x)).

(** The drafts that the calendar service accepted, in order. *)
Fixpoint created (l : list effect) : list event_body :=
  match l with
  | [] => []
  | Insert body (Ok _) :: l' => body :: created l'
  | _ :: l' => created l'
  end.

End App.

Arguments Warning {C} msg.
Arguments ErrorCalendarApi {C} error.
Arguments ErrorUnexpected {C} e.
Arguments Insert {C} body outcome.
Arguments mkSession {C} google_token.
Arguments google_token {C} s.
Arguments mkState {C} world log.
Arguments world {C} s.
Arguments log {C} s.
Arguments is_insert {C} e.
Arguments ok_insert {C} e.

(** ** The three reminder tags of the design document *)

Inductive reminder_tag : Type := TwoDaysBefore | DayOf845 | DefaultTag.

Definition tag_text (t : reminder_tag) : str :=
  match t with
  | TwoDaysBefore => py "이벤트 2일 전"
  | DayOf845 => py "당일 오전 8시 45분"
  | DefaultTag => py "기본 알림"
  end.

(** The design document's normalisation: a value that is none of the two
    special tags counts as the default tag. *)
Definition normalize_tag (v : json) : reminder_tag :=
  if eq_str v (py "이벤트 2일 전") then TwoDaysBefore
  else if eq_str v (py "당일 오전 8시 45분") then DayOf845
  else DefaultTag.

Definition with_reminder (r : event_record) (v : json) : event_record :=
  mkRecord (text r) (dates r) (rec_location r) (details r) v.

(** ** A test double for the collaborators

    The decoder answers [decoded], the clock always reads [clock], and the
    calendar numbers the drafts it accepts; [refusal n] says whether it
    refuses the draft that comes when [n] drafts have been accepted. *)
Module Demo.

Definition collaborators (decoded : result json) (clock : datetime)
  (refusal : nat -> option exn) : Collaborators :=
  {| World := nat;
     Token := unit;
     Credentials := unit;
     Service := unit;
     Handle := nat;
     from_authorized_user_info := fun _ => Ok tt;
     build := fun _ => Ok tt;
     json_loads := fun _ => decoded;
     now := fun w => (clock, w);
     execute_insert := fun _ _ w =>
       match refusal w with
       | Some e => (Raise e, w)
       | None => (Ok w, S w)
       end |}.

Definition never : nat -> option exn := fun _ => None.

Definition after (quota : nat) (e : exn) : nat -> option exn :=
  fun n => if (n <? quota)%nat then None else Some e.

Definition clock : datetime := mkDatetime 2024 3 1 12 30 15 250000.

Definition date1 : str := py "2024년 01월 01일 09:00".
Definition date2 : str := py "2024년 02월 01일 09:00".

(** Decoded responses of the language model. *)
Definition two_dates : json :=
  JObj [(py "주제", JStr (py "회의")); (py "일시", JArr [JStr date1; JStr date2])].

Definition number_and_date : json :=
  JObj [(py "일시", JArr [JInt 20240315; JStr date1])].

Definition last_half_hour : json :=
  JObj [(py "일시", JStr (py "9999년 12월 31일 23:30"))].

Definition malformed_then_date : json :=
  JObj [(py "일시", JArr [JStr (py "March 15"); JStr date1])].

Definition no_dates : json := JObj [(py "주제", JStr (py "회의"))].

Definition unknown_tag : json :=
  JObj [(py "알림_설정", JStr (py "하루 전"))].

(** The runs used below: who answers, and the run from a fresh state by a
    logged-in user. *)
Definition accepting (decoded : json) : Collaborators :=
  collaborators (Ok decoded) clock never.

Definition refusing_second : Collaborators :=
  collaborators (Ok two_dates) clock (after 1 (HttpError 401)).

Definition fresh (C : Collaborators) (w : World C) : state C := mkState w [].

Definition logged_in (C : Collaborators) (t : Token C) : session_state C :=
  mkSession (Some t).

Definition draft (subject : str) (dt end_time : datetime) : event_body :=
  make_event (JStr subject) (JStr []) (JStr []) (JStr (py "기본 알림"))
             dt end_time.

End Demo.


(** ** More of [app.py] *)

(** *** What the handlers show (lines 205-213) *)

Definition handler_effect (C : Collaborators) (e : exn) : effect C :=
  match e with
  | HttpError status =>
    if (status =? 401) || (status =? 403) then Warning auth_needed
    else ErrorCalendarApi e
  | _ => ErrorUnexpected e
  end.

(** The date [date] of the record and the start and end of the draft made
    for it: the date is a string, [dt] is the start that lines 160-163 give
    it, and [end_time] is the end of line 165. *)
Definition draft_times (C : Collaborators) (date : json)
  (dt end_time : datetime) : Prop :=
  exists d, date = JStr d
            /\ resolved_from C d dt
            /\ datetime_add dt one_hour = Ok end_time.

(** *** [get_redirect_uri] and the redirect URIs of [CLIENT_CONFIG]
    (lines 32-51)

    [st.secrets] as the list of its entries; [IS_DEPLOYED] is the module's
    constant of line 20. *)
Definition secrets_get (secrets : list (str * str)) (key : str) : option str :=
  match List.find (fun kv => str_eqb (fst kv) key) secrets with
  | Some kv => Some (snd kv)
  | None => None
  end.

Definition app_url : str := py "https://calstool.streamlit.app/".

(** [CLIENT_CONFIG["web"]["redirect_uris"]] *)
Definition redirect_uris (secrets : list (str * str)) : list str :=
  [app_url;
   match secrets_get secrets (py "REDIRECT_URI") with
   | Some uri => uri
   | None => app_url
   end].

(** The result is [None] or a string. *)
Definition get_redirect_uri (IS_DEPLOYED : bool) (secrets : list (str * str))
  : option str :=
  if IS_DEPLOYED then secrets_get secrets (py "REDIRECT_URI")
  else Some app_url.

(** *** The language-model stage (lines 108-132) *)

Definition MODEL_NAME : str := py "gpt-4".

(** The system message of lines 113-125. *)
Definition SYSTEM_PROMPT : str :=
  py "다음 텍스트에서 이벤트 정보를 추출해주세요. JSON 형식으로 다음 정보를 반환해주세요:" ++ [10]
  ++ [10]
  ++ py "1. 주제: 이벤트의 주제 또는 제목" ++ [10]
  ++ py "2. 일시: 'YYYY년 MM월 DD일 HH:MM' 형식으로 제공 (여러 개 가능, 배열로 반환)" ++ [10]
  ++ py "3. 위치: 이벤트 장소 (구체적인 주소나 장소명 포함)" ++ [10]
  ++ py "4. 설명: 이벤트에 대한 간단한 설명" ++ [10]
  ++ py "5. 이벤트_유형: '신청', '참여', '참석' 중 하나 (해당되는 경우)" ++ [10]
  ++ py "6. 알림_설정: " ++ [10]
  ++ py "   - '신청' 관련 내용이면 " ++ [34] ++ py "이벤트 2일 전" ++ [34] ++ [10]
  ++ py "   - '참여' 또는 '참석' 관련 내용이면 " ++ [34] ++ py "당일 오전 8시 45분" ++ [34] ++ [10]
  ++ py "   - 그 외의 경우 " ++ [34] ++ py "기본 알림" ++ [34] ++ [10]
  ++ [10]
  ++ py "현재 연도를 기준으로 정보를 추출하세요. JSON만 반환하고 다른 텍스트는 포함하지 마세요.".

(** [' '.join(parts)] *)
Fixpoint join (sep : str) (parts : list str) : str :=
  match parts with
  | [] => []
  | [x] => x
  | x :: rest => x ++ sep ++ join sep rest
  end.

(** A request to [client.chat.completions.create]: the model and the
    messages, each a role and a content. *)
Record chat_request : Type := mkRequest {
  model : str;
  messages : list (str * str) }.

(** The request of lines 110-128 for the text [text]. *)
Definition request_for (text : str) : chat_request :=
  mkRequest MODEL_NAME [(py "system", SYSTEM_PROMPT); (py "user", text)].

(** The OCR reader and the language-model client.  [new_reader] is the
    constructor call of line 81.  [cache_resource] is Streamlit's decorator of
    line 77 applied to a function without arguments: the decorated function
    answers from the cache or by calling the function, and what it answers
    is the function's result together with the exceptions whose [st.error]
    message it puts on the page.  [readtext] stands for [np.array(image)] and
    [reader.readtext]: the detections, each a box, a text and a confidence.
    [chat_create] answers the contents of the completion's choices, [None]
    for a choice without content. *)
Record Frontend (C : Collaborators) : Type := mkFrontend {
  Image : Type;
  Reader : Type;
  Box : Type;
  Confidence : Type;
  new_reader : World C -> result Reader * World C;
  cache_resource :
    (World C -> (option Reader * list exn) * World C)
    -> World C -> (option Reader * list exn) * World C;
  readtext : Reader -> Image -> World C
             -> result (list (Box * str * Confidence)) * World C;
  chat_create : chat_request -> World C -> result (list (option str)) * World C }.

Arguments Image {C} f.
Arguments Reader {C} f.
Arguments Box {C} f.
Arguments Confidence {C} f.
Arguments new_reader {C} f w.
Arguments cache_resource {C} f body w.
Arguments readtext {C} f reader image w.
Arguments chat_create {C} f request w.

Section Pipeline.

Variable C : Collaborators.
Variable F : Frontend C.

(** What the page shows and which collaborators were asked, in order. *)
Inductive shown : Type :=
| Calendar (e : effect C)         (* from create_google_calendar_event *)
| ChatCreate (request : chat_request)
| StMarkdown (html : str)
| ShowExtracted (extracted_text : str)
                                  (* f"<div class='info-box'>{extracted_text}</div>" *)
| StJson (analyzed_info : str)
| ShowLink (i : nat) (event : Handle C)
                                  (* f"{i}. [이벤트 {i} 보기]({event.get('htmlLink')})" *)
| StInfo (msg : str)
| StError (msg : str)
| StErrorLoad (e : exn)           (* f"OCR 모델 로딩 중 오류 발생: {str(e)}" *)
| StErrorOcr (e : exn)            (* f"이미지에서 텍스트 추출 중 오류 발생: {str(e)}" *)
| StErrorAi (e : exn)             (* f"AI 분석 중 오류 발생: {str(e)}" *)
| StErrorPipeline (e : exn).      (* f"이미지 처리 중 예기치 못한 오류 발생: {str(e)}" *)

Record page : Type := mkPage { outside : World C; screen : list shown }.

Definition show (l : list shown) (s : page) : page :=
  mkPage (outside s) (screen s ++ l).

(** Lines 79-85, the function that line 77 decorates: the reader, or [None]
    and the exception whose message is shown.  (The spinner of line 80 is on
    the page only while the constructor runs.) *)
Definition load_ocr_body (w : World C) : (option (Reader F) * list exn) * World C :=
  let '(reader, w') := new_reader F w in
  match reader with
  | Ok reader => ((Some reader, []), w')
  | Raise e => ((None, [e]), w')
  end.

(** Lines 77-85. *)
Definition load_ocr (s : page) : option (Reader F) * page :=
  let '((reader, errors), w) := cache_resource F load_ocr_body (outside s) in
  (reader, mkPage w (screen s ++ map StErrorLoad errors)).

(** Lines 87-100. *)
Definition extract_text_from_image (image : Image F) (s : page)
  : option str * page :=
  let '(reader, s) := load_ocr s in
  match reader with
  | None => (None, s)
  | Some reader =>
    let '(result, w) := readtext F reader image (outside s) in
    match result with
    | Ok result =>
      let text := join (py " ") (map (fun res => snd (fst res)) result) in
      (Some text, mkPage w (screen s))
    | Raise e => (None, mkPage w (screen s ++ [StErrorOcr e]))
    end
  end.

(** Lines 108-132.  [choices[0]] of an empty list raises [IndexError], and
    [.strip()] on a missing content raises [AttributeError]. *)
Definition analyze_text_with_ai (text : str) (s : page) : option str * page :=
  let request := request_for text in
  let '(choices, w) := chat_create F request (outside s) in
  let s' := mkPage w (screen s ++ [ChatCreate request]) in
  match choices with
  | Ok (Some content :: _) => (Some (clean_json_string (strip content)), s')
  | Ok (None :: _) => (None, show [StErrorAi AttributeError] s')
  | Ok [] => (None, show [StErrorAi (OtherException (py "IndexError"))] s')
  | Raise e => (None, show [StErrorAi e] s')
  end.

(** The truth value of a string or [None], of a list or [None]. *)
Definition truthy {A : Type} (v : option (list A)) : bool :=
  match v with
  | Some (_ :: _) => true
  | _ => false
  end.

(** [create_google_calendar_event] run on the page: what it logs is shown. *)
Definition run_calendar (ss : session_state C) (event_info : str) (s : page)
  : result (option (list (Handle C))) * page :=
  let '(r, s') :=
    create_google_calendar_event C ss event_info (mkState (outside s) []) in
  (r, mkPage (world s') (screen s ++ map Calendar (log s'))).

(** [enumerate(created_events, i)] turned into the links of lines 305-306. *)
Fixpoint links (i : nat) (created_events : list (Handle C)) : list shown :=
  match created_events with
  | [] => []
  | event :: rest => ShowLink i event :: links (S i) rest
  end.

(** Lines 291-314 of [main]: what the button "이미지 분석 및 이벤트 생성" runs. *)
Definition analyze_and_create (ss : session_state C) (image : Image F)
  (s : page) : page :=
  let '(extracted_text, s) := extract_text_from_image image s in
  if truthy extracted_text then
    let extracted_text := match extracted_text with Some t => t | None => [] end in
    let s := show [StMarkdown (py "<h3 class='sub-header'>추출된 텍스트</h3>");
                   ShowExtracted extracted_text] s in
    let '(analyzed_info, s) := analyze_text_with_ai extracted_text s in
    if truthy analyzed_info then
      let analyzed_info := match analyzed_info with Some t => t | None => [] end in
      let s := show [StMarkdown (py "<h3 class='sub-header'>분석 결과</h3>");
                     StJson analyzed_info] s in
      match run_calendar ss analyzed_info s with
      | (Ok created_events, s) =>
        if truthy created_events then
          let created_events :=
            match created_events with Some l => l | None => [] end in
          show (StMarkdown (py "<h3 class='sub-header'>생성된 Google 캘린더 이벤트</h3>")
                :: links 1 created_events) s
        else show [StInfo auth_needed] s
      | (Raise e, s) => show [StErrorPipeline e] s
      end
    else show [StError (py "AI 분석에 실패했습니다.")] s
  else show [StError (py "이미지에서 텍스트를 추출하지 못했습니다.")] s.

(** The two messages of the text stage (lines 84 and 99). *)
Definition ocr_message (x : shown) : Prop :=
  (exists e, x = StErrorLoad e) \/ (exists e, x = StErrorOcr e).

End Pipeline.

Arguments Calendar {C} e.
Arguments ChatCreate {C} request.
Arguments StMarkdown {C} html.
Arguments ShowExtracted {C} extracted_text.
Arguments StJson {C} analyzed_info.
Arguments ShowLink {C} i event.
Arguments StInfo {C} msg.
Arguments StError {C} msg.
Arguments StErrorLoad {C} e.
Arguments StErrorOcr {C} e.
Arguments StErrorAi {C} e.
Arguments StErrorPipeline {C} e.
Arguments mkPage {C} outside screen.
Arguments outside {C} p.
Arguments screen {C} p.
Arguments show {C} l s.
Arguments ocr_message {C} x.
Arguments links {C} i created_events.
Arguments load_ocr_body {C} F w.
Arguments load_ocr {C} F s.
Arguments extract_text_from_image {C} F image s.
Arguments analyze_text_with_ai {C} F text s.
Arguments run_calendar {C} ss event_info s.
Arguments analyze_and_create {C} F ss image s.


(** ** More test doubles *)
Module Cases.

(** The client library refuses the stored token; everything else answers. *)
Definition rejected_token : Collaborators :=
  {| World := nat;
     Token := unit;
     Credentials := unit;
     Service := unit;
     Handle := nat;
     from_authorized_user_info := fun _ => Raise ValueError;
     build := fun _ => Ok tt;
     json_loads := fun _ => Ok Demo.no_dates;
     now := fun w => (Demo.clock, w);
     execute_insert := fun _ _ w => (Ok w, S w) |}.

(** The language model answered with a list of events. *)
Definition list_of_events : json := JArr [Demo.two_dates].

(** A front end whose reader loads, is not cached, and finds [detections],
    and whose language model answers [answer]. *)
Definition frontend (C : Collaborators)
  (detections : result (list (unit * str * unit)))
  (answer : result (list (option str))) : Frontend C :=
  {| Image := unit;
     Reader := unit;
     Box := unit;
     Confidence := unit;
     new_reader := fun w => (Ok tt, w);
     cache_resource := fun body w => body w;
     readtext := fun _ _ w => (detections, w);
     chat_create := fun _ w => (answer, w) |}.

Definition notice : list (unit * str * unit) :=
  [(tt, py "회의", tt); (tt, py "안내", tt)].

(** Answers of the language model: a record with a subject only, and one
    with two dates, the second wrapped in a fence. *)
Definition answer_no_dates : str :=
  py "{" ++ [34] ++ py "주제" ++ [34] ++ py ": " ++ [34] ++ py "회의" ++ [34]
  ++ py "}".

Definition answer_two_dates : str :=
  py "```json" ++ [10]
  ++ py "{" ++ [34] ++ py "주제" ++ [34] ++ py ": " ++ [34] ++ py "회의" ++ [34]
  ++ py ", " ++ [34] ++ py "일시" ++ [34] ++ py ": [" ++ [34] ++ Demo.date1
  ++ [34] ++ py ", " ++ [34] ++ Demo.date2 ++ [34] ++ py "]}" ++ [10]
  ++ py "```".

(** The page before the button is pressed. *)
Definition blank (C : Collaborators) (w : World C) : page C := mkPage w [].

(** The runs used below: the reader finds "회의 안내" and the language model
    answers [answer]; the decoder and the calendar are those of [C]. *)
Definition reading (C : Collaborators) (answer : str) : Frontend C :=
  frontend C (Ok notice) (Ok [Some answer]).

End Cases.

(** * Properties *)

(** ** Strings *)

Lemma str_eqb_eq (a b : str) : str_eqb a b = true <-> a = b.
Proof.
  revert b; induction a as [|x a IH]; intros [|y b]; simpl; split; intro H;
    try reflexivity; try discriminate.
  - apply andb_true_iff in H as [Hx Hab].
    apply Z.eqb_eq in Hx. apply IH in Hab. congruence.
  - injection H as -> ->. rewrite Z.eqb_refl. simpl. now apply IH.
Qed.

Lemma str_eqb_refl (a : str) : str_eqb a a = true.
Proof. now apply str_eqb_eq. Qed.

Lemma eq_str_false (v : json) (s : str) : v <> JStr s -> eq_str v s = false.
Proof.
  intro H. destruct v; simpl; try reflexivity.
  destruct (str_eqb s0 s) eqn:E; [|reflexivity].
  apply str_eqb_eq in E. congruence.
Qed.

(** ** Time arithmetic *)

Lemma total_us_of_us (x : Z) : total_us (timedelta_of_us x) = x.
Proof.
  unfold total_us, timedelta_of_us; simpl.
  Z.div_mod_to_equations. lia.
Qed.

(** The difference that the day-of reminder measures is a whole number of
    minutes: the seconds and microseconds of [dt] cancel. *)
Lemma day_of_delta_us (dt : datetime) :
  total_us (datetime_sub (replace_hour_minute dt 8 45) dt)
  = (8 * 60 + 45 - (hour dt * 60 + minute dt)) * 60000000.
Proof.
  unfold datetime_sub, new_timedelta. rewrite total_us_of_us.
  unfold replace_hour_minute, toordinal.
  cbn [year month day hour minute second microsecond]. lia.
Qed.

Lemma replace_hour_minute_checked (dt : datetime) :
  valid dt = true ->
  new_datetime (year dt) (month dt) (day dt) 8 45 (second dt) (microsecond dt)
  = Ok (replace_hour_minute dt 8 45).
Proof.
  unfold valid, new_datetime, check_time_fields. intro H.
  apply andb_true_iff in H as [Hd Ht]. rewrite Hd.
  repeat (apply andb_true_iff in Ht as [Ht ?]).
  replace ((0 <=? 8) && (8 <=? 23) && (0 <=? 45) && (45 <=? 59)) with true by reflexivity.
  simpl. repeat match goal with H : _ = true |- _ => rewrite H; clear H end.
  reflexivity.
Qed.

Lemma day_of_minutes (dt : datetime) :
  int_of_float
    (total_seconds (datetime_sub (replace_hour_minute dt 8 45) dt) / (60 # 1))
  = 8 * 60 + 45 - (hour dt * 60 + minute dt).
Proof.
  unfold total_seconds. rewrite day_of_delta_us.
  generalize (8 * 60 + 45 - (hour dt * 60 + minute dt)); intro k.
  unfold int_of_float, Qdiv, Qmult, Qinv; cbn [Qnum Qden].
  change (Z.pos (1000000 * 60)) with 60000000.
  rewrite Z.mul_1_r. apply Z.quot_mul. lia.
Qed.

(** ** Reminder policy *)

Lemma eq_str_true (v : json) (s : str) : eq_str v s = true -> v = JStr s.
Proof.
  destruct v; simpl; try discriminate.
  intro H. apply str_eqb_eq in H. now subst.
Qed.

Lemma reminders_default (dt : datetime) :
  reminders_for (JStr (py "기본 알림")) dt = UseDefault.
Proof.
  unfold reminders_for.
  replace (eq_str (JStr (py "기본 알림")) (py "이벤트 2일 전")) with false
    by (vm_compute; reflexivity).
  replace (eq_str (JStr (py "기본 알림")) (py "당일 오전 8시 45분")) with false
    by (vm_compute; reflexivity).
  reflexivity.
Qed.

Lemma reminders_unrecognized (v : json) (dt : datetime) :
  eq_str v (py "이벤트 2일 전") = false ->
  eq_str v (py "당일 오전 8시 45분") = false ->
  reminders_for v dt = UseDefault.
Proof. intros H1 H2. unfold reminders_for. now rewrite H1, H2. Qed.

Lemma reminders_normalized (v : json) (dt : datetime) :
  reminders_for v dt = reminders_for (JStr (tag_text (normalize_tag v))) dt.
Proof.
  unfold normalize_tag.
  destruct (eq_str v (py "이벤트 2일 전")) eqn:E1; cbv beta iota.
  - apply eq_str_true in E1. rewrite E1.
    change (tag_text TwoDaysBefore) with (py "이벤트 2일 전"). reflexivity.
  - destruct (eq_str v (py "당일 오전 8시 45분")) eqn:E2; cbv beta iota.
    + apply eq_str_true in E2. rewrite E2.
      change (tag_text DayOf845) with (py "당일 오전 8시 45분"). reflexivity.
    + change (tag_text DefaultTag) with (py "기본 알림").
      rewrite reminders_default.
      apply reminders_unrecognized; assumption.
Qed.

(** C8: for the tag "이벤트 2일 전" (two days before) and every start time,
    the reminder block has the provider defaults switched off and exactly one
    override, a popup 2*24*60 = 2880 minutes before the start. *)
Theorem two_days_before_reminder (dt : datetime) :
  reminders_for (JStr (py "이벤트 2일 전")) dt
  = Overrides [mkOverride (py "popup") 2880].
Proof.
  unfold reminders_for.
  replace (eq_str (JStr (py "이벤트 2일 전")) (py "이벤트 2일 전")) with true
    by (vm_compute; reflexivity).
  reflexivity.
Qed.

(** C4: for the tag "당일 오전 8시 45분" (day of, 8:45) and every start time,
    the reminder block has exactly one popup override whose minutes are 08:45
    minus the start's hour and minute, and 0 when that is negative; a start at
    07:00 gives 105 minutes and a start at 10:00 gives 0. *)
Theorem day_of_reminder :
  (forall dt : datetime,
     reminders_for (JStr (py "당일 오전 8시 45분")) dt
     = Overrides
         [mkOverride (py "popup")
                     (Z.max 0 (8 * 60 + 45 - (hour dt * 60 + minute dt)))])
  /\ reminders_for (JStr (py "당일 오전 8시 45분")) (mkDatetime 2024 3 15 7 0 0 0)
     = Overrides [mkOverride (py "popup") 105]
  /\ reminders_for (JStr (py "당일 오전 8시 45분")) (mkDatetime 2024 3 15 10 0 0 0)
     = Overrides [mkOverride (py "popup") 0].
Proof.
  assert (G : forall dt : datetime,
     reminders_for (JStr (py "당일 오전 8시 45분")) dt
     = Overrides
         [mkOverride (py "popup")
                     (Z.max 0 (8 * 60 + 45 - (hour dt * 60 + minute dt)))]).
  { intro dt. unfold reminders_for.
    replace (eq_str (JStr (py "당일 오전 8시 45분")) (py "이벤트 2일 전")) with false
      by (vm_compute; reflexivity).
    replace (eq_str (JStr (py "당일 오전 8시 45분")) (py "당일 오전 8시 45분")) with true
      by (vm_compute; reflexivity).
    rewrite day_of_minutes.
    do 2 f_equal. f_equal.
    destruct (Z.ltb_spec (8 * 60 + 45 - (hour dt * 60 + minute dt)) 0); lia. }
  split; [exact G|]. split; rewrite G; reflexivity.
Qed.

(** ** Reading the record *)

Lemma read_reminder (items : list (str * json)) (r : event_record) :
  read_event_record (JObj items) = Ok r ->
  reminder r
  = match lookup (py "알림_설정") items with
    | Some v => v
    | None => JStr (py "기본 알림")
    end.
Proof.
  unfold read_event_record, py_get, bind_result.
  destruct (lookup (py "주제") items);
  destruct (lookup (py "일시") items);
  destruct (lookup (py "위치") items);
  destruct (lookup (py "설명") items);
  destruct (lookup (py "알림_설정") items);
  intro H; injection H as <-; reflexivity.
Qed.

(** C9: for every decoded object the five fields are read under their keys;
    an absent subject, location or description is the empty string, absent
    dates are the empty list, an absent reminder tag is "기본 알림", and dates
    given as one string become a one-element list. *)
Theorem read_event_record_fields (items : list (str * json)) :
  exists r : event_record,
    read_event_record (JObj items) = Ok r
    /\ text r = match lookup (py "주제") items with Some v => v | None => JStr [] end
    /\ rec_location r
       = match lookup (py "위치") items with Some v => v | None => JStr [] end
    /\ details r = match lookup (py "설명") items with Some v => v | None => JStr [] end
    /\ reminder r
       = match lookup (py "알림_설정") items with
         | Some v => v
         | None => JStr (py "기본 알림")
         end
    /\ dates r
       = match lookup (py "일시") items with
         | Some (JStr s) => JArr [JStr s]
         | Some v => v
         | None => JArr []
         end.
Proof.
  unfold read_event_record, py_get, bind_result.
  destruct (lookup (py "주제") items) as [v1|];
  destruct (lookup (py "일시") items) as [v2|];
  destruct (lookup (py "위치") items) as [v3|];
  destruct (lookup (py "설명") items) as [v4|];
  destruct (lookup (py "알림_설정") items) as [v5|];
  eexists; (split; [reflexivity|]); cbn [text rec_location details reminder dates];
  repeat split; try reflexivity; destruct v2; reflexivity.
Qed.

(** ** Runs of [create_google_calendar_event] *)

Section Runs.

Variable C : Collaborators.

Lemma for_each_cons {A B : Type} (body : B -> A -> M C B) (acc : B) (x : A)
  (xs : list A) (s : state C) :
  for_each C body acc (x :: xs) s
  = match body acc x s with
    | (Ok a, s') => for_each C body a xs s'
    | (Raise e, s') => (Raise e, s')
    end.
Proof. reflexivity. Qed.

Lemma resolve_start_eq (date : json) (s : state C) :
  resolve_start C date s
  = match strptime date with
    | Ok dt => (Ok dt, s)
    | Raise ValueError =>
      (datetime_add (fst (now C (world s))) week,
       mkState (snd (now C (world s))) (log s))
    | Raise e => (Raise e, s)
    end.
Proof.
  unfold resolve_start, try_except, lift, bind, datetime_now.
  destruct (strptime date) as [dt|[]]; try reflexivity.
  destruct (now C (world s)) as [n w]; cbn [fst snd].
  fold week. destruct (datetime_add n week); reflexivity.
Qed.

Lemma loop_body_eq (service : Service C) (r : event_record)
  (acc : list (Handle C)) (date : json) (s : state C) :
  loop_body C service r acc date s
  = match resolve_start C date s with
    | (Ok dt, s1) =>
      match datetime_add dt one_hour with
      | Ok end_time =>
        let event :=
          make_event (text r) (rec_location r) (details r) (reminder r)
                     dt end_time in
        match execute_insert C service event (world s1) with
        | (Ok h, w) =>
          (Ok (acc ++ [h]), mkState w (log s1 ++ [Insert event (Ok h)]))
        | (Raise e, w) =>
          (Raise e, mkState w (log s1 ++ [Insert event (Raise e)]))
        end
      | Raise e => (Raise e, s1)
      end
    | (Raise e, s1) => (Raise e, s1)
    end.
Proof.
  unfold loop_body, bind, lift, insert_execute, ret. fold one_hour.
  destruct (resolve_start C date s) as [[dt|e] s1]; [|reflexivity].
  destruct (datetime_add dt one_hour) as [end_time|e]; [|reflexivity].
  cbv zeta.
  destruct (execute_insert C service _ (world s1)) as [[h|e] w]; reflexivity.
Qed.

Lemma resolve_start_log (date : json) (s s1 : state C) (res : result datetime) :
  resolve_start C date s = (res, s1) -> log s1 = log s.
Proof.
  rewrite resolve_start_eq.
  destruct (strptime date) as [dt|[]]; intro H; injection H as _ <-; reflexivity.
Qed.

(** One turn of the loop either appends one accepted draft, or raises having
    logged nothing or the one draft that the service refused. *)
Lemma loop_body_log (service : Service C) (r : event_record)
  (acc : list (Handle C)) (date : json) (s s' : state C)
  (res : result (list (Handle C))) :
  loop_body C service r acc date s = (res, s') ->
  (exists body h, res = Ok (acc ++ [h])
                  /\ log s' = log s ++ [Insert body (Ok h)])
  \/ (exists e, res = Raise e
                /\ (log s' = log s
                    \/ exists body, log s' = log s ++ [Insert body (Raise e)])).
Proof.
  rewrite loop_body_eq.
  destruct (resolve_start C date s) as [[dt|e] s1] eqn:R;
    apply resolve_start_log in R.
  - destruct (datetime_add dt one_hour) as [end_time|e].
    + cbv zeta.
      destruct (execute_insert C service _ (world s1)) as [[h|e] w];
        intro H; injection H as <- <-; cbn [log]; rewrite R.
      * left. eauto.
      * right. eauto.
    + intro H; injection H as <- <-. right. eauto.
  - intro H; injection H as <- <-. right. eauto.
Qed.

Lemma for_dates_log (service : Service C) (r : event_record) (ds : list json) :
  forall (acc : list (Handle C)) (s s' : state C) (res : result (list (Handle C))),
    for_dates C service r acc ds s = (res, s') ->
    exists pre, Forall ok_insert pre
      /\ match res with
         | Ok _ => log s' = log s ++ pre
         | Raise e =>
           log s' = log s ++ pre
           \/ exists body, log s' = log s ++ pre ++ [Insert body (Raise e)]
         end.
Proof.
  unfold for_dates.
  induction ds as [|date ds IH]; intros acc s s' res.
  - intro H. injection H as <- <-. exists []. split; [constructor|].
    now rewrite app_nil_r.
  - rewrite for_each_cons.
    destruct (loop_body C service r acc date s) as [[a|e] s1] eqn:L;
      apply loop_body_log in L.
    + destruct L as [(body & h & Ha & Hl)|(e & He & _)]; [|discriminate].
      intro H. apply IH in H as (pre & Hpre & Hres).
      exists (Insert body (Ok h) :: pre). split.
      * constructor; [red; eauto|assumption].
      * rewrite Hl in Hres.
        destruct res as [hs|e]; [|destruct Hres as [Hres|(b & Hres)]];
          [|left|right; exists b]; rewrite Hres, <- !app_assoc; reflexivity.
    + destruct L as [(body & h & Ha & _)|(e' & He & Hl)]; [discriminate|].
      injection He as <-. intro H. injection H as <- <-.
      exists []. split; [constructor|].
      destruct Hl as [Hl|(body & Hl)]; [left|right; exists body];
        rewrite Hl; now rewrite ?app_nil_r.
Qed.


Lemma try_block_eq (creds : Credentials C) (event_info : str) (s : state C) :
  try_block C creds event_info s
  = match build C creds with
    | Raise e => (Raise e, s)
    | Ok service =>
      match json_loads C event_info with
      | Raise e => (Raise e, s)
      | Ok event_dict =>
        match read_event_record event_dict with
        | Raise e => (Raise e, s)
        | Ok r =>
          match py_iter (dates r) with
          | Raise e => (Raise e, s)
          | Ok ds =>
            match for_dates C service r [] ds s with
            | (Ok hs, s') => (Ok (Some hs), s')
            | (Raise e, s') => (Raise e, s')
            end
          end
        end
      end
    end.
Proof.
  unfold try_block, bind, lift, ret.
  destruct (build C creds) as [service|]; [|reflexivity].
  destruct (json_loads C event_info) as [event_dict|]; [|reflexivity].
  destruct (read_event_record event_dict) as [r|]; [|reflexivity].
  destruct (py_iter (dates r)) as [ds|]; [|reflexivity].
  destruct (for_dates C service r [] ds s) as [[hs|e] s']; reflexivity.
Qed.

Lemma try_block_log (creds : Credentials C) (event_info : str) (s s' : state C)
  (res : result (option (list (Handle C)))) :
  try_block C creds event_info s = (res, s') ->
  exists pre, Forall ok_insert pre
    /\ match res with
       | Ok _ => log s' = log s ++ pre
       | Raise e =>
         log s' = log s ++ pre
         \/ exists body, log s' = log s ++ pre ++ [Insert body (Raise e)]
       end.
Proof.
  rewrite try_block_eq.
  assert (N : forall e, (Raise e, s) = (res, s') ->
    exists pre, Forall ok_insert pre
      /\ match res with
         | Ok _ => log s' = log s ++ pre
         | Raise e =>
           log s' = log s ++ pre
           \/ exists body, log s' = log s ++ pre ++ [Insert body (Raise e)]
         end).
  { intros e H. injection H as <- <-. exists []. split; [constructor|].
    left. now rewrite app_nil_r. }
  destruct (build C creds) as [service|]; [|apply N].
  destruct (json_loads C event_info) as [event_dict|]; [|apply N].
  destruct (read_event_record event_dict) as [r|]; [|apply N].
  destruct (py_iter (dates r)) as [ds|]; [|apply N].
  destruct (for_dates C service r [] ds s) as [[hs|e] s1] eqn:F;
    apply for_dates_log in F as (pre & Hpre & Hlog);
    intro H; injection H as <- <-; exists pre; split; assumption.
Qed.

(** Every exception is handled: one message is shown and [None] returned. *)
Lemma handlers_run (e : exn) (s : state C) :
  exists h eff,
    handlers C e = Some h
    /\ h s = (Ok None, mkState (world s) (log s ++ [eff]))
    /\ ~ is_insert eff
    /\ (forall status, e = HttpError status -> status = 401 \/ status = 403 ->
        eff = Warning auth_needed).
Proof.
  destruct e as [| | | |status|what];
    try (eexists; eexists; split; [reflexivity|]; split; [reflexivity|]; split;
         [intros (b & o & H); discriminate|intros st H; discriminate]).
  unfold handlers.
  destruct ((status =? 401) || (status =? 403)) eqn:E;
    eexists; eexists; (split; [reflexivity|]); (split; [reflexivity|]); split;
    try (intros (b & o & H); discriminate).
  - reflexivity.
  - intros st H [H1|H1]; injection H as ->; subst st; discriminate.
Qed.

Lemma create_logged_out (ss : session_state C) (event_info : str) (s : state C) :
  google_token ss = None ->
  create_google_calendar_event C ss event_info s
  = (Ok None, mkState (world s) (log s ++ [Warning auth_needed])).
Proof.
  intro H. unfold create_google_calendar_event. rewrite H. reflexivity.
Qed.

Lemma create_logged_in (ss : session_state C) (event_info : str) (s : state C)
  (token : Token C) :
  google_token ss = Some token ->
  create_google_calendar_event C ss event_info s
  = match from_authorized_user_info C token with
    | Ok creds => try_except C (try_block C creds event_info) (handlers C) s
    | Raise e => (Raise e, s)
    end.
Proof.
  intro H. unfold create_google_calendar_event, get_google_credentials.
  rewrite H. unfold bind, lift, ret.
  destruct (from_authorized_user_info C token); reflexivity.
Qed.

(** C1 (as amended): without a stored credential the function shows the
    authorization-required message, submits nothing and returns [None]; and
    when a submission is answered with status 401 or 403 the function stops at
    once: that submission is the last one, the authorization-required message
    follows it and [None] is returned.  The drafts accepted before it stay
    submitted. *)
Theorem authorization_failure_aborts (ss : session_state C) (event_info : str)
  (s s' : state C) (res : result (option (list (Handle C)))) :
  create_google_calendar_event C ss event_info s = (res, s') ->
  (google_token ss = None ->
   res = Ok None /\ s' = mkState (world s) (log s ++ [Warning auth_needed]))
  /\ (forall l body status,
        log s' = log s ++ l ->
        In (Insert body (Raise (HttpError status))) l ->
        status = 401 \/ status = 403 ->
        res = Ok None
        /\ exists pre,
             Forall ok_insert pre
             /\ l = pre ++ [Insert body (Raise (HttpError status));
                            Warning auth_needed]).
Proof.
  intro Run. split.
  - intro H. rewrite (create_logged_out ss event_info s H) in Run.
    injection Run as <- <-. split; reflexivity.
  - intros l body status Hl Hin Hst.
    assert (Hpre : forall pre : list (effect C), Forall ok_insert pre ->
              ~ In (Insert body (Raise (HttpError status))) pre).
    { intros pre Hpre Hx. rewrite Forall_forall in Hpre.
      destruct (Hpre _ Hx) as (b & h & Hb). discriminate. }
    destruct (google_token ss) as [token|] eqn:Tok.
    + rewrite (create_logged_in ss event_info s token Tok) in Run.
      destruct (from_authorized_user_info C token) as [creds|e].
      * unfold try_except in Run.
        destruct (try_block C creds event_info s) as [[a|e] s1] eqn:B;
          apply try_block_log in B as (pre & Fpre & Hlog).
        -- injection Run as <- <-. rewrite Hlog in Hl.
           apply app_inv_head in Hl. subst l. now apply Hpre in Hin.
        -- destruct (handlers_run e s1) as (h & eff & Hh & Hrun & Hni & Hauth).
           rewrite Hh, Hrun in Run. injection Run as <- <-. cbn [log] in Hl.
           destruct Hlog as [Hlog|(b & Hlog)]; rewrite Hlog in Hl;
             rewrite <- !app_assoc in Hl; apply app_inv_head in Hl; subst l.
           ++ apply in_app_or in Hin as [Hin|[Hin|[]]];
                [now apply Hpre in Hin|].
              exfalso. apply Hni. subst eff. red. eauto.
           ++ apply in_app_or in Hin as [Hin|[Hin|[Hin|[]]]];
                [now apply Hpre in Hin| |].
              ** injection Hin as -> ->. split; [reflexivity|].
                 exists pre. split; [assumption|].
                 now rewrite (Hauth status eq_refl Hst).
              ** exfalso. apply Hni. subst eff. red. eauto.
      * injection Run as <- <-.
        rewrite <- (app_nil_r (log s)) in Hl at 1.
        apply app_inv_head in Hl. subst l. destruct Hin.
    + rewrite (create_logged_out ss event_info s Tok) in Run.
      injection Run as <- <-. cbn [log] in Hl.
      apply app_inv_head in Hl. subst l.
      destruct Hin as [Hin|[]]. discriminate.
Qed.

(** *** Date parsing *)

Lemma int_digits_exn (s : str) :
  forall (acc : Z) (e : exn), int_digits acc s = Raise e -> e = ValueError.
Proof.
  induction s as [|c s IH]; intros acc e; simpl.
  - discriminate.
  - destruct (digit_value c); [apply IH|congruence].
Qed.

Lemma int_exn (s : str) (e : exn) : int s = Raise e -> e = ValueError.
Proof.
  unfold int. destruct (strip s); [congruence|apply int_digits_exn].
Qed.

(** On a string, [strptime] raises nothing but [ValueError]. *)
Lemma strptime_str_exn (d : str) (e : exn) :
  strptime_str d = Raise e -> e = ValueError.
Proof.
  unfold strptime_str, bind_result, new_datetime.
  destruct (re_match format_regex d) as [[n g]|]; [|congruence].
  destruct (negb (Nat.eqb (List.length d) n)); [congruence|].
  destruct (int (group "Y" g)) eqn:EY; [|apply int_exn in EY; congruence].
  destruct (int (group "m" g)) eqn:Em; [|apply int_exn in Em; congruence].
  destruct (int (group "d" g)) eqn:Ed; [|apply int_exn in Ed; congruence].
  destruct (int (group "H" g)) eqn:EH; [|apply int_exn in EH; congruence].
  destruct (int (group "M" g)) eqn:EM; [|apply int_exn in EM; congruence].
  destruct (check_date_fields a a0 a1); [|congruence].
  destruct (true && check_time_fields a2 a3 0 0); congruence.
Qed.

Lemma datetime_add_exn (dt : datetime) (td : timedelta) (e : exn) :
  datetime_add dt td = Raise e -> e = OverflowError.
Proof.
  unfold datetime_add.
  match goal with |- context [if ?c then _ else _] => destruct c end;
    [|congruence].
  destruct (ord2ymd _) as [[y m] d]. discriminate.
Qed.

(** C3 (as amended): for every entry that is a string and fails to parse,
    whatever the failure, the start becomes the current time plus 7 days; the
    only exception that can come out is the overflow of that sum past year
    9999; and when the sum and the end one hour later exist and the draft is
    accepted, the loop goes on with the remaining dates. *)
Theorem parse_failure_falls_back (service : Service C) (r : event_record)
  (acc : list (Handle C)) (d : str) (rest : list json) (s : state C) (e : exn) :
  strptime (JStr d) = Raise e ->
  e = ValueError
  /\ resolve_start C (JStr d) s
     = (datetime_add (fst (now C (world s))) week,
        mkState (snd (now C (world s))) (log s))
  /\ (forall e', fst (resolve_start C (JStr d) s) = Raise e' -> e' = OverflowError)
  /\ (forall dt end_time h w',
        datetime_add (fst (now C (world s))) week = Ok dt ->
        datetime_add dt one_hour = Ok end_time ->
        execute_insert C service
          (make_event (text r) (rec_location r) (details r) (reminder r)
                      dt end_time)
          (snd (now C (world s))) = (Ok h, w') ->
        for_dates C service r acc (JStr d :: rest) s
        = for_dates C service r (acc ++ [h]) rest
            (mkState w' (log s ++ [draft_entry C r (dt, end_time, h)]))).
Proof.
  intro H. cbn [strptime] in H.
  assert (He : e = ValueError) by (now apply strptime_str_exn in H).
  subst e.
  assert (R : resolve_start C (JStr d) s
              = (datetime_add (fst (now C (world s))) week,
                 mkState (snd (now C (world s))) (log s))).
  { rewrite resolve_start_eq. cbn [strptime]. rewrite H. reflexivity. }
  split; [reflexivity|]. split; [exact R|]. split.
  - intros e'. rewrite R. cbn [fst]. apply datetime_add_exn.
  - intros dt end_time h w' Hdt Hend Hins.
    unfold for_dates. rewrite for_each_cons, loop_body_eq, R, Hdt.
    cbn [world log]. rewrite Hend. cbv zeta. rewrite Hins. reflexivity.
Qed.

(** *** Success with nothing to do *)

(** C10: in an authorized run whose record has no dates the function submits
    nothing (the state, log included, is unchanged) and returns the empty
    list, which is not the [None] of the failures. *)
Theorem empty_dates_is_success (ss : session_state C) (event_info : str)
  (s : state C) (token : Token C) (creds : Credentials C) (service : Service C)
  (event_dict : json) (r : event_record) :
  google_token ss = Some token ->
  from_authorized_user_info C token = Ok creds ->
  build C creds = Ok service ->
  json_loads C event_info = Ok event_dict ->
  read_event_record event_dict = Ok r ->
  py_iter (dates r) = Ok [] ->
  create_google_calendar_event C ss event_info s = (Ok (Some []), s)
  /\ (Some [] : option (list (Handle C))) <> None.
Proof.
  intros Htok Hcreds Hbuild Hjson Hrec Hiter. split; [|discriminate].
  rewrite (create_logged_in ss event_info s token Htok), Hcreds.
  unfold try_except.
  rewrite try_block_eq, Hbuild, Hjson, Hrec, Hiter. reflexivity.
Qed.

(** *** The reminder tag *)

Lemma make_event_normalized (t l d v : json) (dt end_time : datetime) :
  make_event t l d v dt end_time
  = make_event t l d (JStr (tag_text (normalize_tag v))) dt end_time.
Proof. unfold make_event. f_equal. apply reminders_normalized. Qed.

Lemma for_each_ext {A B : Type} (body body' : B -> A -> M C B) :
  (forall acc x s, body acc x s = body' acc x s) ->
  forall xs acc s, for_each C body acc xs s = for_each C body' acc xs s.
Proof.
  intros H xs. induction xs as [|x xs IH]; intros acc s; [reflexivity|].
  rewrite !for_each_cons, H.
  destruct (body' acc x s) as [[a|e] s1]; [apply IH|reflexivity].
Qed.

Lemma loop_body_normalized (service : Service C) (r : event_record)
  (acc : list (Handle C)) (date : json) (s : state C) :
  loop_body C service r acc date s
  = loop_body C service
      (with_reminder r (JStr (tag_text (normalize_tag (reminder r)))))
      acc date s.
Proof.
  rewrite !loop_body_eq. unfold with_reminder.
  cbn [text rec_location details reminder].
  destruct (resolve_start C date s) as [[dt|e] s1]; [|reflexivity].
  destruct (datetime_add dt one_hour) as [end_time|e]; [|reflexivity].
  cbv zeta. rewrite <- make_event_normalized. reflexivity.
Qed.

(** C6: the tag read for a record is "기본 알림" when the key is missing, and
    whatever value was read, the reminder block and the whole materialization
    are those of its normal form, one of the three known tags: a value that is
    none of the two special tags is treated as "기본 알림". *)
Theorem reminder_tag_is_normalized (items : list (str * json)) (r : event_record) :
  read_event_record (JObj items) = Ok r ->
  (lookup (py "알림_설정") items = None -> reminder r = JStr (tag_text DefaultTag))
  /\ (forall dt,
        reminders_for (reminder r) dt
        = reminders_for (JStr (tag_text (normalize_tag (reminder r)))) dt)
  /\ (forall dt,
        normalize_tag (reminder r) = DefaultTag ->
        reminders_for (reminder r) dt = UseDefault)
  /\ (forall service acc ds s,
        for_dates C service r acc ds s
        = for_dates C service
            (with_reminder r (JStr (tag_text (normalize_tag (reminder r)))))
            acc ds s).
Proof.
  intro H. split; [|split; [|split]].
  - intro Hmiss.
    rewrite (read_reminder items r H), Hmiss. reflexivity.
  - intro dt. apply reminders_normalized.
  - intros dt Hn. rewrite reminders_normalized, Hn.
    change (tag_text DefaultTag) with (py "기본 알림"). apply reminders_default.
  - intros service acc ds s. unfold for_dates.
    apply for_each_ext. intros. apply loop_body_normalized.
Qed.

(** *** One event per date *)

Lemma for_dates_strings (service : Service C) (r : event_record) (ds : list str) :
  (forall body w, exists h w', execute_insert C service body w = (Ok h, w')) ->
  (forall d dt, In d ds -> strptime_str d = Ok dt ->
                exists e, datetime_add dt one_hour = Ok e) ->
  (forall w, exists dt e, datetime_add (fst (now C w)) week = Ok dt
                          /\ datetime_add dt one_hour = Ok e) ->
  forall (acc : list (Handle C)) (s : state C),
  exists xs s',
    for_dates C service r acc (map JStr ds) s = (Ok (acc ++ map snd xs), s')
    /\ log s' = log s ++ map (draft_entry C r) xs
    /\ Forall2 (fun d x => resolved_from C d (fst (fst x))
                           /\ datetime_add (fst (fst x)) one_hour = Ok (snd (fst x)))
               ds xs.
Proof.
  intros Hacc Hparsed Hclock. unfold for_dates.
  induction ds as [|d ds IH]; intros acc s.
  - exists [], s. cbn [map]. rewrite !app_nil_r. repeat split. constructor.
  - assert (Hstart : exists dt end_time s1,
              resolve_start C (JStr d) s = (Ok dt, s1)
              /\ log s1 = log s
              /\ resolved_from C d dt
              /\ datetime_add dt one_hour = Ok end_time).
    { rewrite resolve_start_eq. cbn [strptime].
      destruct (strptime_str d) as [dt|e] eqn:P.
      - destruct (Hparsed d dt (or_introl eq_refl) P) as (end_time & He).
        exists dt, end_time, s. repeat split; [now left|assumption].
      - apply strptime_str_exn in P as P'. subst e.
        destruct (Hclock (world s)) as (dt & end_time & Hdt & He).
        exists dt, end_time, (mkState (snd (now C (world s))) (log s)).
        rewrite Hdt. repeat split; [|assumption].
        right. split; [exact P|]. now exists (world s). }
    destruct Hstart as (dt & end_time & s1 & R & Hl1 & Hres & Hend).
    destruct (Hacc (make_event (text r) (rec_location r) (details r)
                               (reminder r) dt end_time) (world s1))
      as (h & w' & Hins).
    destruct (IH (fun d' dt' Hin => Hparsed d' dt' (or_intror Hin))
                 (acc ++ [h])
                 (mkState w' (log s1 ++ [draft_entry C r (dt, end_time, h)])))
      as (xs & s' & Hrun & Hlog & Hall).
    exists ((dt, end_time, h) :: xs), s'.
    cbn [map]. rewrite for_each_cons, loop_body_eq, R, Hend. cbv zeta.
    rewrite Hins. split; [|split].
    + unfold draft_entry in Hrun; cbn [fst snd] in Hrun. rewrite Hrun.
      cbn [snd]. now rewrite <- app_assoc.
    + rewrite Hlog. cbn [log]. rewrite Hl1, <- app_assoc. reflexivity.
    + constructor; [split; assumption|assumption].
Qed.

(** C5 (as amended): in an authorized run whose dates are the strings
    d1..dk, whose submissions are all accepted and whose starts (parsed, or
    current time plus 7 days) all have an end one hour later within year
    9999, the function returns exactly k handles in the order of the dates,
    and the k drafts submitted carry, in that order, the start resolved from
    the date string and the end one hour later; "2024년 03월 15일 10:00"
    resolves to 2024-03-15T10:00 with end 2024-03-15T11:00. *)
Theorem one_event_per_date (ss : session_state C) (event_info : str)
  (s : state C) (token : Token C) (creds : Credentials C) (service : Service C)
  (event_dict : json) (r : event_record) (ds : list str) :
  google_token ss = Some token ->
  from_authorized_user_info C token = Ok creds ->
  build C creds = Ok service ->
  json_loads C event_info = Ok event_dict ->
  read_event_record event_dict = Ok r ->
  py_iter (dates r) = Ok (map JStr ds) ->
  (forall body w, exists h w', execute_insert C service body w = (Ok h, w')) ->
  (forall d dt, In d ds -> strptime_str d = Ok dt ->
                exists e, datetime_add dt one_hour = Ok e) ->
  (forall w, exists dt e, datetime_add (fst (now C w)) week = Ok dt
                          /\ datetime_add dt one_hour = Ok e) ->
  (exists xs s',
     create_google_calendar_event C ss event_info s = (Ok (Some (map snd xs)), s')
     /\ List.length (map snd xs) = List.length ds
     /\ log s' = log s ++ map (draft_entry C r) xs
     /\ Forall2 (fun d x => resolved_from C d (fst (fst x))
                            /\ datetime_add (fst (fst x)) one_hour
                               = Ok (snd (fst x)))
                ds xs)
  /\ strptime (JStr (py "2024년 03월 15일 10:00"))
     = Ok (mkDatetime 2024 3 15 10 0 0 0)
  /\ datetime_add (mkDatetime 2024 3 15 10 0 0 0) one_hour
     = Ok (mkDatetime 2024 3 15 11 0 0 0)
  /\ isoformat (mkDatetime 2024 3 15 10 0 0 0) = py "2024-03-15T10:00:00"
  /\ isoformat (mkDatetime 2024 3 15 11 0 0 0) = py "2024-03-15T11:00:00".
Proof.
  intros Htok Hcreds Hbuild Hjson Hrec Hiter Hacc Hparsed Hclock.
  split; [|repeat split; vm_compute; reflexivity].
  destruct (for_dates_strings service r ds Hacc Hparsed Hclock [] s)
    as (xs & s' & Hrun & Hlog & Hall).
  exists xs, s'. split; [|split; [|split]]; try assumption.
  - rewrite (create_logged_in ss event_info s token Htok), Hcreds.
    unfold try_except.
    rewrite try_block_eq, Hbuild, Hjson, Hrec, Hiter, Hrun. reflexivity.
  - rewrite length_map. symmetry. exact (Forall2_length Hall).
Qed.

End Runs.

(** ** Slicing between the braces *)

Lemma len_app (a b : str) : len (a ++ b) = len a + len b.
Proof. unfold len. rewrite length_app. lia. Qed.

Lemma len_nonneg (a : str) : 0 <= len a.
Proof. unfold len. lia. Qed.

Lemma len_cons (x : char) (a : str) : len (x :: a) = len a + 1.
Proof. unfold len. simpl List.length. lia. Qed.

Lemma find_notin (c : char) (s : str) : ~ In c s -> find c s = -1.
Proof.
  induction s as [|x s IH]; intro H; [reflexivity|]. simpl.
  destruct (Z.eqb_spec x c) as [->|_]; [exfalso; apply H; now left|].
  rewrite IH; [reflexivity|]. intro Hin. apply H. now right.
Qed.

Lemma find_first (c : char) (pre rest : str) :
  ~ In c pre -> find c (pre ++ c :: rest) = len pre.
Proof.
  induction pre as [|x pre IH]; intro H.
  - simpl. now rewrite Z.eqb_refl.
  - cbn [app find].
    destruct (Z.eqb_spec x c) as [->|_]; [exfalso; apply H; now left|].
    rewrite IH by (intro Hin; apply H; now right).
    pose proof (len_nonneg pre). rewrite len_cons.
    destruct (Z.ltb_spec (len pre) 0); lia.
Qed.

Lemma find_spec (c : char) (s : str) :
  (~ In c s /\ find c s = -1)
  \/ exists pre rest, s = pre ++ c :: rest /\ ~ In c pre /\ find c s = len pre.
Proof.
  induction s as [|x s IH].
  - left. split; [intros []|reflexivity].
  - destruct (Z.eqb_spec x c) as [->|Hx].
    + right. exists [], s. split; [reflexivity|]. split; [intros []|].
      simpl. now rewrite Z.eqb_refl.
    + destruct IH as [[Hn Hf]|(pre & rest & -> & Hn & Hf)].
      * left. split; [intros [H|H]; [congruence|now apply Hn]|].
        apply find_notin. intros [H|H]; [congruence|now apply Hn].
      * right. exists (x :: pre), rest. split; [reflexivity|].
        assert (Hn' : ~ In c (x :: pre))
          by (intros [H|H]; [congruence|now apply Hn]).
        split; [exact Hn'|].
        exact (find_first c (x :: pre) rest Hn').
Qed.

Lemma rfind_bounds (c : char) (s : str) :
  -1 <= rfind c s /\ (rfind c s < len s \/ s = []).
Proof.
  induction s as [|x s IH]; [split; [simpl; lia|now right]|].
  cbn [rfind]. rewrite len_cons. pose proof (len_nonneg s).
  destruct (Z.leb_spec 0 (rfind c s)).
  - destruct IH as [IH1 [IH2| ->]]; [lia|simpl in *; lia].
  - destruct (x =? c); lia.
Qed.

Lemma rfind_notin (c : char) (s : str) : ~ In c s -> rfind c s = -1.
Proof.
  induction s as [|x s IH]; intro H; [reflexivity|]. cbn [rfind].
  rewrite IH by (intro Hin; apply H; now right).
  destruct (Z.eqb_spec x c) as [->|_]; [exfalso; apply H; now left|reflexivity].
Qed.

Lemma rfind_app (c : char) (a b : str) :
  rfind c (a ++ b)
  = if 0 <=? rfind c b then len a + rfind c b else rfind c a.
Proof.
  induction a as [|x a IH].
  - simpl. destruct (Z.leb_spec 0 (rfind c b)); [reflexivity|].
    pose proof (rfind_bounds c b). lia.
  - cbn [app rfind]. rewrite IH, len_cons. pose proof (len_nonneg a).
    destruct (Z.leb_spec 0 (rfind c b)).
    + destruct (Z.leb_spec 0 (len a + rfind c b)); lia.
    + reflexivity.
Qed.

Lemma rfind_last (c : char) (x post : str) :
  ~ In c post -> rfind c (x ++ c :: post) = len x.
Proof.
  intro H. rewrite rfind_app. cbn [rfind]. rewrite (rfind_notin c post H).
  replace (0 <=? -1) with false by reflexivity.
  rewrite Z.eqb_refl. replace (0 <=? 0) with true by reflexivity. lia.
Qed.

Lemma rfind_spec (c : char) (s : str) :
  (~ In c s /\ rfind c s = -1)
  \/ exists x post, s = x ++ c :: post /\ ~ In c post /\ rfind c s = len x.
Proof.
  induction s as [|y s IH].
  - left. split; [intros []|reflexivity].
  - destruct IH as [[Hn Hf]|(x & post & -> & Hn & Hf)].
    + destruct (Z.eqb_spec y c) as [->|Hy].
      * right. exists [], s. split; [reflexivity|]. split; [assumption|].
        exact (rfind_last c [] s Hn).
      * left. assert (Hn' : ~ In c (y :: s))
          by (intros [H|H]; [congruence|now apply Hn]).
        split; [exact Hn'|now apply rfind_notin].
    + right. exists (y :: x), post. split; [reflexivity|].
      split; [assumption|]. exact (rfind_last c (y :: x) post Hn).
Qed.

Lemma slice_index_range (n i : Z) : 0 <= n -> 0 <= slice_index n i <= n.
Proof.
  intro H. unfold slice_index. destruct (Z.ltb_spec i 0); lia.
Qed.

Lemma slice_middle (a b c : str) (start stop : Z) :
  slice_index (len (a ++ b ++ c)) start = len a ->
  slice_index (len (a ++ b ++ c)) stop = len a + len b ->
  slice (a ++ b ++ c) start stop = b.
Proof.
  intros Ha Hb. unfold slice. rewrite Ha, Hb.
  replace (len a + len b - len a) with (len b) by lia.
  unfold len. rewrite !Nat2Z.id.
  rewrite skipn_app, skipn_all, Nat.sub_diag. cbn [app skipn].
  rewrite firstn_app, firstn_all, Nat.sub_diag. cbn [firstn].
  apply app_nil_r.
Qed.

Lemma slice_empty (t : str) (start stop : Z) :
  slice_index (len t) stop <= slice_index (len t) start ->
  slice t start stop = [].
Proof.
  intro H. unfold slice.
  replace (Z.to_nat (slice_index (len t) stop - slice_index (len t) start))
    with 0%nat by lia.
  reflexivity.
Qed.

Lemma slice_index_id (n i : Z) : 0 <= i <= n -> slice_index n i = i.
Proof. intro H. unfold slice_index. destruct (Z.ltb_spec i 0); lia. Qed.

Lemma slice_index_last (n : Z) : 1 <= n -> slice_index n (-1) = n - 1.
Proof. intro H. unfold slice_index. destruct (Z.ltb_spec (-1) 0); lia. Qed.

Ltac len_simpl :=
  repeat (rewrite len_app || rewrite len_cons); change (len []) with 0 in *.

(** Both braces present, the first "{" before the last "}". *)
Lemma braces_both (pre mid post : str) :
  ~ In 123 pre -> ~ In 125 post ->
  slice (pre ++ 123 :: mid ++ 125 :: post)
        (find 123 (pre ++ 123 :: mid ++ 125 :: post))
        (rfind 125 (pre ++ 123 :: mid ++ 125 :: post) + 1)
  = 123 :: mid ++ [125].
Proof.
  intros H1 H2.
  rewrite (find_first 123 pre (mid ++ 125 :: post) H1).
  replace (rfind 125 (pre ++ 123 :: mid ++ 125 :: post))
    with (len pre + 1 + len mid).
  2:{ change (pre ++ 123 :: mid ++ 125 :: post)
        with (pre ++ (123 :: mid) ++ 125 :: post).
      rewrite app_assoc, (rfind_last 125 _ post H2), len_app, len_cons. lia. }
  replace (pre ++ 123 :: mid ++ 125 :: post)
    with (pre ++ (123 :: mid ++ [125]) ++ post)
    by (cbn [app]; rewrite <- app_assoc; reflexivity).
  pose proof (len_nonneg pre). pose proof (len_nonneg mid).
  pose proof (len_nonneg post).
  apply slice_middle; len_simpl; rewrite slice_index_id by lia; lia.
Qed.

(** No "}" at all: the stop index is 0. *)
Lemma braces_no_close (t : str) :
  ~ In 125 t -> slice t (find 123 t) (rfind 125 t + 1) = [].
Proof.
  intro H. rewrite (rfind_notin 125 t H). apply slice_empty.
  pose proof (len_nonneg t).
  rewrite (slice_index_id (len t) (-1 + 1)) by lia.
  apply slice_index_range. assumption.
Qed.

(** No "{": the start index is that of the last character. *)
Lemma braces_no_open (x post : str) :
  ~ In 123 (x ++ 125 :: post) -> ~ In 125 post ->
  slice (x ++ 125 :: post)
        (find 123 (x ++ 125 :: post)) (rfind 125 (x ++ 125 :: post) + 1)
  = match post with [] => [125] | _ => [] end.
Proof.
  intros H1 H2. rewrite (find_notin 123 _ H1), (rfind_last 125 x post H2).
  pose proof (len_nonneg x). pose proof (len_nonneg post).
  destruct post as [|p post].
  - change (x ++ [125]) with (x ++ [125] ++ []).
    apply slice_middle; len_simpl.
    + rewrite slice_index_last; lia.
    + rewrite slice_index_id by lia. lia.
  - apply slice_empty. len_simpl. pose proof (len_nonneg post).
    rewrite slice_index_id by lia. rewrite slice_index_last; lia.
Qed.

(** A "{", and no "}" behind it. *)
Lemma braces_close_before_open (pre post : str) :
  ~ In 123 pre -> ~ In 125 post ->
  slice (pre ++ 123 :: post)
        (find 123 (pre ++ 123 :: post)) (rfind 125 (pre ++ 123 :: post) + 1)
  = [].
Proof.
  intros H1 H2. rewrite (find_first 123 pre post H1), rfind_app.
  assert (H3 : ~ In 125 (123 :: post))
    by (intros [H|H]; [discriminate|now apply H2]).
  rewrite (rfind_notin 125 _ H3). replace (0 <=? -1) with false by reflexivity.
  pose proof (rfind_bounds 125 pre) as [B1 B2].
  pose proof (len_nonneg pre). pose proof (len_nonneg post).
  apply slice_empty. len_simpl.
  rewrite (slice_index_id _ (len pre)) by lia.
  destruct B2 as [B2| ->].
  - rewrite slice_index_id; lia.
  - simpl (rfind 125 []). len_simpl. rewrite slice_index_id; lia.
Qed.

(** The result is empty, is "}", or runs from a "{" to a "}". *)
Lemma braces_shape (t : str) :
  let o := slice t (find 123 t) (rfind 125 t + 1) in
  o = [] \/ o = [125] \/ exists mid, o = 123 :: mid ++ [125].
Proof.
  cbv zeta.
  destruct (find_spec 123 t) as [[Hn _]|(pre & rest & -> & Hpre & _)].
  - destruct (rfind_spec 125 t) as [[Hc _]|(x & post & -> & Hpost & _)].
    + left. now apply braces_no_close.
    + rewrite (braces_no_open x post Hn Hpost).
      destruct post; [right; now left|now left].
  - destruct (rfind_spec 125 rest) as [[Hc _]|(x & post & -> & Hpost & _)].
    + left. now apply braces_close_before_open.
    + right. right. exists x. now apply braces_both.
Qed.

(** C2 (as amended): [clean_json_string] deletes the matches of the fence
    pattern in one pass, trims, and slices with the results of [find] and
    [rfind] as they are.  With a "{" and a later "}" the result runs from the
    first "{" to the last "}" inclusive.  Without any "}" the stop index is 0
    and the result is empty, so a brace-free string yields the empty string.
    Without any "{" the start index is -1, the last character, and the result
    is "}" when the text ends with "}" and empty otherwise.  With no "}"
    behind the first "{" the result is empty. *)
Theorem clean_json_string_slices (json_string : str) :
  let t := strip (sub_delete fence_re 0 json_string) in
  (forall pre mid post,
     t = pre ++ 123 :: mid ++ 125 :: post -> ~ In 123 pre -> ~ In 125 post ->
     clean_json_string json_string = 123 :: mid ++ [125])
  /\ (~ In 125 t -> clean_json_string json_string = [])
  /\ (forall x post,
        t = x ++ 125 :: post -> ~ In 123 t -> ~ In 125 post ->
        clean_json_string json_string
        = match post with [] => [125] | _ => [] end)
  /\ (forall pre post,
        t = pre ++ 123 :: post -> ~ In 123 pre -> ~ In 125 post ->
        clean_json_string json_string = []).
Proof.
  cbv zeta. unfold clean_json_string.
  generalize (strip (sub_delete fence_re 0 json_string)); intro t.
  split; [|split; [|split]].
  - intros pre mid post -> H1 H2. now apply braces_both.
  - apply braces_no_close.
  - intros x post -> H1 H2. now apply braces_no_open.
  - intros pre post -> H1 H2. now apply braces_close_before_open.
Qed.

(** ** The fence pattern *)

Lemma exec_lit_some {A : Type} (l : str) :
  forall (s : str) (g : groups) (k : str -> groups -> option A) (x : A),
    exec (lit l) s g k = Some x -> exists s', s = l ++ s' /\ k s' g = Some x.
Proof.
  induction l as [|c l IH]; intros s g k x H.
  - exists s. now split.
  - cbn [lit exec] in H. destruct s as [|y s]; [discriminate|].
    destruct (Z.eqb_spec y c) as [->|_]; [|discriminate].
    apply IH in H as (s' & -> & Hk). exists s'. now split.
Qed.

Lemma star_k_some {A : Type} (p : char -> bool) (k : str -> option A) (s : str) :
  forall x, star_k p k s = Some x -> exists a s', s = a ++ s' /\ k s' = Some x.
Proof.
  induction s as [|c s IH]; intros x H.
  - exists [], []. now split.
  - cbn [star_k] in H. destruct (p c).
    + destruct (star_k p k s) as [y|] eqn:E.
      * injection H as <-. destruct (IH y eq_refl) as (a & s' & -> & Hk).
        exists (c :: a), s'. now split.
      * exists [], (c :: s). now split.
    + exists [], (c :: s). now split.
Qed.

Lemma has_fence_app (a b : str) : has_fence b = true -> has_fence (a ++ b) = true.
Proof.
  intro H. induction a as [|x a IH]; [exact H|].
  cbn [app has_fence]. rewrite IH. apply orb_true_r.
Qed.

(** Where the pattern matches, the text has a fence. *)
Lemma fence_match_has_fence (s : str) (m : nat * groups) :
  re_match fence_re s = Some m -> has_fence s = true.
Proof.
  unfold re_match, fence_re. cbn [exec].
  match goal with
  | |- match ?a with _ => _ end = _ -> _ => destruct a as [y|] eqn:E1
  end.
  - intros _. apply exec_lit_some in E1 as (s' & -> & _). reflexivity.
  - intro E2. apply star_k_some in E2 as (a & s' & -> & E2).
    apply exec_lit_some in E2 as (s'' & -> & _).
    apply has_fence_app. reflexivity.
Qed.

Lemma sub_delete_no_fence (s : str) :
  has_fence s = false -> sub_delete fence_re 0 s = s.
Proof.
  induction s as [|c s IH]; intro H; [reflexivity|].
  cbn [sub_delete].
  destruct (re_match fence_re (c :: s)) as [m|] eqn:E.
  - apply fence_match_has_fence in E. congruence.
  - f_equal. apply IH. cbn [has_fence] in H.
    now apply orb_false_elim in H.
Qed.

Lemma strip_braced (mid : str) : strip (123 :: mid ++ [125]) = 123 :: mid ++ [125].
Proof.
  unfold strip, rstrip.
  assert (L : forall l, lstrip (123 :: l) = 123 :: l) by reflexivity.
  assert (R : forall l, lstrip (125 :: l) = 125 :: l) by reflexivity.
  rewrite L. change (123 :: mid ++ [125]) with ((123 :: mid) ++ [125]).
  rewrite rev_unit, R, <- rev_unit. apply rev_involutive.
Qed.

(** C7 (as amended): applying [clean_json_string] to its own output returns
    that output unchanged whenever the output contains no fence "```". *)
Theorem clean_json_string_fixed_point (json_string : str) :
  has_fence (clean_json_string json_string) = false ->
  clean_json_string (clean_json_string json_string)
  = clean_json_string json_string.
Proof.
  unfold clean_json_string at 1 3 4.
  generalize (strip (sub_delete fence_re 0 json_string)); intro t.
  destruct (braces_shape t) as [->|[->|(mid & ->)]]; intro H.
  - reflexivity.
  - reflexivity.
  - unfold clean_json_string.
    rewrite (sub_delete_no_fence _ H), strip_braced.
    exact (braces_both [] mid [] (fun x => x) (fun x => x)).
Qed.

(** *** A fence in the output is always deleted by the next application *)

Lemma length_lstrip (s : str) : (List.length (lstrip s) <= List.length s)%nat.
Proof.
  induction s as [|c s IH]; [apply le_n|].
  cbn [lstrip]. destruct (isspace c); simpl; lia.
Qed.

Lemma length_strip (s : str) : (List.length (strip s) <= List.length s)%nat.
Proof.
  unfold strip, rstrip. rewrite length_rev.
  pose proof (length_lstrip (rev (lstrip s))) as H. rewrite length_rev in H.
  pose proof (length_lstrip s). lia.
Qed.

Lemma length_slice (s : str) (start stop : Z) :
  (List.length (slice s start stop) <= List.length s)%nat.
Proof.
  unfold slice. rewrite length_firstn, length_skipn. lia.
Qed.

Lemma length_sub_delete (r : regex) (s : str) :
  forall skip, (List.length (sub_delete r skip s) <= List.length s)%nat.
Proof.
  induction s as [|c s IH]; intro skip; [apply le_n|].
  cbn [sub_delete]. destruct skip as [|n].
  - destruct (re_match r (c :: s)) as [[[|n] g]|]; simpl;
      try (specialize (IH 0%nat); lia).
    specialize (IH n). lia.
  - specialize (IH n). simpl. lia.
Qed.

(** A match of the fence pattern has at least the three backquotes. *)
Lemma fence_match_length (s : str) (n : nat) (g : groups) :
  re_match fence_re s = Some (n, g) -> (3 <= n)%nat.
Proof.
  unfold re_match, fence_re. cbn [exec].
  match goal with
  | |- match ?a with _ => _ end = _ -> _ => destruct a as [y|] eqn:E1
  end.
  - intro H. injection H as ->.
    apply exec_lit_some in E1 as (s1 & -> & E1). cbv beta in E1.
    cbn [exec] in E1. apply star_k_some in E1 as (a & s' & -> & E1).
    assert (Hn : n = (List.length (py "```json" ++ a ++ s') - List.length s')%nat)
      by congruence.
    rewrite Hn, !length_app.
    change (List.length (py "```json")) with 7%nat. lia.
  - intro E2. apply star_k_some in E2 as (a & s' & -> & E2).
    apply exec_lit_some in E2 as (s'' & -> & E2).
    assert (Hn : n = (List.length (a ++ py "```" ++ s'') - List.length s'')%nat)
      by congruence.
    rewrite Hn, !length_app.
    change (List.length (py "```")) with 3%nat. lia.
Qed.

(** Where the text starts with a fence, the pattern matches. *)
Lemma fence_match_exists (s : str) :
  starts_with_fence s = true -> re_match fence_re s <> None.
Proof.
  destruct s as [|a [|b [|c rest]]]; try discriminate.
  cbn [starts_with_fence]. intro H.
  apply andb_true_iff in H as [H Hc]. apply andb_true_iff in H as [Ha Hb].
  apply Z.eqb_eq in Ha, Hb, Hc. subst a b c.
  unfold re_match, fence_re. cbn [exec].
  match goal with
  | |- match ?a with _ => _ end <> _ => destruct a as [y|]
  end; [discriminate|].
  cbn [star_k]. change (isspace 96) with false. cbv iota.
  change (py "```") with [96; 96; 96]. cbn [lit exec].
  change (96 =? 96) with true. cbv iota. discriminate.
Qed.

Lemma sub_delete_fenced_shrinks (s : str) :
  has_fence s = true ->
  (List.length (sub_delete fence_re 0 s) < List.length s)%nat.
Proof.
  induction s as [|c s IH]; [discriminate|]. intro H.
  cbn [sub_delete].
  destruct (re_match fence_re (c :: s)) as [[n g]|] eqn:E.
  - apply fence_match_length in E as L. destruct n as [|n]; [lia|].
    pose proof (length_sub_delete fence_re s n). simpl. lia.
  - cbn [has_fence] in H. apply orb_true_iff in H as [H|H].
    + now apply fence_match_exists in H.
    + specialize (IH H). simpl. lia.
Qed.

(** The converse of the fixed-point property: an output that contains a
    fence is not a fixed point, the next application is strictly shorter. *)
Lemma fenced_output_is_not_fixed (json_string : str) :
  has_fence (clean_json_string json_string) = true ->
  clean_json_string (clean_json_string json_string)
  <> clean_json_string json_string.
Proof.
  intros H E.
  apply sub_delete_fenced_shrinks in H.
  assert (L : (List.length (clean_json_string (clean_json_string json_string))
               < List.length (clean_json_string json_string))%nat).
  { unfold clean_json_string at 1.
    eapply Nat.le_lt_trans; [apply length_slice|].
    eapply Nat.le_lt_trans; [apply length_strip|]. exact H. }
  rewrite E in L. lia.
Qed.

(** The example of the design document: a fenced object is unwrapped. *)
Example clean_json_string_fenced :
  clean_json_string
    (py "```json" ++ [10] ++ py "{" ++ [34] ++ py "a" ++ [34] ++ py ":1}"
     ++ [10] ++ py "```")
  = py "{" ++ [34] ++ py "a" ++ [34] ++ py ":1}".
Proof. vm_compute. reflexivity. Qed.

(** ** Concrete runs *)

(** C1, as stated, fails: the second of two submissions is answered with
    status 401; the function reports failure and shows the
    authorization-required message although the first draft was accepted and
    stays in the calendar. *)
Lemma partial_submission_on_authorization_failure :
  let C := Demo.refusing_second in
  let run :=
    create_google_calendar_event C (Demo.logged_in C tt) [] (Demo.fresh C 0%nat) in
  fst run = Ok None
  /\ log (snd run)
     = [@Insert C (Demo.draft (py "회의") (mkDatetime 2024 1 1 9 0 0 0)
                              (mkDatetime 2024 1 1 10 0 0 0)) (Ok 0%nat);
        Insert (Demo.draft (py "회의") (mkDatetime 2024 2 1 9 0 0 0)
                           (mkDatetime 2024 2 1 10 0 0 0))
               (Raise (HttpError 401));
        Warning auth_needed]
  /\ List.length (created C (log (snd run))) = 1%nat.
Proof. vm_compute. repeat split. Qed.

Lemma authorization_failure_aborts_witness :
  let C := Demo.refusing_second in
  let run :=
    create_google_calendar_event C (Demo.logged_in C tt) [] (Demo.fresh C 0%nat) in
  let first :=
    @Insert C (Demo.draft (py "회의") (mkDatetime 2024 1 1 9 0 0 0)
                          (mkDatetime 2024 1 1 10 0 0 0)) (Ok 0%nat) in
  let second :=
    @Insert C (Demo.draft (py "회의") (mkDatetime 2024 2 1 9 0 0 0)
                          (mkDatetime 2024 2 1 10 0 0 0))
            (Raise (HttpError 401)) in
  fst run = Ok None
  /\ exists pre,
       Forall ok_insert pre
       /\ [first; second; Warning auth_needed]
          = pre ++ [second; Warning auth_needed].
Proof.
  cbv zeta.
  apply (proj2 (authorization_failure_aborts Demo.refusing_second
                  (Demo.logged_in Demo.refusing_second tt) []
                  (Demo.fresh Demo.refusing_second 0%nat) _ _
                  (surjective_pairing _))).
  - vm_compute. reflexivity.
  - right. left. reflexivity.
  - left. reflexivity.
Defined.

(** C3, as stated, fails for an entry that is not a string: [strptime] raises
    [TypeError], which the fallback does not take; the batch is aborted,
    nothing is submitted for the date that follows, and [None] is returned. *)
Lemma non_string_date_aborts_batch :
  let C := Demo.accepting Demo.number_and_date in
  strptime (JInt 20240315) = Raise TypeError
  /\ create_google_calendar_event C (Demo.logged_in C tt) [] (Demo.fresh C 0%nat)
     = (Ok None, @mkState C 0%nat [ErrorUnexpected TypeError]).
Proof. vm_compute. split; reflexivity. Qed.

Lemma parse_failure_falls_back_witness :
  let C := Demo.accepting Demo.malformed_then_date in
  let r := mkRecord (JStr []) (JArr []) (JStr []) (JStr []) (JStr (py "기본 알림")) in
  let dt := mkDatetime 2024 3 8 12 30 15 250000 in
  let end_time := mkDatetime 2024 3 8 13 30 15 250000 in
  resolve_start C (JStr (py "March 15")) (Demo.fresh C 0%nat)
  = (Ok dt, Demo.fresh C 0%nat)
  /\ for_dates C tt r [] [JStr (py "March 15"); JStr Demo.date1] (Demo.fresh C 0%nat)
     = for_dates C tt r [0%nat] [JStr Demo.date1]
         (@mkState C 1%nat [draft_entry C r (dt, end_time, 0%nat)]).
Proof.
  cbv zeta.
  destruct (parse_failure_falls_back (Demo.accepting Demo.malformed_then_date) tt
              (mkRecord (JStr []) (JArr []) (JStr []) (JStr [])
                        (JStr (py "기본 알림")))
              [] (py "March 15") [JStr Demo.date1]
              (Demo.fresh (Demo.accepting Demo.malformed_then_date) 0%nat)
              ValueError)
    as (_ & R & _ & F).
  - vm_compute. reflexivity.
  - split.
    + rewrite R. vm_compute. reflexivity.
    + apply F; vm_compute; reflexivity.
Defined.

(** C5, as stated, fails for a date in the last hour of year 9999: the string
    parses, the end one hour later does not exist, [OverflowError] aborts the
    run and no handle is produced for the one date. *)
Lemma last_hour_of_9999_yields_no_event :
  let C := Demo.accepting Demo.last_half_hour in
  strptime (JStr (py "9999년 12월 31일 23:30"))
  = Ok (mkDatetime 9999 12 31 23 30 0 0)
  /\ create_google_calendar_event C (Demo.logged_in C tt) [] (Demo.fresh C 0%nat)
     = (Ok None, @mkState C 0%nat [ErrorUnexpected OverflowError]).
Proof. vm_compute. split; reflexivity. Qed.

Lemma one_event_per_date_witness :
  let C := Demo.accepting Demo.two_dates in
  let r :=
    mkRecord (JStr (py "회의")) (JArr [JStr Demo.date1; JStr Demo.date2])
             (JStr []) (JStr []) (JStr (py "기본 알림")) in
  (exists xs s',
     create_google_calendar_event C (Demo.logged_in C tt) [] (Demo.fresh C 0%nat)
     = (Ok (Some (map snd xs)), s')
     /\ List.length (map snd xs) = List.length [Demo.date1; Demo.date2]
     /\ log s' = log (Demo.fresh C 0%nat) ++ map (draft_entry C r) xs
     /\ Forall2 (fun d x => resolved_from C d (fst (fst x))
                            /\ datetime_add (fst (fst x)) one_hour
                               = Ok (snd (fst x)))
                [Demo.date1; Demo.date2] xs)
  /\ strptime (JStr (py "2024년 03월 15일 10:00"))
     = Ok (mkDatetime 2024 3 15 10 0 0 0)
  /\ datetime_add (mkDatetime 2024 3 15 10 0 0 0) one_hour
     = Ok (mkDatetime 2024 3 15 11 0 0 0)
  /\ isoformat (mkDatetime 2024 3 15 10 0 0 0) = py "2024-03-15T10:00:00"
  /\ isoformat (mkDatetime 2024 3 15 11 0 0 0) = py "2024-03-15T11:00:00".
Proof.
  cbv zeta.
  apply (one_event_per_date (Demo.accepting Demo.two_dates)
           (Demo.logged_in (Demo.accepting Demo.two_dates) tt) []
           (Demo.fresh (Demo.accepting Demo.two_dates) 0%nat)
           tt tt tt Demo.two_dates
           (mkRecord (JStr (py "회의")) (JArr [JStr Demo.date1; JStr Demo.date2])
                     (JStr []) (JStr []) (JStr (py "기본 알림")))
           [Demo.date1; Demo.date2]).
  - reflexivity.
  - reflexivity.
  - reflexivity.
  - reflexivity.
  - vm_compute. reflexivity.
  - reflexivity.
  - intros body w. exists w, (S w). reflexivity.
  - intros d dt [<-|[<-|[]]] H; vm_compute in H; injection H as <-;
      eexists; vm_compute; reflexivity.
  - intro w. exists (mkDatetime 2024 3 8 12 30 15 250000).
    exists (mkDatetime 2024 3 8 13 30 15 250000).
    split; vm_compute; reflexivity.
Defined.

Lemma reminder_tag_is_normalized_witness :
  reminder (mkRecord (JStr []) (JArr []) (JStr []) (JStr []) (JStr (py "기본 알림")))
  = JStr (tag_text DefaultTag)
  /\ reminders_for (JStr (py "하루 전")) Demo.clock = UseDefault.
Proof.
  split.
  - refine (proj1 (reminder_tag_is_normalized (Demo.accepting Demo.no_dates)
                     [] _ _) _); reflexivity.
  - refine (proj1 (proj2 (proj2
             (reminder_tag_is_normalized (Demo.accepting Demo.unknown_tag)
                [(py "알림_설정", JStr (py "하루 전"))]
                (mkRecord (JStr []) (JArr []) (JStr []) (JStr [])
                          (JStr (py "하루 전")))
                _))) Demo.clock _); vm_compute; reflexivity.
Defined.

Lemma empty_dates_is_success_witness :
  let C := Demo.accepting Demo.no_dates in
  create_google_calendar_event C (Demo.logged_in C tt) [] (Demo.fresh C 0%nat)
  = (Ok (Some []), Demo.fresh C 0%nat)
  /\ (Some [] : option (list (Handle C))) <> None.
Proof.
  cbv zeta.
  apply (empty_dates_is_success (Demo.accepting Demo.no_dates)
           (Demo.logged_in (Demo.accepting Demo.no_dates) tt) []
           (Demo.fresh (Demo.accepting Demo.no_dates) 0%nat)
           tt tt tt Demo.no_dates
           (mkRecord (JStr (py "회의")) (JArr []) (JStr []) (JStr [])
                     (JStr (py "기본 알림"))));
    reflexivity.
Defined.

(** C2, as stated, fails on a brace-free string: it is not returned whole
    but emptied. *)
Lemma brace_free_string_is_emptied :
  strip (sub_delete fence_re 0 (py "abc")) = py "abc"
  /\ find 123 (py "abc") = -1
  /\ rfind 125 (py "abc") = -1
  /\ clean_json_string (py "abc") = []
  /\ clean_json_string (py "abc") <> py "abc".
Proof. vm_compute. repeat split. discriminate. Qed.

(** C7, as stated, fails: deleting the match " ```" in "{`` ````}" joins two
    backquotes and one into a new fence, which only a second application
    deletes. *)
Lemma fence_rebuilt_by_deletion :
  clean_json_string (py "{`` ````}") = py "{```}"
  /\ clean_json_string (py "{```}") = py "{}"
  /\ clean_json_string (clean_json_string (py "{`` ````}"))
     <> clean_json_string (py "{`` ````}").
Proof. vm_compute. repeat split. discriminate. Qed.

Lemma clean_json_string_fixed_point_witness :
  clean_json_string (clean_json_string (py "```json {a} ```"))
  = clean_json_string (py "```json {a} ```").
Proof.
  apply (clean_json_string_fixed_point (py "```json {a} ```")).
  vm_compute. reflexivity.
Defined.

(** * Further properties of [clean_json_string] *)

Lemma forallb_isspace_head (x : char) (w : str) :
  forallb isspace (x :: w) = true -> isspace x = true /\ forallb isspace w = true.
Proof. cbn [forallb]. intro H. now apply andb_true_iff in H. Qed.

Lemma lstrip_app_nonspace (a b : str) (c : char) :
  isspace c = false -> lstrip (a ++ c :: b) = lstrip a ++ c :: b.
Proof.
  intro H. induction a as [|x a IH].
  - cbn [app lstrip]. now rewrite H.
  - cbn [app lstrip]. destruct (isspace x); [exact IH|reflexivity].
Qed.

Lemma in_lstrip (x : char) (a : str) : In x (lstrip a) -> In x a.
Proof.
  induction a as [|y a IH]; [exact (fun H => H)|].
  cbn [lstrip]. destruct (isspace y); [|exact (fun H => H)].
  intro H. right. now apply IH.
Qed.

Lemma in_rstrip (x : char) (a : str) : In x (rstrip a) -> In x a.
Proof.
  unfold rstrip. intro H. apply in_rev in H. apply in_lstrip in H.
  now apply in_rev.
Qed.

Lemma in_strip (x : char) (s : str) : In x (strip s) -> In x s.
Proof. unfold strip. intro H. now apply in_lstrip, in_rstrip. Qed.

Lemma in_sub_delete (r : regex) (x : char) (s : str) :
  forall skip, In x (sub_delete r skip s) -> In x s.
Proof.
  induction s as [|c s IH]; intros skip; cbn [sub_delete]; [exact (fun H => H)|].
  destruct skip as [|n].
  - destruct (re_match r (c :: s)) as [[[|n] g]|].
    + intros [H|H]; [now left|right; now apply (IH 0%nat)].
    + intro H. right. now apply (IH n).
    + intros [H|H]; [now left|right; now apply (IH 0%nat)].
  - intro H. right. now apply (IH n).
Qed.

Lemma in_slice (x : char) (s : str) (start stop : Z) :
  In x (slice s start stop) -> In x s.
Proof.
  unfold slice.
  generalize (Z.to_nat (slice_index (len s) stop - slice_index (len s) start)).
  generalize (Z.to_nat (slice_index (len s) start)). intros a n H.
  rewrite <- (firstn_skipn a s). apply in_or_app. right.
  rewrite <- (firstn_skipn n (skipn a s)). apply in_or_app. now left.
Qed.

(** Trimming a text whose first "{" and last "}" are known trims the prose
    before and behind them. *)
Lemma strip_around_braces (pre mid post : str) :
  strip (pre ++ 123 :: mid ++ 125 :: post)
  = lstrip pre ++ 123 :: mid ++ 125 :: rstrip post.
Proof.
  unfold strip. rewrite (lstrip_app_nonspace pre _ 123) by reflexivity.
  unfold rstrip.
  replace (lstrip pre ++ 123 :: mid ++ 125 :: post)
    with ((lstrip pre ++ 123 :: mid) ++ 125 :: post)
    by (rewrite <- app_assoc; reflexivity).
  rewrite rev_app_distr. cbn [rev]. rewrite <- app_assoc. cbn [app].
  rewrite (lstrip_app_nonspace (rev post) _ 125) by reflexivity.
  rewrite rev_app_distr. cbn [rev]. rewrite rev_involutive.
  rewrite <- !app_assoc. reflexivity.
Qed.

Lemma clean_json_string_shape_cases (json_string : str) :
  clean_json_string json_string = []
  \/ clean_json_string json_string = [125]
  \/ exists mid, clean_json_string json_string = 123 :: mid ++ [125].
Proof.
  unfold clean_json_string.
  generalize (strip (sub_delete fence_re 0 json_string)); intro t.
  exact (braces_shape t).
Qed.

Lemma clean_json_string_no_close (s : str) :
  ~ In 125 s -> clean_json_string s = [].
Proof.
  intro H. unfold clean_json_string. apply braces_no_close.
  intro H1. apply H. apply in_strip in H1. now apply in_sub_delete in H1.
Qed.

(** X1: whatever the input, the output of [clean_json_string] is empty, is
    the single character "}", or starts with "{" and ends with "}"; so it
    has no whitespace at either end, and trimming it again changes nothing. *)
Theorem clean_json_string_shape (json_string : str) :
  (clean_json_string json_string = []
   \/ clean_json_string json_string = [125]
   \/ exists mid, clean_json_string json_string = 123 :: mid ++ [125])
  /\ strip (clean_json_string json_string) = clean_json_string json_string.
Proof.
  split; [apply clean_json_string_shape_cases|].
  destruct (clean_json_string_shape_cases json_string) as [->|[->|(mid & ->)]].
  - reflexivity.
  - reflexivity.
  - apply strip_braced.
Qed.

(** X2: [clean_json_string] only takes text away: its output is never
    longer than its input, and every character of the output is a character
    of the input. *)
Theorem clean_json_string_only_removes (json_string : str) :
  (List.length (clean_json_string json_string) <= List.length json_string)%nat
  /\ forall x, In x (clean_json_string json_string) -> In x json_string.
Proof.
  unfold clean_json_string. split.
  - eapply Nat.le_trans; [apply length_slice|].
    eapply Nat.le_trans; [apply length_strip|].
    apply length_sub_delete.
  - intros x H. apply in_slice, in_strip in H.
    now apply in_sub_delete in H.
Qed.

(** X3: when the input contains no fence, the prose before the first "{"
    and behind the last "}" is dropped and the braced text between them is
    returned as it is. *)
Theorem clean_json_string_drops_prose (pre mid post : str) :
  has_fence (pre ++ 123 :: mid ++ 125 :: post) = false ->
  ~ In 123 pre -> ~ In 125 post ->
  clean_json_string (pre ++ 123 :: mid ++ 125 :: post) = 123 :: mid ++ [125].
Proof.
  intros Hf Hpre Hpost. unfold clean_json_string.
  rewrite (sub_delete_no_fence _ Hf), strip_around_braces.
  apply braces_both.
  - intro H. apply Hpre. now apply in_lstrip.
  - intro H. apply Hpost. now apply in_rstrip.
Qed.

(** *** A fenced object is unwrapped *)

Lemma exec_lit_app {A : Type} (l : str) :
  forall (s : str) (g : groups) (k : str -> groups -> option A),
    exec (lit l) (l ++ s) g k = k s g.
Proof.
  induction l as [|c l IH]; intros s g k; [reflexivity|].
  cbn [lit exec app]. rewrite Z.eqb_refl. apply IH.
Qed.

(** The greedy star takes the whole run of matching characters when the
    rest of the pattern succeeds behind it. *)
Lemma star_k_greedy {A : Type} (p : char -> bool) (k : str -> option A)
  (w : str) (c : char) (r : str) (v : A) :
  forallb p w = true -> p c = false -> k (c :: r) = Some v ->
  star_k p k (w ++ c :: r) = Some v.
Proof.
  intros Hw Hc Hk. induction w as [|x w IH].
  - cbn [app star_k]. now rewrite Hc.
  - cbn [forallb] in Hw. apply andb_true_iff in Hw as [Hx Hw].
    cbn [app star_k]. rewrite Hx, (IH Hw). reflexivity.
Qed.

Lemma star_k_some_all {A : Type} (p : char -> bool) (k : str -> option A)
  (s : str) :
  forall x, star_k p k s = Some x ->
            exists a s', s = a ++ s' /\ forallb p a = true /\ k s' = Some x.
Proof.
  induction s as [|c s IH]; intros x H.
  - exists [], []. repeat split. exact H.
  - cbn [star_k] in H. destruct (p c) eqn:Hc.
    + destruct (star_k p k s) as [y|] eqn:E.
      * injection H as <-. destruct (IH y eq_refl) as (a & s' & -> & Ha & Hk).
        exists (c :: a), s'. cbn [forallb]. rewrite Hc, Ha. now repeat split.
      * exists [], (c :: s). now repeat split.
    + exists [], (c :: s). now repeat split.
Qed.

(** A match of the fence pattern starts with whitespace followed by three
    backquotes. *)
Lemma fence_match_inv (s : str) (m : nat * groups) :
  re_match fence_re s = Some m ->
  exists a rest, forallb isspace a = true /\ s = a ++ 96 :: 96 :: 96 :: rest.
Proof.
  unfold re_match, fence_re. cbn [exec].
  match goal with
  | |- match ?a with _ => _ end = _ -> _ => destruct a as [y|] eqn:E1
  end.
  - intros _. apply exec_lit_some in E1 as (s' & -> & _).
    exists [], (py "json" ++ s'). split; reflexivity.
  - intro E2. apply star_k_some_all in E2 as (a & s' & -> & Ha & E2).
    apply exec_lit_some in E2 as (s'' & -> & _).
    exists a, s''. split; [exact Ha|reflexivity].
Qed.

Lemma no_fence_before_brace (a : str) :
  forall (u rest tail : str),
    forallb isspace a = true ->
    a ++ 96 :: 96 :: 96 :: rest = u ++ 125 :: tail ->
    has_fence (u ++ [125]) = true.
Proof.
  induction a as [|y a IH]; intros u rest tail Ha H.
  - cbn [app] in H.
    destruct u as [|x1 [|x2 [|x3 u]]]; try discriminate.
    injection H as <- <- <- _. reflexivity.
  - apply forallb_isspace_head in Ha as [Hy Ha].
    destruct u as [|x u].
    + injection H as -> _. discriminate.
    + injection H as _ H. cbn [app has_fence].
      rewrite (IH u rest tail Ha H). apply orb_true_r.
Qed.

(** The scan copies a text that ends with "}" and contains no fence,
    whatever follows. *)
Lemma sub_delete_keeps (u : str) :
  forall tail : str,
    has_fence (u ++ [125]) = false ->
    sub_delete fence_re 0 (u ++ 125 :: tail)
    = u ++ 125 :: sub_delete fence_re 0 tail.
Proof.
  assert (N : forall (v tail : str),
             has_fence (v ++ [125]) = false ->
             re_match fence_re (v ++ 125 :: tail) = None).
  { intros v tail Hv.
    destruct (re_match fence_re (v ++ 125 :: tail)) as [m|] eqn:E;
      [|reflexivity].
    apply fence_match_inv in E as (a & rest & Ha & E).
    rewrite (no_fence_before_brace a v rest tail Ha (eq_sym E)) in Hv. discriminate. }
  induction u as [|x u IH]; intros tail H.
  - pose proof (N [] tail H) as N0. cbn [app] in N0.
    cbn [app sub_delete]. now rewrite N0.
  - pose proof (N (x :: u) tail H) as N0. cbn [app] in N0.
    cbn [app sub_delete]. rewrite N0. f_equal. apply IH.
    cbn [app has_fence] in H. now apply orb_false_elim in H.
Qed.

Lemma sub_delete_skip (r : regex) (a : str) :
  forall b : str, sub_delete r (List.length a) (a ++ b) = sub_delete r 0 b.
Proof.
  induction a as [|x a IH]; intro b; [reflexivity|].
  cbn [List.length app sub_delete]. apply IH.
Qed.

(** The opening fence with the whitespace behind it is one match. *)
Lemma opening_fence_match (w : str) (c : char) (rest : str) :
  forallb isspace w = true -> isspace c = false ->
  re_match fence_re (py "```json" ++ w ++ c :: rest)
  = Some (S (List.length (py "``json" ++ w)), []).
Proof.
  intros Hw Hc. unfold re_match, fence_re. cbn [exec].
  rewrite exec_lit_app. cbn [exec].
  erewrite (star_k_greedy isspace _ w c rest); [|exact Hw|exact Hc|reflexivity].
  do 2 f_equal. rewrite !length_app.
  change (List.length (py "```json")) with 7%nat.
  change (List.length (py "``json")) with 6%nat.
  cbn [List.length]. lia.
Qed.

(** The whitespace before the closing fence and the fence are one match,
    and nothing is left. *)
Lemma closing_fence_deleted (w : str) :
  forallb isspace w = true -> sub_delete fence_re 0 (w ++ py "```") = [].
Proof.
  intro Hw. destruct w as [|x w]; [reflexivity|].
  apply forallb_isspace_head in Hw as [Hx Hw].
  assert (Hx96 : (x =? 96) = false).
  { destruct (Z.eqb_spec x 96) as [->|]; [discriminate|reflexivity]. }
  assert (M : re_match fence_re ((x :: w) ++ py "```")
              = Some (S (List.length (w ++ py "```")), [])).
  { unfold re_match, fence_re. cbn [exec].
    change (py "```json") with (96 :: py "``json").
    cbn [lit exec app]. rewrite Hx96.
    change (py "```") with [96; 96; 96].
    change (x :: w ++ [96; 96; 96]) with ((x :: w) ++ 96 :: [96; 96]).
    erewrite (star_k_greedy isspace _ (x :: w) 96 [96; 96]);
      [| cbn [forallb]; now rewrite Hx, Hw | reflexivity
       | cbn [lit exec]; rewrite !Z.eqb_refl; reflexivity ].
    cbn [List.length]. rewrite Nat.sub_0_r. reflexivity. }
  change ((x :: w) ++ py "```") with (x :: (w ++ py "```")) in *.
  cbn [sub_delete]. rewrite M.
  rewrite <- (app_nil_r (w ++ py "```")) at 2.
  apply sub_delete_skip.
Qed.

(** X4: an object that starts with "{", ends with "}" and contains no
    fence, wrapped in an opening fence "```json" and a closing fence "```"
    with any whitespace between the fences and the object, is returned
    exactly. *)
Theorem clean_json_string_unwraps (w1 w2 mid : str) :
  forallb isspace w1 = true -> forallb isspace w2 = true ->
  has_fence (123 :: mid ++ [125]) = false ->
  clean_json_string
    (py "```json" ++ w1 ++ 123 :: mid ++ 125 :: w2 ++ py "```")
  = 123 :: mid ++ [125].
Proof.
  intros H1 H2 Hf. unfold clean_json_string.
  assert (S : sub_delete fence_re 0
                (py "```json" ++ w1 ++ 123 :: mid ++ 125 :: w2 ++ py "```")
              = 123 :: mid ++ [125]).
  { change (py "```json") with (96 :: py "``json").
    cbn [app sub_delete].
    change (96 :: py "``json" ++ w1 ++ 123 :: mid ++ 125 :: w2 ++ py "```")
      with (py "```json" ++ w1 ++ 123 :: mid ++ 125 :: w2 ++ py "```").
    rewrite (opening_fence_match w1 123 _ H1 eq_refl).
    rewrite app_assoc, sub_delete_skip.
    change (123 :: mid ++ 125 :: w2 ++ py "```")
      with ((123 :: mid) ++ 125 :: w2 ++ py "```").
    rewrite (sub_delete_keeps (123 :: mid) _ Hf).
    rewrite (closing_fence_deleted w2 H2). reflexivity. }
  rewrite S, strip_braced.
  exact (braces_both [] mid [] (fun x => x) (fun x => x)).
Qed.


(** * Further properties of [create_google_calendar_event] *)

Lemma read_event_record_dates (items : list (str * json)) :
  exists r : event_record,
    read_event_record (JObj items) = Ok r
    /\ dates r
       = match lookup (py "일시") items with
         | Some (JStr s) => JArr [JStr s]
         | Some v => v
         | None => JArr []
         end.
Proof.
  unfold read_event_record, py_get, bind_result.
  destruct (lookup (py "주제") items);
  destruct (lookup (py "일시") items) as [v2|];
  destruct (lookup (py "위치") items);
  destruct (lookup (py "설명") items);
  destruct (lookup (py "알림_설정") items);
  eexists; (split; [reflexivity|]); cbn [dates];
  try reflexivity; destruct v2; reflexivity.
Qed.

Section MoreRuns.

Variable C : Collaborators.

Lemma handlers_effect (e : exn) (s : state C) :
  exists h, handlers C e = Some h
            /\ h s = (Ok None, mkState (world s) (log s ++ [handler_effect C e])).
Proof.
  destruct e as [| | | |status|what];
    try (eexists; split; reflexivity).
  unfold handlers, handler_effect.
  destruct ((status =? 401) || (status =? 403)); eexists; split; reflexivity.
Qed.

Lemma handler_effect_not_insert (e : exn) : ~ is_insert (handler_effect C e).
Proof.
  intros (body & outcome & H). destruct e as [| | | |status|what];
    try discriminate.
  unfold handler_effect in H.
  destruct ((status =? 401) || (status =? 403)); discriminate.
Qed.

(** A start that the loop obtained belongs to a date that is a string. *)
Lemma resolve_start_ok (date : json) (s s1 : state C) (dt : datetime) :
  resolve_start C date s = (Ok dt, s1) ->
  exists d, date = JStr d /\ resolved_from C d dt /\ log s1 = log s.
Proof.
  rewrite resolve_start_eq. destruct date as [| | | |d| |]; cbn [strptime];
    try discriminate.
  intro H. exists d. split; [reflexivity|].
  destruct (strptime_str d) as [dt'|e] eqn:P.
  - injection H as <- <-. split; [now left|reflexivity].
  - apply strptime_str_exn in P as P'. subst e.
    injection H as H <-. split; [|reflexivity].
    right. split; [exact P|]. now exists (world s).
Qed.

(** One turn of the loop, with the draft it submits. *)
Lemma loop_body_trace (service : Service C) (r : event_record)
  (acc : list (Handle C)) (date : json) (s s' : state C)
  (res : result (list (Handle C))) :
  loop_body C service r acc date s = (res, s') ->
  (exists x, draft_times C date (fst (fst x)) (snd (fst x))
             /\ res = Ok (acc ++ [snd x])
             /\ log s' = log s ++ [draft_entry C r x])
  \/ (exists e, res = Raise e
                /\ (log s' = log s
                    \/ exists dt end_time, draft_times C date dt end_time
                         /\ log s' = log s
                              ++ [Insert (make_event (text r) (rec_location r)
                                            (details r) (reminder r)
                                            dt end_time)
                                         (Raise e)])).
Proof.
  rewrite loop_body_eq.
  destruct (resolve_start C date s) as [[dt|e] s1] eqn:R.
  - apply resolve_start_ok in R as (d & Hd & Hres & Hl).
    assert (T : forall end_time, datetime_add dt one_hour = Ok end_time ->
                draft_times C date dt end_time).
    { intros end_time E. exists d. repeat split; assumption. }
    destruct (datetime_add dt one_hour) as [end_time|e] eqn:E.
    + cbv zeta.
      destruct (execute_insert C service _ (world s1)) as [[h|e] w];
        intro H; injection H as <- <-; cbn [log]; rewrite Hl.
      * left. exists (dt, end_time, h). split; [|split; reflexivity].
        cbn [fst snd]. now apply T.
      * right. exists e. split; [reflexivity|]. right.
        exists dt, end_time. split; [now apply T|reflexivity].
    + intro H; injection H as <- <-. right. exists e. split; [reflexivity|].
      left. exact Hl.
  - apply resolve_start_log in R.
    intro H; injection H as <- <-. right. exists e. split; [reflexivity|].
    left. exact R.
Qed.

(** The loop as a whole: the drafts accepted for a prefix of the dates, and,
    when it raises, at most the one refused draft of the date that follows. *)
Lemma for_dates_trace (service : Service C) (r : event_record) (ds : list json) :
  forall (acc : list (Handle C)) (s s' : state C)
         (res : result (list (Handle C))),
    for_dates C service r acc ds s = (res, s') ->
    exists (xs : list (datetime * datetime * Handle C)) (done rest : list json),
      ds = done ++ rest
      /\ Forall2 (fun date x => draft_times C date (fst (fst x)) (snd (fst x)))
                 done xs
      /\ match res with
         | Ok hs =>
           rest = [] /\ hs = acc ++ map snd xs
           /\ log s' = log s ++ map (draft_entry C r) xs
         | Raise e =>
           exists date rest', rest = date :: rest'
             /\ (log s' = log s ++ map (draft_entry C r) xs
                 \/ exists dt end_time, draft_times C date dt end_time
                      /\ log s' = log s ++ map (draft_entry C r) xs
                           ++ [Insert (make_event (text r) (rec_location r)
                                         (details r) (reminder r) dt end_time)
                                      (Raise e)])
         end.
Proof.
  unfold for_dates.
  induction ds as [|date ds IH]; intros acc s s' res H.
  - injection H as <- <-. exists [], [], []. split; [reflexivity|].
    split; [constructor|]. cbn [map]. now rewrite !app_nil_r.
  - rewrite for_each_cons in H.
    destruct (loop_body C service r acc date s) as [[a|e] s1] eqn:L;
      apply loop_body_trace in L.
    + destruct L as [(x & Hx & Ha & Hl)|(e & He & _)]; [|discriminate].
      injection Ha as ->.
      apply IH in H as (xs & done & rest & Hds & Hall & Hres).
      exists (x :: xs), (date :: done), rest. split; [now rewrite Hds|].
      split; [now constructor|].
      destruct res as [hs|e].
      * destruct Hres as (Hrest & Hhs & Hlog). split; [exact Hrest|].
        cbn [map]. rewrite Hhs, Hlog, Hl, <- !app_assoc. now split.
      * destruct Hres as (date' & rest' & Hrest & Hlog).
        exists date', rest'. split; [exact Hrest|]. cbn [map].
        rewrite Hl in Hlog.
        destruct Hlog as [Hlog|(dt & end_time & Ht & Hlog)];
          [left|right; exists dt, end_time; split; [exact Ht|]];
          rewrite Hlog, <- !app_assoc; reflexivity.
    + destruct L as [(x & _ & Ha & _)|(e' & He & Hl)]; [discriminate|].
      injection He as <-. injection H as <- <-.
      exists [], [], (date :: ds). split; [reflexivity|].
      split; [constructor|]. exists date, ds. split; [reflexivity|].
      cbn [map app]. rewrite app_nil_r. exact Hl.
Qed.

(** The body of the [try] statement: it raises before the loop with nothing
    logged, or it has read a record and run the loop over its dates. *)
Lemma try_block_trace (creds : Credentials C) (event_info : str) (s s' : state C)
  (res : result (option (list (Handle C)))) :
  try_block C creds event_info s = (res, s') ->
  (exists e, res = Raise e /\ s' = s)
  \/ exists event_dict r ds (xs : list (datetime * datetime * Handle C))
            (done rest : list json),
       json_loads C event_info = Ok event_dict
       /\ read_event_record event_dict = Ok r
       /\ py_iter (dates r) = Ok ds
       /\ ds = done ++ rest
       /\ Forall2 (fun date x => draft_times C date (fst (fst x)) (snd (fst x)))
                  done xs
       /\ match res with
          | Ok a =>
            rest = [] /\ a = Some (map snd xs)
            /\ log s' = log s ++ map (draft_entry C r) xs
          | Raise e =>
            exists date rest', rest = date :: rest'
              /\ (log s' = log s ++ map (draft_entry C r) xs
                  \/ exists dt end_time, draft_times C date dt end_time
                       /\ log s' = log s ++ map (draft_entry C r) xs
                            ++ [Insert (make_event (text r) (rec_location r)
                                          (details r) (reminder r) dt end_time)
                                       (Raise e)])
          end.
Proof.
  rewrite try_block_eq.
  assert (N : forall e, (Raise e, s) = (res, s') ->
                        exists e, res = Raise e /\ s' = s).
  { intros e H. injection H as <- <-. now exists e. }
  destruct (build C creds) as [service|]; [|left; eapply N; eassumption].
  destruct (json_loads C event_info) as [event_dict|] eqn:Hj;
    [|left; eapply N; eassumption].
  destruct (read_event_record event_dict) as [r|] eqn:Hr;
    [|left; eapply N; eassumption].
  destruct (py_iter (dates r)) as [ds|] eqn:Hi;
    [|left; eapply N; eassumption].
  intro H. right.
  destruct (for_dates C service r [] ds s) as [[hs|e] s1] eqn:F;
    apply for_dates_trace in F as (xs & done & rest & Hds & Hall & Hres);
    injection H as <- <-;
    exists event_dict, r, ds, xs, done, rest;
    repeat (split; [first [reflexivity | assumption]|]).
  - destruct Hres as (Hrest & Hhs & Hlog). cbn [app] in Hhs. subst hs.
    repeat split; assumption.
  - exact Hres.
Qed.

(** The function as a whole, by cases. *)
Lemma create_cases (ss : session_state C) (event_info : str) (s s' : state C)
  (res : result (option (list (Handle C)))) :
  create_google_calendar_event C ss event_info s = (res, s') ->
  (google_token ss = None /\ res = Ok None
   /\ s' = mkState (world s) (log s ++ [Warning auth_needed]))
  \/ (exists token e, google_token ss = Some token
        /\ from_authorized_user_info C token = Raise e
        /\ res = Raise e /\ s' = s)
  \/ (exists token creds, google_token ss = Some token
        /\ from_authorized_user_info C token = Ok creds
        /\ ((exists a, res = Ok a /\ try_block C creds event_info s = (Ok a, s'))
            \/ (exists e s1, try_block C creds event_info s = (Raise e, s1)
                  /\ res = Ok None
                  /\ s' = mkState (world s1) (log s1 ++ [handler_effect C e])))).
Proof.
  intro Run. destruct (google_token ss) as [token|] eqn:Tok.
  - rewrite (create_logged_in C ss event_info s token Tok) in Run.
    destruct (from_authorized_user_info C token) as [creds|e] eqn:Cr.
    + right. right. exists token, creds. split; [reflexivity|].
      split; [exact Cr|].
      unfold try_except in Run.
      destruct (try_block C creds event_info s) as [[a|e] s1].
      * left. injection Run as <- <-. exists a. now split.
      * right. destruct (handlers_effect e s1) as (h & Hh & Hrun).
        rewrite Hh, Hrun in Run. injection Run as <- <-.
        exists e, s1. repeat split.
    + right. left. injection Run as <- <-. exists token, e.
      repeat split; first [assumption | reflexivity].
  - left. rewrite (create_logged_out C ss event_info s Tok) in Run.
    injection Run as <- <-. repeat split.
Qed.

(** X5: no exception of the client library, the decoder, the clock or the
    calendar escapes the function; the only exception that does is one
    raised while the stored token is turned into credentials (line 65), and
    then nothing has been shown or submitted. *)
Theorem only_credentials_can_raise (ss : session_state C) (event_info : str)
  (s s' : state C) (e : exn) :
  create_google_calendar_event C ss event_info s = (Raise e, s') ->
  exists token, google_token ss = Some token
                /\ from_authorized_user_info C token = Raise e
                /\ s' = s.
Proof.
  intro Run.
  destruct (create_cases ss event_info s s' (Raise e) Run)
    as [(_ & H & _)|[(token & e' & Tok & Cr & H & Hs)
                     |(token & creds & _ & _ & [(a & H & _)|(e' & s1 & _ & H & _)])]];
    try discriminate.
  injection H as <-. exists token. repeat split; assumption.
Qed.

(** X6: whenever the function returns a list, every date of the decoded
    record was a string, the list has exactly one handle per date, and what
    happened is exactly this: for each date, in order, one draft of the
    record was submitted and accepted, its start the parsed date or the
    current time plus 7 days, its end one hour later. *)
Theorem returned_list_matches_submissions (ss : session_state C)
  (event_info : str) (s s' : state C) (hs : list (Handle C)) :
  create_google_calendar_event C ss event_info s = (Ok (Some hs), s') ->
  exists event_dict r ds (xs : list (datetime * datetime * Handle C)),
    json_loads C event_info = Ok event_dict
    /\ read_event_record event_dict = Ok r
    /\ py_iter (dates r) = Ok ds
    /\ Forall2 (fun date x => draft_times C date (fst (fst x)) (snd (fst x)))
               ds xs
    /\ hs = map snd xs
    /\ List.length hs = List.length ds
    /\ log s' = log s ++ map (draft_entry C r) xs.
Proof.
  intro Run.
  destruct (create_cases ss event_info s s' _ Run)
    as [(_ & H & _)|[(token & e' & _ & _ & H & _)
                     |(token & creds & _ & _ & [(a & H & B)|(e' & s1 & _ & H & _)])]];
    try discriminate.
  injection H as <-.
  apply try_block_trace in B
    as [(e & H & _)|(event_dict & r & ds & xs & done & rest
                     & Hj & Hr & Hi & Hds & Hall & Hrest & Ha & Hlog)];
    [discriminate|].
  injection Ha as ->. subst rest. rewrite app_nil_r in Hds. subst done.
  exists event_dict, r, ds, xs. repeat split; try assumption.
  rewrite length_map. symmetry. exact (Forall2_length Hall).
Qed.

(** X7: whenever the function returns [None], exactly one message was
    shown and it is the last thing that happened; before it come only
    accepted drafts and at most one refused submission, which is then the
    one directly before the message. *)
Theorem failure_ends_with_one_message (ss : session_state C) (event_info : str)
  (s s' : state C) :
  create_google_calendar_event C ss event_info s = (Ok None, s') ->
  exists pre msg,
    Forall ok_insert pre /\ ~ is_insert msg
    /\ (log s' = log s ++ pre ++ [msg]
        \/ exists body e, log s' = log s ++ pre ++ [Insert body (Raise e); msg]).
Proof.
  intro Run.
  destruct (create_cases ss event_info s s' _ Run)
    as [(_ & _ & ->)|[(token & e' & _ & _ & H & _)
                      |(token & creds & _ & _ & [(a & H & B)|(e' & s1 & B & _ & ->)])]];
    try discriminate.
  - exists [], (Warning auth_needed). split; [constructor|]. split.
    + intros (b & o & H). discriminate.
    + left. reflexivity.
  - injection H as <-. apply try_block_trace in B
      as [(e & H & _)|(_ & _ & _ & xs & _ & _ & _ & _ & _ & _ & _ & _ & Ha & _)];
      discriminate.
  - apply try_block_log in B as (pre & Hpre & Hlog).
    exists pre, (handler_effect C e'). split; [assumption|].
    split; [apply handler_effect_not_insert|]. cbn [log].
    destruct Hlog as [Hlog|(body & Hlog)]; rewrite Hlog.
    + left. now rewrite <- app_assoc.
    + right. exists body, e'. now rewrite <- !app_assoc.
Qed.

(** X8: whatever exception a submission raises, that submission is the
    last one: the function shows the message that belongs to the exception
    (the authorization warning for status 401 and 403, the calendar-API
    error for any other HTTP error, the unexpected-error message otherwise)
    and returns [None]. *)
Theorem refused_submission_is_last (ss : session_state C) (event_info : str)
  (s s' : state C) (res : result (option (list (Handle C))))
  (l : list (effect C)) (body : event_body) (e : exn) :
  create_google_calendar_event C ss event_info s = (res, s') ->
  log s' = log s ++ l ->
  In (Insert body (Raise e)) l ->
  res = Ok None
  /\ exists pre,
       Forall ok_insert pre
       /\ l = pre ++ [Insert body (Raise e); handler_effect C e].
Proof.
  intros Run Hl Hin.
  assert (Hpre : forall pre : list (effect C), Forall ok_insert pre ->
            ~ In (Insert body (Raise e)) pre).
  { intros pre Hpre Hx. rewrite Forall_forall in Hpre.
    destruct (Hpre _ Hx) as (b & h & Hb). discriminate. }
  destruct (create_cases ss event_info s s' _ Run)
    as [(_ & _ & ->)|[(token & e' & _ & _ & _ & ->)
                      |(token & creds & _ & _ & [(a & H & B)|(e' & s1 & B & H & ->)])]].
  - cbn [log] in Hl. apply app_inv_head in Hl. subst l.
    destruct Hin as [Hin|[]]. discriminate.
  - rewrite <- (app_nil_r (log s)) in Hl at 1.
    apply app_inv_head in Hl. subst l. destruct Hin.
  - apply try_block_log in B as (pre & Fpre & Hlog).
    rewrite Hlog in Hl. apply app_inv_head in Hl. subst l.
    now apply Hpre in Hin.
  - split; [exact H|]. apply try_block_log in B as (pre & Fpre & Hlog).
    cbn [log] in Hl.
    destruct Hlog as [Hlog|(b & Hlog)]; rewrite Hlog in Hl;
      rewrite <- !app_assoc in Hl; apply app_inv_head in Hl; subst l.
    + apply in_app_or in Hin as [Hin|[Hin|[]]]; [now apply Hpre in Hin|].
      exfalso. apply (handler_effect_not_insert e'). rewrite Hin.
      red. eauto.
    + apply in_app_or in Hin as [Hin|[Hin|[Hin|[]]]];
        [now apply Hpre in Hin| |].
      * injection Hin as -> ->. exists pre. now split.
      * exfalso. apply (handler_effect_not_insert e'). rewrite Hin.
        red. eauto.
Qed.

Lemma in_draft_entries (r : event_record)
  (xs : list (datetime * datetime * Handle C)) (done : list json)
  (body : event_body) (outcome : result (Handle C)) :
  Forall2 (fun date x => draft_times C date (fst (fst x)) (snd (fst x)))
          done xs ->
  In (Insert body outcome) (map (draft_entry C r) xs) ->
  exists date dt end_time,
    In date done /\ draft_times C date dt end_time
    /\ body = make_event (text r) (rec_location r) (details r) (reminder r)
                         dt end_time.
Proof.
  induction 1 as [|date x done xs Hx Hall IH]; cbn [map In]; [intros []|].
  intros [Hin|Hin].
  - injection Hin as <- _. exists date, (fst (fst x)), (snd (fst x)).
    split; [now left|]. now split.
  - destruct (IH Hin) as (date' & dt & end_time & Hd & Ht & Hb).
    exists date', dt, end_time. split; [now right|]. now split.
Qed.

(** X9: in every run, whatever its outcome, each draft sent to the calendar
    is the draft of lines 167-199 for one of the dates of the decoded
    record: the date is a string, the start is the parsed date or the
    current time plus 7 days, the end is one hour after the start, and
    subject, location, description and reminder are those of the record. *)
Theorem every_submission_is_a_draft (ss : session_state C) (event_info : str)
  (s s' : state C) (res : result (option (list (Handle C))))
  (l : list (effect C)) (body : event_body) (outcome : result (Handle C)) :
  create_google_calendar_event C ss event_info s = (res, s') ->
  log s' = log s ++ l ->
  In (Insert body outcome) l ->
  exists event_dict r ds date dt end_time,
    json_loads C event_info = Ok event_dict
    /\ read_event_record event_dict = Ok r
    /\ py_iter (dates r) = Ok ds
    /\ In date ds
    /\ draft_times C date dt end_time
    /\ body = make_event (text r) (rec_location r) (details r) (reminder r)
                         dt end_time.
Proof.
  intros Run Hl Hin.
  assert (G : forall creds (res0 : result (option (list (Handle C)))) s1 l0,
            try_block C creds event_info s = (res0, s1) ->
            log s1 = log s ++ l0 ->
            In (Insert body outcome) l0 ->
            exists event_dict r ds date dt end_time,
              json_loads C event_info = Ok event_dict
              /\ read_event_record event_dict = Ok r
              /\ py_iter (dates r) = Ok ds
              /\ In date ds
              /\ draft_times C date dt end_time
              /\ body = make_event (text r) (rec_location r) (details r)
                                   (reminder r) dt end_time).
  { intros creds res0 s1 l0 B Hl0 Hin0.
    apply try_block_trace in B
      as [(e & _ & ->)|(event_dict & r & ds & xs & done & rest
                        & Hj & Hr & Hi & Hds & Hall & Hres)].
    - rewrite <- (app_nil_r (log s)) in Hl0 at 1.
      apply app_inv_head in Hl0. subst l0. destruct Hin0.
    - assert (D : forall date dt end_time, In date ds ->
                draft_times C date dt end_time ->
                body = make_event (text r) (rec_location r) (details r)
                                  (reminder r) dt end_time ->
                exists event_dict r ds date dt end_time,
                  json_loads C event_info = Ok event_dict
                  /\ read_event_record event_dict = Ok r
                  /\ py_iter (dates r) = Ok ds
                  /\ In date ds
                  /\ draft_times C date dt end_time
                  /\ body = make_event (text r) (rec_location r) (details r)
                                       (reminder r) dt end_time).
      { intros date dt end_time H1 H2 H3.
        exists event_dict, r, ds, date, dt, end_time.
        repeat split; assumption. }
      assert (P : In (Insert body outcome) (map (draft_entry C r) xs) ->
                  exists event_dict r ds date dt end_time,
                    json_loads C event_info = Ok event_dict
                    /\ read_event_record event_dict = Ok r
                    /\ py_iter (dates r) = Ok ds
                    /\ In date ds
                    /\ draft_times C date dt end_time
                    /\ body = make_event (text r) (rec_location r) (details r)
                                         (reminder r) dt end_time).
      { intro H. destruct (in_draft_entries r xs done body outcome Hall H)
          as (date & dt & end_time & Hd & Ht & Hb).
        apply (D date dt end_time); [|assumption|assumption].
        rewrite Hds. apply in_or_app. now left. }
      destruct res0 as [a|e].
      + destruct Hres as (_ & _ & Hlog). rewrite Hlog in Hl0.
        apply app_inv_head in Hl0. subst l0. now apply P.
      + destruct Hres as (date & rest' & Hrest & [Hlog|(dt & end_time & Ht & Hlog)]);
          rewrite Hlog in Hl0; apply app_inv_head in Hl0; subst l0.
        * now apply P.
        * apply in_app_or in Hin0 as [Hin0|[Hin0|[]]]; [now apply P|].
          injection Hin0 as <- _.
          apply (D date dt end_time); [|assumption|reflexivity].
          rewrite Hds, Hrest. apply in_or_app. right. now left. }
  destruct (create_cases ss event_info s s' _ Run)
    as [(_ & _ & ->)|[(token & e' & _ & _ & _ & ->)
                      |(token & creds & _ & _ & [(a & H & B)|(e' & s1 & B & H & ->)])]].
  - cbn [log] in Hl. apply app_inv_head in Hl. subst l.
    destruct Hin as [Hin|[]]. discriminate.
  - rewrite <- (app_nil_r (log s)) in Hl at 1.
    apply app_inv_head in Hl. subst l. destruct Hin.
  - exact (G creds (Ok a) s' l B Hl Hin).
  - cbn [log] in Hl.
    destruct (try_block_log C creds event_info s s1 _ B) as (pre & _ & Hlog).
    assert (Hl1 : exists l1, log s1 = log s ++ l1 /\ l = l1 ++ [handler_effect C e']).
    { destruct Hlog as [Hlog|(b & Hlog)]; rewrite Hlog in Hl |- *;
        rewrite <- !app_assoc in Hl; apply app_inv_head in Hl; subst l.
      - exists pre. now split.
      - exists (pre ++ [Insert b (Raise e')]). split; [reflexivity|].
        now rewrite <- app_assoc. }
    destruct Hl1 as (l1 & Hs1 & ->).
    apply in_app_or in Hin as [Hin|[Hin|[]]].
    + exact (G creds (Raise e') s1 l1 B Hs1 Hin).
    + exfalso. apply (handler_effect_not_insert e'). rewrite Hin. red. eauto.
Qed.

(** X10: an answer of the language model that decodes to something other
    than an object (a list of events, a string, a number), or whose dates
    are a number, a truth value or [null], submits nothing: the one thing
    that happens is the unexpected-error message, with [AttributeError] in
    the first case and [TypeError] in the second, and [None] is returned. *)
Theorem unreadable_answer_submits_nothing (ss : session_state C)
  (event_info : str) (s : state C) (token : Token C) (creds : Credentials C)
  (service : Service C) (v : json) :
  google_token ss = Some token ->
  from_authorized_user_info C token = Ok creds ->
  build C creds = Ok service ->
  json_loads C event_info = Ok v ->
  ((forall items, v <> JObj items) ->
   create_google_calendar_event C ss event_info s
   = (Ok None, mkState (world s) (log s ++ [ErrorUnexpected AttributeError])))
  /\ (forall items d,
        v = JObj items -> lookup (py "일시") items = Some d ->
        d = JNull \/ (exists b, d = JBool b) \/ (exists n, d = JInt n)
        \/ (exists bits, d = JFloat bits) ->
        create_google_calendar_event C ss event_info s
        = (Ok None, mkState (world s) (log s ++ [ErrorUnexpected TypeError]))).
Proof.
  intros Htok Hcreds Hbuild Hjson.
  rewrite (create_logged_in C ss event_info s token Htok), Hcreds.
  unfold try_except. rewrite try_block_eq, Hbuild, Hjson. split.
  - intro Hv.
    assert (R : read_event_record v = Raise AttributeError).
    { destruct v; try reflexivity. now destruct (Hv items). }
    rewrite R. reflexivity.
  - intros items d -> Hd Hkind.
    destruct (read_event_record_dates items) as (r & Hr & Hdates).
    rewrite Hr, Hdates, Hd.
    assert (I : py_iter d = Raise TypeError
                /\ match d with JStr s0 => JArr [JStr s0] | _ => d end = d).
    { destruct Hkind as [->|[(b & ->)|[(n & ->)|(bits & ->)]]]; now split. }
    destruct I as (I1 & I2).
    rewrite I2, I1. reflexivity.
Qed.

End MoreRuns.

(** * The pipeline of [main] *)

Section PipelineRuns.

Variable C : Collaborators.
Variable F : Frontend C.

(** The text stage puts nothing on the page but its own two error messages. *)
Lemma extract_screen (image : Image F) (s : page C) :
  exists l,
    screen (snd (extract_text_from_image F image s)) = screen s ++ l
    /\ Forall ocr_message l.
Proof.
  unfold extract_text_from_image, load_ocr.
  destruct (cache_resource F (load_ocr_body F) (outside s))
    as [[reader errors] w].
  assert (L : Forall (@ocr_message C) (map StErrorLoad errors)).
  { apply Forall_forall. intros x Hx. apply in_map_iff in Hx as (e & <- & _).
    left. now exists e. }
  destruct reader as [reader|]; cbn [outside screen snd].
  - destruct (readtext F reader image w) as [[result|e] w']; cbn [snd screen].
    + exists (map StErrorLoad errors). now split.
    + exists (map StErrorLoad errors ++ [StErrorOcr e]).
      split; [now rewrite app_assoc|].
      apply Forall_app. split; [exact L|].
      constructor; [|constructor]. right. now exists e.
  - exists (map StErrorLoad errors). now split.
Qed.

(** The language-model stage: the request is logged, and either a cleaned
    answer comes back or one error message is shown. *)
Lemma analyze_cases (text : str) (s : page C) :
  let w := snd (chat_create F (request_for text) (outside s)) in
  (exists content rest,
     fst (chat_create F (request_for text) (outside s))
     = Ok (Some content :: rest)
     /\ analyze_text_with_ai F text s
        = (Some (clean_json_string (strip content)),
           mkPage w (screen s ++ [ChatCreate (request_for text)])))
  \/ (exists e,
        analyze_text_with_ai F text s
        = (None,
           mkPage w (screen s ++ [ChatCreate (request_for text); StErrorAi e]))).
Proof.
  cbv zeta. unfold analyze_text_with_ai, show.
  destruct (chat_create F _ (outside s)) as [[[|[content|] rest]|e] w];
    cbn [fst snd outside screen].
  - right. eexists. now rewrite <- app_assoc.
  - left. now exists content, rest.
  - right. eexists. now rewrite <- app_assoc.
  - right. eexists. now rewrite <- app_assoc.
Qed.

Lemma truthy_some {A : Type} (v : option (list A)) :
  truthy v = true -> exists x l, v = Some (x :: l).
Proof. destruct v as [[|x l]|]; try discriminate. intros _. now exists x, l. Qed.

(** What the page shows at the end of the calendar stage. *)
Lemma closing_cases (ss : session_state C) (info : str) (s : page C) :
  let run := create_google_calendar_event C ss info (mkState (outside s) []) in
  screen
    (match run_calendar ss info s with
     | (Ok created_events, s') =>
       if truthy created_events then
         show (StMarkdown (py "<h3 class='sub-header'>생성된 Google 캘린더 이벤트</h3>")
               :: links 1 (match created_events with Some l => l | None => [] end))
              s'
       else show [StInfo auth_needed] s'
     | (Raise e, s') => show [StErrorPipeline e] s'
     end)
  = screen s ++ map Calendar (log (snd run))
    ++ match fst run with
       | Ok (Some (h :: hs)) =>
         StMarkdown (py "<h3 class='sub-header'>생성된 Google 캘린더 이벤트</h3>")
         :: links 1 (h :: hs)
       | Ok _ => [StInfo auth_needed]
       | Raise e => [StErrorPipeline e]
       end.
Proof.
  cbv zeta. unfold run_calendar.
  destruct (create_google_calendar_event C ss info (mkState (outside s) []))
    as [[[[|h hs]|]|e] s']; cbn [fst snd truthy show screen];
    now rewrite <- app_assoc.
Qed.

(** The whole run, by cases. *)
Lemma pipeline_screen (ss : session_state C) (image : Image F) (s : page C) :
  let e := extract_text_from_image F image s in
  let final := analyze_and_create F ss image s in
  (truthy (fst e) = false
   /\ screen final
      = screen (snd e) ++ [StError (py "이미지에서 텍스트를 추출하지 못했습니다.")])
  \/ exists text,
       fst e = Some text /\ text <> []
       /\ let head :=
            [StMarkdown (py "<h3 class='sub-header'>추출된 텍스트</h3>");
             ShowExtracted text; ChatCreate (request_for text)] in
          let answer := chat_create F (request_for text) (outside (snd e)) in
          (exists x,
             screen final
             = screen (snd e) ++ head
               ++ [StErrorAi x; StError (py "AI 분석에 실패했습니다.")])
          \/ exists content rest,
               fst answer = Ok (Some content :: rest)
               /\ let info := clean_json_string (strip content) in
                  (info = []
                   /\ screen final
                      = screen (snd e) ++ head
                        ++ [StError (py "AI 분석에 실패했습니다.")])
                  \/ (info <> []
                      /\ let run :=
                           create_google_calendar_event C ss info
                             (mkState (snd answer) []) in
                         screen final
                         = screen (snd e) ++ head
                           ++ [StMarkdown (py "<h3 class='sub-header'>분석 결과</h3>");
                               StJson info]
                           ++ map Calendar (log (snd run))
                           ++ match fst run with
                              | Ok (Some (h :: hs)) =>
                                StMarkdown
                                  (py "<h3 class='sub-header'>생성된 Google 캘린더 이벤트</h3>")
                                :: links 1 (h :: hs)
                              | Ok _ => [StInfo auth_needed]
                              | Raise x => [StErrorPipeline x]
                              end).
Proof.
  cbv zeta. unfold analyze_and_create.
  destruct (extract_text_from_image F image s) as [t s1]; cbn [fst snd].
  destruct (truthy t) eqn:T; [|left; now split].
  right. apply truthy_some in T as (c & text & ->). exists (c :: text).
  split; [reflexivity|]. split; [discriminate|].
  set (s2 := show _ s1).
  destruct (analyze_cases (c :: text) s2)
    as [(content & rest & Hans & ->)|(x & ->)]; cbn [truthy].
  - right. exists content, rest. split; [exact Hans|].
    destruct (clean_json_string (strip content)) as [|i info] eqn:I.
    + left. split; [reflexivity|]. unfold s2; cbn [show screen].
      now rewrite <- !app_assoc.
    + right. split; [discriminate|].
      cbn [truthy]. rewrite closing_cases.
      unfold s2; cbn [show screen outside]. now rewrite <- !app_assoc.
  - left. exists x. unfold s2; cbn [show screen]. now rewrite <- !app_assoc.
Qed.

Lemma links_not_request (request : chat_request) (hs : list (Handle C)) :
  forall i, ~ In (ChatCreate request) (links i hs).
Proof.
  induction hs as [|h hs IH]; intros i; cbn [links]; [exact (fun H => H)|].
  intros [H|H]; [discriminate|]. now apply (IH (S i)).
Qed.

Lemma links_not_calendar (x : effect C) (hs : list (Handle C)) :
  forall i, ~ In (Calendar x) (links i hs).
Proof.
  induction hs as [|h hs IH]; intros i; cbn [links]; [exact (fun H => H)|].
  intros [H|H]; [discriminate|]. now apply (IH (S i)).
Qed.

Lemma ocr_messages_not_request (request : chat_request) (l : list (shown C)) :
  Forall ocr_message l -> ~ In (ChatCreate request) l.
Proof.
  intros H Hin. rewrite Forall_forall in H.
  destruct (H _ Hin) as [(e & He)|(e & He)]; discriminate.
Qed.

Lemma ocr_messages_not_calendar (x : effect C) (l : list (shown C)) :
  Forall ocr_message l -> ~ In (Calendar x) l.
Proof.
  intros H Hin. rewrite Forall_forall in H.
  destruct (H _ Hin) as [(e & He)|(e & He)]; discriminate.
Qed.

(** Splits a membership in a concatenation of explicit lists into its
    cases and closes those that equate different constructors. *)
Ltac in_cases H :=
  repeat first
    [ apply in_app_or in H; destruct H as [H|H]
    | destruct H as [H|H]; [try discriminate H|] ];
  try (now destruct H).

(** X11: the language model is asked only about text that the reader found
    in the image: every request on record carries the model name "gpt-4",
    the system prompt of lines 113-125 and, as the user message, the
    extracted text, which is not empty. *)
Theorem model_is_asked_about_extracted_text (ss : session_state C)
  (image : Image F) (s : page C) (l : list (shown C)) (request : chat_request) :
  screen (analyze_and_create F ss image s) = screen s ++ l ->
  In (ChatCreate request) l ->
  exists text,
    fst (extract_text_from_image F image s) = Some text
    /\ text <> []
    /\ request
       = mkRequest (py "gpt-4") [(py "system", SYSTEM_PROMPT); (py "user", text)].
Proof.
  intros Hl Hin.
  destruct (extract_screen image s) as (l0 & H0 & Hocr).
  pose proof (ocr_messages_not_request request l0 Hocr) as N0.
  destruct (pipeline_screen ss image s)
    as [(_ & Hs)|(text & Ht & Hne & [(x & Hs)|(content & rest & _ & [(_ & Hs)|(_ & Hs)])])];
    rewrite Hs, H0, <- app_assoc in Hl; apply app_inv_head in Hl; subst l.
  - in_cases Hin. now apply N0 in Hin.
  - exists text. split; [exact Ht|]. split; [exact Hne|].
    in_cases Hin; [now apply N0 in Hin|]. now injection Hin as <-.
  - exists text. split; [exact Ht|]. split; [exact Hne|].
    in_cases Hin; [now apply N0 in Hin|]. now injection Hin as <-.
  - exists text. split; [exact Ht|]. split; [exact Hne|].
    apply in_app_or in Hin as [Hin|Hin]; [now apply N0 in Hin|].
    apply in_app_or in Hin as [Hin|Hin].
    + in_cases Hin. now injection Hin as <-.
    + exfalso. apply in_app_or in Hin as [Hin|Hin]; [in_cases Hin|].
      apply in_app_or in Hin as [Hin|Hin].
      * apply in_map_iff in Hin as (y & Hy & _). discriminate.
      * destruct (fst (create_google_calendar_event C ss _ _)) as [[[|h hs]|]|y];
          [in_cases Hin| |in_cases Hin|in_cases Hin].
        destruct Hin as [Hin|Hin]; [discriminate|].
        now apply links_not_request in Hin.
Qed.

(** X12: the calendar stage runs only on an answer of the language model
    that survived the cleaning: whenever the page shows anything of the
    calendar stage, it shows before it the cleaned answer, which is the
    single character "}" or a text from a "{" to a "}", and what is shown
    is what [create_google_calendar_event] did on that text. *)
Theorem calendar_stage_needs_braced_answer (ss : session_state C)
  (image : Image F) (s : page C) (l : list (shown C)) (x : effect C) :
  screen (analyze_and_create F ss image s) = screen s ++ l ->
  In (Calendar x) l ->
  exists info before behind w,
    l = before ++ StJson info :: behind
    /\ In (Calendar x) behind
    /\ (info = [125] \/ exists mid, info = 123 :: mid ++ [125])
    /\ In x (log (snd (create_google_calendar_event C ss info (mkState w [])))).
Proof.
  intros Hl Hin.
  destruct (extract_screen image s) as (l0 & H0 & Hocr).
  pose proof (ocr_messages_not_calendar x l0 Hocr) as N0.
  destruct (pipeline_screen ss image s)
    as [(_ & Hs)|(text & Ht & Hne & [(y & Hs)|(content & rest & _ & [(_ & Hs)|(Hi & Hs)])])];
    rewrite Hs, H0, <- app_assoc in Hl; apply app_inv_head in Hl; subst l.
  - in_cases Hin. now apply N0 in Hin.
  - in_cases Hin. now apply N0 in Hin.
  - in_cases Hin. now apply N0 in Hin.
  - set (info := clean_json_string (strip content)) in *.
    set (answer := chat_create F (request_for text) _) in *.
    exists info,
      (l0 ++ [StMarkdown (py "<h3 class='sub-header'>추출된 텍스트</h3>");
              ShowExtracted text; ChatCreate (request_for text);
              StMarkdown (py "<h3 class='sub-header'>분석 결과</h3>")]).
    eexists. exists (snd answer).
    split; [rewrite <- !app_assoc; cbn [app]; reflexivity|].
    apply in_app_or in Hin as [Hin|Hin]; [now apply N0 in Hin|].
    apply in_app_or in Hin as [Hin|Hin]; [in_cases Hin|].
    apply in_app_or in Hin as [Hin|Hin]; [in_cases Hin|].
    split; [exact Hin|]. split.
    + destruct (clean_json_string_shape_cases (strip content))
        as [E|[E|E]]; fold info in E; [now destruct Hi|now left|now right].
    + apply in_app_or in Hin as [Hin|Hin].
      * apply in_map_iff in Hin as (y & Hy & Hin). now injection Hy as <-.
      * exfalso.
        destruct (fst (create_google_calendar_event C ss info _)) as [[[|h hs]|]|y];
          [in_cases Hin| |in_cases Hin|in_cases Hin].
        destruct Hin as [Hin|Hin]; [discriminate|].
        now apply links_not_calendar in Hin.
Qed.

(** A run in which text was found and the language model answered. *)
Lemma pipeline_after_answer (ss : session_state C) (image : Image F)
  (s : page C) (text content : str) (rest : list (option str)) :
  let e := extract_text_from_image F image s in
  let answer := chat_create F (request_for text) (outside (snd e)) in
  let info := clean_json_string (strip content) in
  let run := create_google_calendar_event C ss info (mkState (snd answer) []) in
  fst e = Some text -> text <> [] ->
  fst answer = Ok (Some content :: rest) ->
  screen (analyze_and_create F ss image s)
  = screen (snd e)
    ++ [StMarkdown (py "<h3 class='sub-header'>추출된 텍스트</h3>");
        ShowExtracted text; ChatCreate (request_for text)]
    ++ match info with
       | [] => [StError (py "AI 분석에 실패했습니다.")]
       | _ =>
         [StMarkdown (py "<h3 class='sub-header'>분석 결과</h3>"); StJson info]
         ++ map Calendar (log (snd run))
         ++ match fst run with
            | Ok (Some (h :: hs)) =>
              StMarkdown (py "<h3 class='sub-header'>생성된 Google 캘린더 이벤트</h3>")
              :: links 1 (h :: hs)
            | Ok _ => [StInfo auth_needed]
            | Raise x => [StErrorPipeline x]
            end
       end.
Proof.
  cbv zeta. unfold analyze_and_create.
  destruct (extract_text_from_image F image s) as [t s1]; cbn [fst snd].
  intros -> Hne. destruct text as [|c text]; [now destruct Hne|].
  cbn [truthy]. set (s2 := show _ s1). unfold analyze_text_with_ai.
  change (outside s2) with (outside s1).
  destruct (chat_create F (request_for (c :: text)) (outside s1)) as [choices w].
  cbn [fst snd]. intros ->.
  destruct (clean_json_string (strip content)) as [|i info] eqn:I.
  - cbn [truthy]. unfold s2; cbn [show screen]. now rewrite <- !app_assoc.
  - cbn [truthy]. rewrite closing_cases.
    unfold s2; cbn [show screen outside]. now rewrite <- !app_assoc.
Qed.

(** X13: when the answer of the language model contains no "}", nothing
    of it survives the cleaning: the page shows the extracted text and then
    "AI 분석에 실패했습니다.", and the calendar stage does not run. *)
Theorem answer_without_closing_brace_fails (ss : session_state C)
  (image : Image F) (s : page C) (text content : str)
  (rest : list (option str)) :
  fst (extract_text_from_image F image s) = Some text ->
  text <> [] ->
  fst (chat_create F (request_for text)
         (outside (snd (extract_text_from_image F image s))))
  = Ok (Some content :: rest) ->
  ~ In 125 content ->
  screen (analyze_and_create F ss image s)
  = screen (snd (extract_text_from_image F image s))
    ++ [StMarkdown (py "<h3 class='sub-header'>추출된 텍스트</h3>");
        ShowExtracted text; ChatCreate (request_for text);
        StError (py "AI 분석에 실패했습니다.")].
Proof.
  intros Ht Hne Hans Hclose.
  rewrite (pipeline_after_answer ss image s text content rest Ht Hne Hans).
  rewrite clean_json_string_no_close; [reflexivity|].
  intro H. apply Hclose. now apply in_strip.
Qed.

(** X14: a linked user whose document yields a record without dates is
    told that the Google account needs linking: the calendar stage succeeds
    with the empty list, which the page treats like the [None] of a failure.
    Nothing of the calendar stage is shown before that message. *)
Theorem record_without_dates_asks_for_linking (ss : session_state C)
  (image : Image F) (s : page C) (text content : str)
  (rest : list (option str)) (token : Token C) (creds : Credentials C)
  (service : Service C) (event_dict : json) (r : event_record) :
  fst (extract_text_from_image F image s) = Some text ->
  text <> [] ->
  fst (chat_create F (request_for text)
         (outside (snd (extract_text_from_image F image s))))
  = Ok (Some content :: rest) ->
  clean_json_string (strip content) <> [] ->
  google_token ss = Some token ->
  from_authorized_user_info C token = Ok creds ->
  build C creds = Ok service ->
  json_loads C (clean_json_string (strip content)) = Ok event_dict ->
  read_event_record event_dict = Ok r ->
  py_iter (dates r) = Ok [] ->
  screen (analyze_and_create F ss image s)
  = screen (snd (extract_text_from_image F image s))
    ++ [StMarkdown (py "<h3 class='sub-header'>추출된 텍스트</h3>");
        ShowExtracted text; ChatCreate (request_for text);
        StMarkdown (py "<h3 class='sub-header'>분석 결과</h3>");
        StJson (clean_json_string (strip content));
        StInfo (py "Google 계정 연동이 필요합니다.")].
Proof.
  intros Ht Hne Hans Hinfo Htok Hcreds Hbuild Hjson Hrec Hiter.
  rewrite (pipeline_after_answer ss image s text content rest Ht Hne Hans).
  destruct (clean_json_string (strip content)) as [|i info] eqn:I;
    [now destruct Hinfo|].
  rewrite (create_logged_in C ss (i :: info) _ token Htok), Hcreds.
  unfold try_except.
  rewrite try_block_eq, Hbuild, Hjson, Hrec, Hiter. reflexivity.
Qed.

Lemma links_nth (hs : list (Handle C)) :
  forall (i n : nat) (h : Handle C),
    nth_error hs n = Some h ->
    nth_error (links i hs) n = Some (ShowLink (i + n) h).
Proof.
  induction hs as [|h0 hs IH]; intros i [|n] h; cbn [nth_error links];
    try discriminate.
  - intro H. injection H as <-. now rewrite Nat.add_0_r.
  - intro H. rewrite (IH (S i) n h H). now rewrite Nat.add_succ_r.
Qed.

Lemma links_length (hs : list (Handle C)) :
  forall i, List.length (links i hs) = List.length hs.
Proof.
  induction hs as [|h hs IH]; intro i; cbn [links List.length];
    [reflexivity|]. now rewrite IH.
Qed.

(** X15: when the calendar stage returns a list that is not empty, the
    page shows, after the cleaned answer, one accepted draft of the record
    per date, then the heading and exactly one link per created event: the
    link with number n+1 is the one of the handle at index n, the handle
    that the calendar gave for the draft at index n. *)
Theorem links_follow_created_events (ss : session_state C)
  (image : Image F) (s : page C) (text content : str)
  (rest : list (option str)) (hs : list (Handle C)) (s' : state C) :
  fst (extract_text_from_image F image s) = Some text ->
  text <> [] ->
  fst (chat_create F (request_for text)
         (outside (snd (extract_text_from_image F image s))))
  = Ok (Some content :: rest) ->
  clean_json_string (strip content) <> [] ->
  create_google_calendar_event C ss (clean_json_string (strip content))
    (mkState
       (snd (chat_create F (request_for text)
               (outside (snd (extract_text_from_image F image s))))) [])
  = (Ok (Some hs), s') ->
  hs <> [] ->
  exists (r : event_record) (xs : list (datetime * datetime * Handle C))
         (tail : list (shown C)),
    hs = map snd xs
    /\ screen (analyze_and_create F ss image s)
       = screen (snd (extract_text_from_image F image s))
         ++ [StMarkdown (py "<h3 class='sub-header'>추출된 텍스트</h3>");
             ShowExtracted text; ChatCreate (request_for text);
             StMarkdown (py "<h3 class='sub-header'>분석 결과</h3>");
             StJson (clean_json_string (strip content))]
         ++ map (fun x => Calendar (draft_entry C r x)) xs
         ++ StMarkdown (py "<h3 class='sub-header'>생성된 Google 캘린더 이벤트</h3>")
            :: tail
    /\ List.length tail = List.length hs
    /\ forall n h, nth_error hs n = Some h ->
                   nth_error tail n = Some (ShowLink (S n) h).
Proof.
  intros Ht Hne Hans Hinfo Hrun Hhs.
  rewrite (pipeline_after_answer ss image s text content rest Ht Hne Hans).
  destruct (clean_json_string (strip content)) as [|i info] eqn:I;
    [now destruct Hinfo|].
  rewrite Hrun. cbn [fst snd].
  destruct (create_cases C ss _ _ s' _ Hrun)
    as [(_ & H & _)|[(token & e' & _ & _ & H & _)
                     |(token & creds & _ & _ & [(a & H & B)|(e' & s1 & _ & H & _)])]];
    try discriminate.
  injection H as <-.
  apply try_block_trace in B
    as [(e & H & _)|(event_dict & r & ds & xs & done & rest0
                     & Hj & Hr & Hi & Hds & Hall & Hrest & Ha & Hlog)];
    [discriminate|].
  injection Ha as ->. cbn [log app] in Hlog.
  destruct (map snd xs) as [|h hs'] eqn:Hx; [now destruct Hhs|].
  exists r, xs, (links 1 (h :: hs')). split; [now rewrite Hx|].
  split; [|split].
  - rewrite Hlog, map_map. reflexivity.
  - apply links_length.
  - intros n h0 Hn. exact (links_nth (h :: hs') 1 n h0 Hn).
Qed.

Lemma join_nil (sep : str) (parts : list str) :
  sep <> [] -> (join sep parts = [] <-> parts = [] \/ parts = [[]]).
Proof.
  intro Hsep. destruct parts as [|x [|y rest]]; cbn [join].
  - split; [now left|reflexivity].
  - split.
    + intros ->. now right.
    + intros [H|H]; [discriminate|now injection H].
  - split.
    + intro H. apply app_eq_nil in H as [_ H].
      apply app_eq_nil in H as [H _]. now destruct Hsep.
    + intros [H|H]; discriminate.
Qed.

(** X16: when the reader is there and reads the image without an error,
    the run ends at once with "이미지에서 텍스트를 추출하지 못했습니다."
    exactly when there is no detection or a single detection with empty
    text: the texts are joined by single blanks, so that two detections,
    even with empty texts, already count as text and go to the language
    model. *)
Theorem no_text_message_iff (ss : session_state C) (image : Image F)
  (s s1 : page C) (reader : Reader F)
  (result : list (Box F * str * Confidence F)) (w : World C) :
  load_ocr F s = (Some reader, s1) ->
  readtext F reader image (outside s1) = (Ok result, w) ->
  (screen (analyze_and_create F ss image s)
   = screen s1 ++ [StError (py "이미지에서 텍스트를 추출하지 못했습니다.")]
   <-> map (fun res => snd (fst res)) result = []
       \/ map (fun res => snd (fst res)) result = [[]]).
Proof.
  intros Hload Hread.
  assert (E : extract_text_from_image F image s
              = (Some (join (py " ") (map (fun res => snd (fst res)) result)),
                 mkPage w (screen s1))).
  { unfold extract_text_from_image. rewrite Hload, Hread. reflexivity. }
  assert (J : join (py " ") (map (fun res => snd (fst res)) result) = []
              <-> map (fun res => snd (fst res)) result = []
                  \/ map (fun res => snd (fst res)) result = [[]]).
  { apply join_nil. discriminate. }
  pose proof (pipeline_screen ss image s) as P. cbv zeta in P.
  rewrite E in P. cbn [fst snd screen outside] in P.
  destruct P as [(T & Hs)|(text & Ht & Hne & P)].
  - split; [|intros _; exact Hs].
    intros _. apply J.
    destruct (join (py " ") _) as [|c t]; [reflexivity|discriminate].
  - injection Ht as Ht. split.
    + intro H. exfalso.
      destruct P as [(x & Hs)|(content & rest & _ & [(_ & Hs)|(_ & Hs)])];
        rewrite Hs in H; apply app_inv_head in H; discriminate.
    + intro H. apply J in H. rewrite Ht in H. now destruct Hne.
Qed.

End PipelineRuns.

(** * Dates in the format that the prompt asks for *)

Lemma isspace_digit (a : Z) : 0 <= a <= 9 -> isspace (48 + a) = false.
Proof.
  intro H.
  assert (D : a = 0 \/ a = 1 \/ a = 2 \/ a = 3 \/ a = 4 \/ a = 5 \/ a = 6
              \/ a = 7 \/ a = 8 \/ a = 9) by lia.
  repeat (destruct D as [->|D]; [reflexivity|]). now subst a.
Qed.

Lemma digit_value_digit (a : Z) : 0 <= a <= 9 -> digit_value (48 + a) = Some a.
Proof.
  intro H.
  assert (D : a = 0 \/ a = 1 \/ a = 2 \/ a = 3 \/ a = 4 \/ a = 5 \/ a = 6
              \/ a = 7 \/ a = 8 \/ a = 9) by lia.
  repeat (destruct D as [->|D]; [reflexivity|]). now subst a.
Qed.

Lemma isdecimal_digit (a : Z) : 0 <= a <= 9 -> isdecimal (48 + a) = true.
Proof. intro H. unfold isdecimal. now rewrite digit_value_digit. Qed.

(** [[lo-hi]] on a digit. *)
Lemma range_digit (lo hi : string) (l h a : Z) :
  py lo = [48 + l] -> py hi = [48 + h] ->
  range lo hi (48 + a) = (l <=? a) && (a <=? h).
Proof.
  intros Hlo Hhi. unfold range. rewrite Hlo, Hhi.
  destruct (Z.leb_spec l a), (Z.leb_spec a h),
    (Z.leb_spec (48 + l) (48 + a)), (Z.leb_spec (48 + a) (48 + h));
    try reflexivity; lia.
Qed.

Lemma zero_padded_2 (n : Z) :
  zero_padded 2 n = [48 + n / 10 mod 10; 48 + n mod 10].
Proof. reflexivity. Qed.

Lemma zero_padded_4 (n : Z) :
  zero_padded 4 n
  = [48 + n / 10 / 10 / 10 mod 10; 48 + n / 10 / 10 mod 10;
     48 + n / 10 mod 10; 48 + n mod 10].
Proof. reflexivity. Qed.

(** A string of digits is read as the number it writes. *)
Lemma int_2_digits (a b : Z) :
  0 <= a <= 9 -> 0 <= b <= 9 -> int [48 + a; 48 + b] = Ok (10 * a + b).
Proof.
  intros Ha Hb. unfold int, strip, rstrip. cbn [lstrip rev app].
  rewrite (isspace_digit a Ha). cbn [rev app lstrip].
  rewrite (isspace_digit b Hb). cbn [rev app int_digits].
  rewrite (digit_value_digit a Ha), (digit_value_digit b Hb).
  f_equal. lia.
Qed.

Lemma int_4_digits (a b c d : Z) :
  0 <= a <= 9 -> 0 <= b <= 9 -> 0 <= c <= 9 -> 0 <= d <= 9 ->
  int [48 + a; 48 + b; 48 + c; 48 + d] = Ok (1000 * a + 100 * b + 10 * c + d).
Proof.
  intros Ha Hb Hc Hd. unfold int, strip, rstrip. cbn [lstrip rev app].
  rewrite (isspace_digit a Ha). cbn [rev app lstrip].
  rewrite (isspace_digit d Hd). cbn [rev app int_digits].
  rewrite (digit_value_digit a Ha), (digit_value_digit b Hb),
    (digit_value_digit c Hc), (digit_value_digit d Hd).
  f_equal. lia.
Qed.

(** The captured text of a group that matched the first characters. *)
Lemma firstn_matched (p t : str) :
  firstn (List.length (p ++ t) - List.length t) (p ++ t) = p.
Proof.
  rewrite length_app, Nat.add_sub, firstn_app, Nat.sub_diag, firstn_all.
  cbn [firstn]. apply app_nil_r.
Qed.

Section Walk.

Context {A : Type}.

Lemma exec_cls (p : char -> bool) (x : char) (s : str) (g : groups)
  (k : str -> groups -> option A) :
  p x = true -> exec (Cls p) (x :: s) g k = k s g.
Proof. intro H. cbn [exec]. now rewrite H. Qed.

Lemma exec_cls_fails (p : char -> bool) (x : char) (s : str) (g : groups)
  (k : str -> groups -> option A) :
  p x = false -> exec (Cls p) (x :: s) g k = None.
Proof. intro H. cbn [exec]. now rewrite H. Qed.

(** White space between two fields: one blank before a digit. *)
Lemma exec_blank (a : Z) (s : str) (g : groups) (k : str -> groups -> option A) :
  0 <= a <= 9 ->
  exec (plus isspace) (32 :: 48 + a :: s) g k = k (48 + a :: s) g.
Proof.
  intro H. unfold plus. cbn [exec]. change (isspace 32) with true.
  cbn [star_k]. now rewrite (isspace_digit a H).
Qed.

Lemma exec_re_Y (a b c d : Z) (s : str) (g : groups)
  (k : str -> groups -> option A) :
  0 <= a <= 9 -> 0 <= b <= 9 -> 0 <= c <= 9 -> 0 <= d <= 9 ->
  exec re_Y (48 + a :: 48 + b :: 48 + c :: 48 + d :: s) g k
  = k s (("Y"%string, [48 + a; 48 + b; 48 + c; 48 + d]) :: g).
Proof.
  intros Ha Hb Hc Hd. unfold re_Y. cbn [exec].
  rewrite (isdecimal_digit a Ha), (isdecimal_digit b Hb),
    (isdecimal_digit c Hc), (isdecimal_digit d Hd).
  pose proof (firstn_matched [48 + a; 48 + b; 48 + c; 48 + d] s) as E.
  cbn [app] in E. now rewrite E.
Qed.

(** A two-digit month: "01" to "09" by the second alternative, "10" to "12"
    by the first. *)
Lemma exec_re_m (a b : Z) (s : str) (g : groups)
  (k : str -> groups -> option A) (res : A) :
  (a = 0 /\ 1 <= b <= 9) \/ (a = 1 /\ 0 <= b <= 2) ->
  k s (("m"%string, [48 + a; 48 + b]) :: g) = Some res ->
  exec re_m (48 + a :: 48 + b :: s) g k = Some res.
Proof.
  intros H K. unfold re_m, chr.
  pose proof (firstn_matched [48 + a; 48 + b] s) as E. cbn [app] in E.
  change (lit (py "1")) with (Cat (Chr 49) Eps).
  change (lit (py "0")) with (Cat (Chr 48) Eps).
  destruct H as [[-> Hb]|[-> Hb]]; cbn [exec].
  - change (48 + 0 =? 49) with false. change (48 + 0 =? 48) with true.
    cbv iota.
    rewrite (range_digit "1" "9" 1 9 b eq_refl eq_refl).
    replace ((1 <=? b) && (b <=? 9)) with true by lia.
    now rewrite E, K.
  - change (48 + 1 =? 49) with true. cbv iota.
    rewrite (range_digit "0" "2" 0 2 b eq_refl eq_refl).
    replace ((0 <=? b) && (b <=? 2)) with true by lia.
    now rewrite E, K.
Qed.

(** A two-digit day. *)
Lemma exec_re_d (a b : Z) (s : str) (g : groups)
  (k : str -> groups -> option A) (res : A) :
  (a = 0 /\ 1 <= b <= 9) \/ (a = 1 /\ 0 <= b <= 9) \/ (a = 2 /\ 0 <= b <= 9)
  \/ (a = 3 /\ 0 <= b <= 1) ->
  k s (("d"%string, [48 + a; 48 + b]) :: g) = Some res ->
  exec re_d (48 + a :: 48 + b :: s) g k = Some res.
Proof.
  intros H K. unfold re_d, chr.
  pose proof (firstn_matched [48 + a; 48 + b] s) as E. cbn [app] in E.
  change (lit (py "3")) with (Cat (Chr 51) Eps).
  change (lit (py "0")) with (Cat (Chr 48) Eps).
  destruct H as [[-> Hb]|[[-> Hb]|[[-> Hb]|[-> Hb]]]]; cbn [exec].
  - change (48 + 0 =? 51) with false. change (48 + 0 =? 48) with true.
    change (range "1" "2" (48 + 0)) with false. cbv iota.
    rewrite (range_digit "1" "9" 1 9 b eq_refl eq_refl).
    replace ((1 <=? b) && (b <=? 9)) with true by lia.
    now rewrite E, K.
  - change (48 + 1 =? 51) with false.
    change (range "1" "2" (48 + 1)) with true. cbv iota.
    rewrite (isdecimal_digit b Hb). now rewrite E, K.
  - change (48 + 2 =? 51) with false.
    change (range "1" "2" (48 + 2)) with true. cbv iota.
    rewrite (isdecimal_digit b Hb). now rewrite E, K.
  - change (48 + 3 =? 51) with true. cbv iota.
    rewrite (range_digit "0" "1" 0 1 b eq_refl eq_refl).
    replace ((0 <=? b) && (b <=? 1)) with true by lia.
    now rewrite E, K.
Qed.

(** A two-digit hour. *)
Lemma exec_re_H (a b : Z) (s : str) (g : groups)
  (k : str -> groups -> option A) (res : A) :
  (a = 0 /\ 0 <= b <= 9) \/ (a = 1 /\ 0 <= b <= 9) \/ (a = 2 /\ 0 <= b <= 3) ->
  k s (("H"%string, [48 + a; 48 + b]) :: g) = Some res ->
  exec re_H (48 + a :: 48 + b :: s) g k = Some res.
Proof.
  intros H K. unfold re_H, chr.
  pose proof (firstn_matched [48 + a; 48 + b] s) as E. cbn [app] in E.
  change (lit (py "2")) with (Cat (Chr 50) Eps).
  destruct H as [[-> Hb]|[[-> Hb]|[-> Hb]]]; cbn [exec].
  - change (48 + 0 =? 50) with false.
    change (range "0" "1" (48 + 0)) with true. cbv iota.
    rewrite (isdecimal_digit b Hb). now rewrite E, K.
  - change (48 + 1 =? 50) with false.
    change (range "0" "1" (48 + 1)) with true. cbv iota.
    rewrite (isdecimal_digit b Hb). now rewrite E, K.
  - change (48 + 2 =? 50) with true. cbv iota.
    rewrite (range_digit "0" "3" 0 3 b eq_refl eq_refl).
    replace ((0 <=? b) && (b <=? 3)) with true by lia.
    now rewrite E, K.
Qed.

(** A two-digit minute. *)
Lemma exec_re_M (a b : Z) (s : str) (g : groups)
  (k : str -> groups -> option A) (res : A) :
  0 <= a <= 5 -> 0 <= b <= 9 ->
  k s (("M"%string, [48 + a; 48 + b]) :: g) = Some res ->
  exec re_M (48 + a :: 48 + b :: s) g k = Some res.
Proof.
  intros Ha Hb K. unfold re_M.
  pose proof (firstn_matched [48 + a; 48 + b] s) as E. cbn [app] in E.
  cbn [exec].
  rewrite (range_digit "0" "5" 0 5 a eq_refl eq_refl).
  replace ((0 <=? a) && (a <=? 5)) with true by lia.
  rewrite (isdecimal_digit b Hb). now rewrite E, K.
Qed.

End Walk.

(** The pattern on a date of the form YYYY년 MM월 DD일 HH:MM, digit by
    digit: the whole string is matched and the five groups are the five
    fields. *)
Lemma format_match (y1 y2 y3 y4 m1 m2 d1 d2 h1 h2 n1 n2 : Z) :
  0 <= y1 <= 9 -> 0 <= y2 <= 9 -> 0 <= y3 <= 9 -> 0 <= y4 <= 9 ->
  (m1 = 0 /\ 1 <= m2 <= 9) \/ (m1 = 1 /\ 0 <= m2 <= 2) ->
  (d1 = 0 /\ 1 <= d2 <= 9) \/ (d1 = 1 /\ 0 <= d2 <= 9)
  \/ (d1 = 2 /\ 0 <= d2 <= 9) \/ (d1 = 3 /\ 0 <= d2 <= 1) ->
  (h1 = 0 /\ 0 <= h2 <= 9) \/ (h1 = 1 /\ 0 <= h2 <= 9)
  \/ (h1 = 2 /\ 0 <= h2 <= 3) ->
  0 <= n1 <= 5 -> 0 <= n2 <= 9 ->
  re_match format_regex
    ([48 + y1; 48 + y2; 48 + y3; 48 + y4] ++ py "년 " ++ [48 + m1; 48 + m2]
     ++ py "월 " ++ [48 + d1; 48 + d2] ++ py "일 " ++ [48 + h1; 48 + h2]
     ++ py ":" ++ [48 + n1; 48 + n2])
  = Some (19%nat,
          [("M"%string, [48 + n1; 48 + n2]); ("H"%string, [48 + h1; 48 + h2]);
           ("d"%string, [48 + d1; 48 + d2]); ("m"%string, [48 + m1; 48 + m2]);
           ("Y"%string, [48 + y1; 48 + y2; 48 + y3; 48 + y4])]).
Proof.
  intros Hy1 Hy2 Hy3 Hy4 Hm Hd Hh Hn1 Hn2.
  assert (Hm1 : 0 <= m1 <= 9) by lia. assert (Hd1 : 0 <= d1 <= 9) by lia.
  assert (Hh1 : 0 <= h1 <= 9) by lia.
  change (py "년 ") with [45380; 32]. change (py "월 ") with [50900; 32].
  change (py "일 ") with [51068; 32]. change (py ":") with [58].
  cbn [app]. unfold re_match, format_regex, chr.
  change (lit (py "년")) with (Cat (Chr 45380) Eps).
  change (lit (py "월")) with (Cat (Chr 50900) Eps).
  change (lit (py "일")) with (Cat (Chr 51068) Eps).
  change (lit (py ":")) with (Cat (Chr 58) Eps).
  cbn [exec]. rewrite exec_re_Y by assumption.
  rewrite Z.eqb_refl, exec_blank by assumption.
  apply exec_re_m; [exact Hm|].
  rewrite Z.eqb_refl, exec_blank by assumption.
  apply exec_re_d; [exact Hd|].
  rewrite Z.eqb_refl, exec_blank by assumption.
  apply exec_re_H; [exact Hh|].
  rewrite Z.eqb_refl.
  apply exec_re_M; [exact Hn1|exact Hn2|].
  reflexivity.
Qed.

(** The two digits of a number below 100. *)
Lemma two_digits (n : Z) :
  0 <= n <= 99 ->
  0 <= n / 10 mod 10 <= 9 /\ 0 <= n mod 10 <= 9
  /\ 10 * (n / 10 mod 10) + n mod 10 = n /\ n / 10 mod 10 = n / 10.
Proof. intro H. repeat split; Z.div_mod_to_equations; lia. Qed.

Lemma four_digits (n : Z) :
  0 <= n <= 9999 ->
  0 <= n / 10 / 10 / 10 mod 10 <= 9 /\ 0 <= n / 10 / 10 mod 10 <= 9
  /\ 0 <= n / 10 mod 10 <= 9 /\ 0 <= n mod 10 <= 9
  /\ 1000 * (n / 10 / 10 / 10 mod 10) + 100 * (n / 10 / 10 mod 10)
     + 10 * (n / 10 mod 10) + n mod 10 = n.
Proof. intro H. repeat split; Z.div_mod_to_equations; lia. Qed.

Lemma days_in_month_le (y m : Z) : days_in_month y m <= 31.
Proof.
  unfold days_in_month. destruct ((m =? 2) && is_leap y); [lia|].
  unfold DAYS_IN_MONTH. generalize (Z.to_nat m); intro n.
  do 13 (destruct n as [|n]; [cbn [nth]; lia|]).
  destruct n; cbn [nth]; lia.
Qed.

(** A date written as the prompt asks for it is parsed to exactly that
    date, with seconds 0. *)
Lemma prompted_date_parses (y m d hh mm : Z) :
  check_date_fields y m d = true ->
  0 <= hh <= 23 -> 0 <= mm <= 59 ->
  strptime (JStr (zero_padded 4 y ++ py "년 " ++ zero_padded 2 m ++ py "월 "
                  ++ zero_padded 2 d ++ py "일 " ++ zero_padded 2 hh ++ py ":"
                  ++ zero_padded 2 mm))
  = Ok (mkDatetime y m d hh mm 0 0).
Proof.
  intros Hdate Hh Hm. cbn [strptime].
  assert (B : 1 <= y <= 9999 /\ 1 <= m <= 12 /\ 1 <= d <= 31).
  { unfold check_date_fields, MINYEAR, MAXYEAR in Hdate.
    repeat (apply andb_true_iff in Hdate as [Hdate ?]).
    pose proof (days_in_month_le y m). lia. }
  destruct B as (By & Bm & Bd).
  destruct (four_digits y) as (Y1 & Y2 & Y3 & Y4 & Yeq); [lia|].
  destruct (two_digits m) as (M1 & M2 & Meq & Mt); [lia|].
  destruct (two_digits d) as (D1 & D2 & Deq & Dt); [lia|].
  destruct (two_digits hh) as (H1 & H2 & Heq & Ht); [lia|].
  destruct (two_digits mm) as (N1 & N2 & Neq & Nt); [lia|].
  rewrite zero_padded_4, !zero_padded_2. unfold strptime_str.
  rewrite format_match; try assumption.
  - change (py "년 ") with [45380; 32]. change (py "월 ") with [50900; 32].
    change (py "일 ") with [51068; 32]. change (py ":") with [58].
    cbn [List.length app negb Nat.eqb].
    cbv [group String.eqb Ascii.eqb Bool.eqb bind_result].
    rewrite int_4_digits, !int_2_digits by assumption.
    rewrite Yeq, Meq, Deq, Heq, Neq, Hdate. unfold new_datetime.
    rewrite Hdate. unfold check_time_fields.
    replace ((0 <=? hh) && (hh <=? 23) && (0 <=? mm) && (mm <=? 59)
             && (0 <=? 0) && (0 <=? 59) && (0 <=? 0) && (0 <=? 999999))
      with true by lia.
    reflexivity.
  - rewrite Mt. Z.div_mod_to_equations. lia.
  - rewrite Dt. Z.div_mod_to_equations. lia.
  - rewrite Ht. Z.div_mod_to_equations. lia.
  - rewrite Nt. Z.div_mod_to_equations. lia.
Qed.

(** * The end of a draft: one hour after the start *)

(** Evaluates the closed table lookups and tests of the calendar. *)
Ltac calendar_tables_in H :=
  repeat match type of H with
  | context [nth ?i ?l ?d] =>
    let v := eval vm_compute in (nth i l d) in change (nth i l d) with v in H
  | context [if ?b then _ else _] =>
    let v := eval vm_compute in b in
    lazymatch v with
    | true => change b with true in H
    | false => change b with false in H
    end; cbv iota in H
  end.

(** The last step of [ord2ymd]: from the day of the year, counted from 0,
    to month and day. *)
Lemma month_and_day (year n : Z) (leapyear : bool) (m d : Z) :
  1 <= m <= 12 ->
  1 <= d <= DAYS_IN_MONTH m + (if (m =? 2) && leapyear then 1 else 0) ->
  n = DAYS_BEFORE_MONTH m + (if (2 <? m) && leapyear then 1 else 0) + d - 1 ->
  (let month := Z.shiftr (n + 50) 5 in
   let preceding :=
     DAYS_BEFORE_MONTH month + (if (2 <? month) && leapyear then 1 else 0) in
   if n <? preceding
   then
     let month := month - 1 in
     let preceding :=
       preceding
       - (DAYS_IN_MONTH month + (if (month =? 2) && leapyear then 1 else 0)) in
     (year, month, n - preceding + 1)
   else (year, month, n - preceding + 1))
  = (year, m, d).
Proof.
  intros Hm Hd Hn. cbv zeta. rewrite Z.shiftr_div_pow2 by lia.
  change (2 ^ 5) with 32.
  assert (E : m = 1 \/ m = 2 \/ m = 3 \/ m = 4 \/ m = 5 \/ m = 6 \/ m = 7
              \/ m = 8 \/ m = 9 \/ m = 10 \/ m = 11 \/ m = 12) by lia.
  repeat (destruct E as [E|E]);
    subst m; destruct leapyear;
    unfold DAYS_IN_MONTH, DAYS_BEFORE_MONTH in Hd, Hn;
    calendar_tables_in Hd; calendar_tables_in Hn;
    match goal with
    | |- context [(n + 50) / 32] =>
      let q := fresh "q" in
      let Q := fresh "Q" in
      remember ((n + 50) / 32) as q eqn:Q;
      assert (C : q = 1 \/ q = 2 \/ q = 3 \/ q = 4 \/ q = 5 \/ q = 6 \/ q = 7
                  \/ q = 8 \/ q = 9 \/ q = 10 \/ q = 11 \/ q = 12)
        by (subst q; Z.div_mod_to_equations; lia);
      repeat (destruct C as [C|C]);
      rewrite C in Q |- *;
      try (exfalso; Z.div_mod_to_equations; lia);
      unfold DAYS_IN_MONTH, DAYS_BEFORE_MONTH;
      change (1 - 1) with 0; change (2 - 1) with 1; change (3 - 1) with 2;
      change (4 - 1) with 3; change (5 - 1) with 4; change (6 - 1) with 5;
      change (7 - 1) with 6; change (8 - 1) with 7; change (9 - 1) with 8;
      change (10 - 1) with 9; change (11 - 1) with 10; change (12 - 1) with 11;
      repeat match goal with
      | |- context [nth ?i ?l ?d] =>
        let v := eval vm_compute in (nth i l d) in change (nth i l d) with v
      | |- context [if ((?a <? ?b) && ?c)%bool then _ else _] =>
        let v := eval vm_compute in ((a <? b) && c)%bool in
        change ((a <? b) && c)%bool with v; cbv iota
      | |- context [if ((?a =? ?b) && ?c)%bool then _ else _] =>
        let v := eval vm_compute in ((a =? b) && c)%bool in
        change ((a =? b) && c)%bool with v; cbv iota
      end;
      match goal with
      | |- context [n <? ?p] => destruct (Z.ltb_spec n p)
      end;
      try (exfalso; Z.div_mod_to_equations; lia);
      try (f_equal; lia)
    end.
Qed.

(** The day of the year, counted from 0, of a date of the calendar. *)
Lemma day_of_year_bound (leapyear : bool) (m d : Z) :
  1 <= m <= 12 ->
  1 <= d <= DAYS_IN_MONTH m + (if (m =? 2) && leapyear then 1 else 0) ->
  0 <= DAYS_BEFORE_MONTH m + (if (2 <? m) && leapyear then 1 else 0) + d - 1
    <= 364
  \/ (DAYS_BEFORE_MONTH m + (if (2 <? m) && leapyear then 1 else 0) + d - 1
      = 365
      /\ leapyear = true /\ m = 12 /\ d = 31).
Proof.
  intros Hm Hd.
  assert (E : m = 1 \/ m = 2 \/ m = 3 \/ m = 4 \/ m = 5 \/ m = 6 \/ m = 7
              \/ m = 8 \/ m = 9 \/ m = 10 \/ m = 11 \/ m = 12) by lia.
  repeat (destruct E as [E|E]);
    subst m; destruct leapyear;
    unfold DAYS_IN_MONTH, DAYS_BEFORE_MONTH in *;
    calendar_tables_in Hd;
    repeat match goal with
    | |- context [nth ?i ?l ?d] =>
      let v := eval vm_compute in (nth i l d) in change (nth i l d) with v
    | |- context [if ?b then _ else _] =>
      let v := eval vm_compute in b in change b with v; cbv iota
    end;
    lia.
Qed.

(** The year in the four digits of [_ord2ymd]: 400-year cycles, centuries,
    4-year cycles and single years. *)
Lemma year_split (y : Z) :
  1 <= y ->
  exists a b c e,
    0 <= a /\ 0 <= b <= 3 /\ 0 <= c <= 24 /\ 0 <= e <= 3
    /\ y = a * 400 + 1 + (b * 100 + c * 4 + e)
    /\ days_before_year y = 146097 * a + 36524 * b + 1461 * c + 365 * e
    /\ is_leap y = (e =? 3) && (negb (c =? 24) || (b =? 3)).
Proof.
  intro Hy.
  exists ((y - 1) / 400), ((y - 1) mod 400 / 100), ((y - 1) mod 100 / 4),
    ((y - 1) mod 4).
  unfold days_before_year, is_leap. cbv zeta.
  repeat split; Z.div_mod_to_equations; lia.
Qed.

(** [_ord2ymd] on an ordinal given by its digits and a day of the year
    that is not the 366th. *)
Lemma ord2ymd_split (a b c e t : Z) :
  0 <= a -> 0 <= b <= 3 -> 0 <= c <= 24 -> 0 <= e <= 3 -> 0 <= t <= 364 ->
  ord2ymd (146097 * a + 36524 * b + 1461 * c + 365 * e + t + 1)
  = (let n := t in
     let year := a * 400 + 1 + (b * 100 + c * 4 + e) in
     let leapyear := (e =? 3) && (negb (c =? 24) || (b =? 3)) in
     let month := Z.shiftr (n + 50) 5 in
     let preceding :=
       DAYS_BEFORE_MONTH month + (if (2 <? month) && leapyear then 1 else 0) in
     if n <? preceding
     then
       let month := month - 1 in
       let preceding :=
         preceding
         - (DAYS_IN_MONTH month + (if (month =? 2) && leapyear then 1 else 0)) in
       (year, month, n - preceding + 1)
     else (year, month, n - preceding + 1)).
Proof.
  intros Ha Hb Hc He Ht. unfold ord2ymd.
  change DI400Y with 146097. change DI100Y with 36524. change DI4Y with 1461.
  cbv zeta.
  replace (146097 * a + 36524 * b + 1461 * c + 365 * e + t + 1 - 1)
    with (146097 * a + (36524 * b + 1461 * c + 365 * e + t)) by lia.
  assert (F1 : (146097 * a + (36524 * b + 1461 * c + 365 * e + t)) / 146097 = a)
    by (Z.div_mod_to_equations; lia).
  assert (F2 : (146097 * a + (36524 * b + 1461 * c + 365 * e + t)) mod 146097
               = 36524 * b + (1461 * c + 365 * e + t))
    by (Z.div_mod_to_equations; lia).
  rewrite F1, F2.
  assert (F3 : (36524 * b + (1461 * c + 365 * e + t)) / 36524 = b)
    by (Z.div_mod_to_equations; lia).
  assert (F4 : (36524 * b + (1461 * c + 365 * e + t)) mod 36524
               = 1461 * c + (365 * e + t))
    by (Z.div_mod_to_equations; lia).
  rewrite F3, F4.
  assert (F5 : (1461 * c + (365 * e + t)) / 1461 = c)
    by (Z.div_mod_to_equations; lia).
  assert (F6 : (1461 * c + (365 * e + t)) mod 1461 = 365 * e + t)
    by (Z.div_mod_to_equations; lia).
  rewrite F5, F6.
  assert (F7 : (365 * e + t) / 365 = e) by (Z.div_mod_to_equations; lia).
  assert (F8 : (365 * e + t) mod 365 = t) by (Z.div_mod_to_equations; lia).
  rewrite F7, F8.
  replace ((e =? 4) || (b =? 4)) with false by lia.
  reflexivity.
Qed.

(** The 366th day of a leap year is its 31 December. *)
Lemma ord2ymd_last_day (a b c : Z) :
  0 <= a -> 0 <= b <= 3 -> 0 <= c <= 24 -> c <> 24 \/ b = 3 ->
  ord2ymd (146097 * a + 36524 * b + 1461 * c + 365 * 3 + 365 + 1)
  = (a * 400 + 1 + (b * 100 + c * 4 + 3), 12, 31).
Proof.
  intros Ha Hb Hc Hl. unfold ord2ymd.
  change DI400Y with 146097. change DI100Y with 36524. change DI4Y with 1461.
  cbv zeta.
  replace (146097 * a + 36524 * b + 1461 * c + 365 * 3 + 365 + 1 - 1)
    with (146097 * a + (36524 * b + 1461 * c + 1460)) by lia.
  assert (F1 : (146097 * a + (36524 * b + 1461 * c + 1460)) / 146097 = a)
    by (Z.div_mod_to_equations; lia).
  assert (F2 : (146097 * a + (36524 * b + 1461 * c + 1460)) mod 146097
               = 36524 * b + 1461 * c + 1460)
    by (Z.div_mod_to_equations; lia).
  rewrite F1, F2.
  destruct (Z.eq_dec c 24) as [->|Hc24].
  - assert (b = 3) by lia. subst b.
    change (36524 * 3 + 1461 * 24 + 1460) with 146096.
    change (146096 / 36524) with 4. change (146096 mod 36524) with 0.
    change (0 mod 1461) with 0. change (0 / 1461) with 0.
    change (0 / 365) with 0. change ((0 =? 4) || (4 =? 4)) with true.
    cbv iota. f_equal. f_equal. lia.
  - assert (F3 : (36524 * b + 1461 * c + 1460) / 36524 = b)
      by (Z.div_mod_to_equations; lia).
    assert (F4 : (36524 * b + 1461 * c + 1460) mod 36524 = 1461 * c + 1460)
      by (Z.div_mod_to_equations; lia).
    rewrite F3, F4.
    assert (F5 : (1461 * c + 1460) / 1461 = c)
      by (Z.div_mod_to_equations; lia).
    assert (F6 : (1461 * c + 1460) mod 1461 = 1460)
      by (Z.div_mod_to_equations; lia).
    rewrite F5, F6. change (1460 / 365) with 4. change (4 =? 4) with true.
    cbn [orb]. f_equal. f_equal. lia.
Qed.

Lemma check_date_fields_bounds (y m d : Z) :
  check_date_fields y m d = true ->
  1 <= y <= 9999 /\ 1 <= m <= 12
  /\ 1 <= d <= DAYS_IN_MONTH m + (if (m =? 2) && is_leap y then 1 else 0).
Proof.
  unfold check_date_fields, MINYEAR, MAXYEAR, days_in_month. intro H.
  repeat (apply andb_true_iff in H as [H ?]).
  split; [lia|]. split; [lia|].
  destruct ((m =? 2) && is_leap y) eqn:L.
  - apply andb_true_iff in L as [L _]. apply Z.eqb_eq in L. subst m.
    change (DAYS_IN_MONTH 2) with 28. lia.
  - lia.
Qed.

(** [_ord2ymd] undoes [_ymd2ord] on every date of the calendar. *)
Lemma ord2ymd_ymd2ord (y m d : Z) :
  check_date_fields y m d = true ->
  ord2ymd (ymd2ord y m d) = (y, m, d)
  /\ 1 <= ymd2ord y m d <= MAXORDINAL.
Proof.
  intro H. apply check_date_fields_bounds in H as (Hy & Hm & Hd).
  destruct (year_split y) as (a & b & c & e & Ha & Hb & Hc & He & Y & D & L);
    [lia|].
  unfold ymd2ord, days_before_month, MAXORDINAL. rewrite D.
  destruct (day_of_year_bound (is_leap y) m d Hm Hd)
    as [Ht|(Ht & Hl & Hm12 & Hd31)].
  - split.
    + replace (146097 * a + 36524 * b + 1461 * c + 365 * e
               + (DAYS_BEFORE_MONTH m
                  + (if (2 <? m) && is_leap y then 1 else 0)) + d)
        with (146097 * a + 36524 * b + 1461 * c + 365 * e
              + (DAYS_BEFORE_MONTH m
                 + (if (2 <? m) && is_leap y then 1 else 0) + d - 1) + 1)
        by lia.
      rewrite (ord2ymd_split a b c e _ Ha Hb Hc He Ht), <- L, <- Y.
      now apply month_and_day.
    + lia.
  - rewrite Hl in L. symmetry in L. apply andb_true_iff in L as [L1 L2].
    apply Z.eqb_eq in L1. subst e.
    assert (L3 : c <> 24 \/ b = 3).
    { apply orb_true_iff in L2 as [L2|L2].
      - left. intro E. subst c. discriminate.
      - right. now apply Z.eqb_eq in L2. }
    split.
    + replace (146097 * a + 36524 * b + 1461 * c + 365 * 3
               + (DAYS_BEFORE_MONTH m
                  + (if (2 <? m) && is_leap y then 1 else 0)) + d)
        with (146097 * a + 36524 * b + 1461 * c + 365 * 3 + 365 + 1) by lia.
      rewrite (ord2ymd_last_day a b c Ha Hb Hc L3), <- Y. now subst m d.
    + lia.
Qed.

(** One hour after a start before 23:00: the same day, the next hour. *)
Lemma datetime_add_one_hour (dt : datetime) :
  valid dt = true -> hour dt < 23 ->
  datetime_add dt one_hour
  = Ok (mkDatetime (year dt) (month dt) (day dt) (hour dt + 1) (minute dt)
                   (second dt) (microsecond dt)).
Proof.
  intros Hv Hh. unfold valid in Hv. apply andb_true_iff in Hv as [Hd Ht].
  unfold check_time_fields in Ht.
  repeat (apply andb_true_iff in Ht as [Ht ?]).
  destruct (ord2ymd_ymd2ord _ _ _ Hd) as (R & B). unfold MAXORDINAL in B.
  unfold datetime_add, one_hour, timedelta_add, new_timedelta, toordinal.
  rewrite !total_us_of_us. cbv zeta.
  set (ord := ymd2ord (year dt) (month dt) (day dt)) in *.
  set (u := (((ord * 24 + hour dt) * 60 + minute dt) * 60 + second dt) * 1000000
            + microsecond dt
            + ((((0 * 24 + 1) * 60 + 0) * 60 + 0) * 1000000 + 0)).
  unfold timedelta_of_us. cbn [days seconds microseconds].
  assert (E1 : u / 86400000000 = ord)
    by (unfold u; Z.div_mod_to_equations; lia).
  assert (E2 : u mod 86400000000 / 1000000
               = (hour dt + 1) * 3600 + minute dt * 60 + second dt)
    by (unfold u; Z.div_mod_to_equations; lia).
  assert (E3 : u mod 1000000 = microsecond dt)
    by (unfold u; Z.div_mod_to_equations; lia).
  rewrite E1, E2, E3. unfold MAXORDINAL.
  replace ((0 <? ord) && (ord <=? 3652059)) with true by lia.
  rewrite R. f_equal. f_equal; Z.div_mod_to_equations; lia.
Qed.

(** X17: the end of a draft whose start is a date of the calendar before
    23:00 is the same day one hour later, with the minute, second and
    microsecond of the start: line 165 never fails for such a start, the two
    time stamps of the draft differ in the hour only, and the end minus the
    start is again the [timedelta(hours=1)] that was added. *)
Theorem end_is_one_hour_later (dt : datetime) :
  valid dt = true -> hour dt < 23 ->
  exists end_time,
    datetime_add dt one_hour = Ok end_time
    /\ end_time
       = mkDatetime (year dt) (month dt) (day dt) (hour dt + 1) (minute dt)
                    (second dt) (microsecond dt)
    /\ datetime_sub end_time dt = one_hour.
Proof.
  intros Hv Hh. eexists. split; [now apply datetime_add_one_hour|].
  split; [reflexivity|].
  unfold datetime_sub, toordinal.
  cbn [year month day hour minute second microsecond].
  rewrite Z.sub_diag.
  replace (second dt + minute dt * 60 + (hour dt + 1) * 3600
           - (second dt + minute dt * 60 + hour dt * 3600)) with 3600 by lia.
  rewrite Z.sub_diag. reflexivity.
Qed.

Section PromptedDates.

Variable C : Collaborators.

(** X18: a date written as the prompt asks for it (line 116: four digits
    of the year, two each of month, day, hour and minute, "년 ", "월 ",
    "일 " and ":" between them) is parsed by the format of line 161 to
    exactly that date, with seconds 0, so that the loop does not fall back
    on the current time; and when the hour is before 23, the turn of the
    loop for it submits the draft whose start is "YYYY-MM-DDTHH:MM:00" and
    whose end is the same with the next hour, and raises nothing but what
    the calendar raises. *)
Theorem prompted_date_gives_its_draft (y m d hh mm : Z) :
  check_date_fields y m d = true ->
  0 <= hh <= 23 -> 0 <= mm <= 59 ->
  let date :=
    zero_padded 4 y ++ py "년 " ++ zero_padded 2 m ++ py "월 "
    ++ zero_padded 2 d ++ py "일 " ++ zero_padded 2 hh ++ py ":"
    ++ zero_padded 2 mm in
  let dt := mkDatetime y m d hh mm 0 0 in
  (forall s : state C, resolve_start C (JStr date) s = (Ok dt, s))
  /\ (hh < 23 ->
      forall (service : Service C) (r : event_record) (acc : list (Handle C))
             (s : state C),
      exists body,
        loop_body C service r acc (JStr date) s
        = match execute_insert C service body (world s) with
          | (Ok h, w) =>
            (Ok (acc ++ [h]), mkState w (log s ++ [Insert body (Ok h)]))
          | (Raise e, w) =>
            (Raise e, mkState w (log s ++ [Insert body (Raise e)]))
          end
        /\ body = make_event (text r) (rec_location r) (details r) (reminder r)
                             dt (mkDatetime y m d (hh + 1) mm 0 0)
        /\ dateTime (start body)
           = zero_padded 4 y ++ py "-" ++ zero_padded 2 m ++ py "-"
             ++ zero_padded 2 d ++ py "T" ++ zero_padded 2 hh ++ py ":"
             ++ zero_padded 2 mm ++ py ":00"
        /\ dateTime (end_ body)
           = zero_padded 4 y ++ py "-" ++ zero_padded 2 m ++ py "-"
             ++ zero_padded 2 d ++ py "T" ++ zero_padded 2 (hh + 1) ++ py ":"
             ++ zero_padded 2 mm ++ py ":00").
Proof.
  intros Hdate Hh Hm. cbv zeta.
  pose proof (prompted_date_parses y m d hh mm Hdate Hh Hm) as P.
  assert (R : forall s : state C,
            resolve_start C
              (JStr (zero_padded 4 y ++ py "년 " ++ zero_padded 2 m ++ py "월 "
                     ++ zero_padded 2 d ++ py "일 " ++ zero_padded 2 hh
                     ++ py ":" ++ zero_padded 2 mm)) s
            = (Ok (mkDatetime y m d hh mm 0 0), s)).
  { intro s. rewrite resolve_start_eq, P. reflexivity. }
  split; [exact R|].
  intros H23 service r acc s.
  assert (V : valid (mkDatetime y m d hh mm 0 0) = true).
  { unfold valid, check_time_fields.
    cbn [year month day hour minute second microsecond]. rewrite Hdate.
    replace ((0 <=? hh) && (hh <=? 23) && (0 <=? mm) && (mm <=? 59)
             && (0 <=? 0) && (0 <=? 59) && (0 <=? 0) && (0 <=? 999999))
      with true by lia.
    reflexivity. }
  pose proof (datetime_add_one_hour _ V H23) as E.
  cbn [year month day hour minute second microsecond] in E.
  eexists. split; [|split; [reflexivity|]].
  - rewrite loop_body_eq, R, E. cbv zeta.
    destruct (execute_insert C service _ (world s)) as [[h|e] w]; reflexivity.
  - unfold make_event, isoformat.
    cbn [start end_ dateTime year month day hour minute second microsecond].
    split; reflexivity.
Qed.

End PromptedDates.

(** X19: whatever string the format of line 161 accepts, the start it
    gives is a date of the calendar on a whole minute: seconds and
    microseconds are 0, the time stamp sent to the calendar has the 19
    characters "YYYY-MM-DDTHH:MM:00", and when the hour is before 23 the end
    of line 165 exists and is the same day, one hour later. *)
Theorem parsed_start_is_whole_minute (d : str) (dt : datetime) :
  strptime (JStr d) = Ok dt ->
  valid dt = true
  /\ second dt = 0 /\ microsecond dt = 0
  /\ isoformat dt
     = zero_padded 4 (year dt) ++ py "-" ++ zero_padded 2 (month dt) ++ py "-"
       ++ zero_padded 2 (day dt) ++ py "T" ++ zero_padded 2 (hour dt) ++ py ":"
       ++ zero_padded 2 (minute dt) ++ py ":00"
  /\ List.length (isoformat dt) = 19%nat
  /\ (hour dt < 23 ->
      datetime_add dt one_hour
      = Ok (mkDatetime (year dt) (month dt) (day dt) (hour dt + 1) (minute dt)
                       0 0)).
Proof.
  cbn [strptime]. unfold strptime_str, bind_result, new_datetime.
  destruct (re_match format_regex d) as [[n g]|]; [|discriminate].
  destruct (negb (Nat.eqb (List.length d) n)); [discriminate|].
  destruct (int (group "Y" g)) as [y|]; [|discriminate].
  destruct (int (group "m" g)) as [m|]; [|discriminate].
  destruct (int (group "d" g)) as [dd|]; [|discriminate].
  destruct (int (group "H" g)) as [hh|]; [|discriminate].
  destruct (int (group "M" g)) as [mm|]; [|discriminate].
  destruct (check_date_fields y m dd) eqn:Hd; [|discriminate].
  cbn [andb]. destruct (check_time_fields hh mm 0 0) eqn:Ht; [|discriminate].
  intro H. injection H as <-.
  assert (V : valid (mkDatetime y m dd hh mm 0 0) = true).
  { unfold valid. cbn [year month day hour minute second microsecond].
    now rewrite Hd, Ht. }
  cbn [year month day hour minute second microsecond].
  split; [exact V|]. split; [reflexivity|]. split; [reflexivity|].
  split; [reflexivity|]. split; [reflexivity|].
  intro H23. exact (datetime_add_one_hour _ V H23).
Qed.

(** * The reminder block and the redirect URI *)

(** X20: whatever the reminder value of the record, the reminder block of
    a draft with a valid start either uses the calendar's defaults or has
    exactly one popup override, whose minutes are 2880 (two days) or lie
    between 0 and 525 (08:45 counted from midnight): no draft carries a
    negative reminder or one of another method. *)
Theorem reminder_minutes_in_range (v : json) (dt : datetime) :
  valid dt = true ->
  reminders_for v dt = UseDefault
  \/ exists m,
       reminders_for v dt = Overrides [mkOverride (py "popup") m]
       /\ (m = 2880 \/ 0 <= m <= 525).
Proof.
  intro Hv. unfold reminders_for.
  destruct (eq_str v (py "이벤트 2일 전")).
  - right. exists 2880. split; [reflexivity|now left].
  - destruct (eq_str v (py "당일 오전 8시 45분")); [|now left].
    right. cbv zeta. rewrite day_of_minutes.
    unfold valid, check_time_fields in Hv.
    apply andb_true_iff in Hv as [_ Ht].
    repeat (apply andb_true_iff in Ht as [Ht ?]).
    eexists. split; [reflexivity|]. right.
    destruct (Z.ltb_spec (8 * 60 + 45 - (hour dt * 60 + minute dt)) 0); lia.
Qed.

(** X21: outside a deployment the OAuth flow is given the fixed address of
    the app whatever the secrets say; in a deployment it is given the secret
    REDIRECT_URI, and nothing at all ([None]) when that secret is missing.
    Whenever it is given an address, the address is one of the two redirect
    URIs registered in [CLIENT_CONFIG]. *)
Theorem redirect_uri_is_registered (IS_DEPLOYED : bool)
  (secrets : list (str * str)) :
  (forall uri, get_redirect_uri IS_DEPLOYED secrets = Some uri ->
               In uri (redirect_uris secrets))
  /\ (get_redirect_uri IS_DEPLOYED secrets = None
      <-> IS_DEPLOYED = true /\ secrets_get secrets (py "REDIRECT_URI") = None)
  /\ (IS_DEPLOYED = false ->
      get_redirect_uri IS_DEPLOYED secrets
      = Some (py "https://calstool.streamlit.app/")).
Proof.
  unfold get_redirect_uri, redirect_uris. split; [|split].
  - intros uri H. destruct IS_DEPLOYED.
    + rewrite H. right. now left.
    + injection H as <-. now left.
  - destruct IS_DEPLOYED; split.
    + intro H. now split.
    + now intros [_ H].
    + discriminate.
    + now intros [H _].
  - now intros ->.
Qed.

(** ** More concrete runs *)

Lemma clean_json_string_drops_prose_witness :
  clean_json_string (py "Sure: {a} done.") = py "{a}".
Proof.
  apply (clean_json_string_drops_prose (py "Sure: ") (py "a") (py " done.")).
  - vm_compute. reflexivity.
  - vm_compute. intuition discriminate.
  - vm_compute. intuition discriminate.
Defined.

Lemma clean_json_string_unwraps_witness :
  clean_json_string (py "```json" ++ [10] ++ py "{ a }" ++ [10] ++ py "```")
  = py "{ a }".
Proof.
  apply (clean_json_string_unwraps [10] [10] (py " a ")); vm_compute; reflexivity.
Defined.

Lemma only_credentials_can_raise_witness :
  let C := Cases.rejected_token in
  exists token, google_token (Demo.logged_in C tt) = Some token
                /\ from_authorized_user_info C token = Raise ValueError
                /\ Demo.fresh C 0%nat = Demo.fresh C 0%nat.
Proof.
  cbv zeta.
  apply (only_credentials_can_raise Cases.rejected_token
           (Demo.logged_in Cases.rejected_token tt) []
           (Demo.fresh Cases.rejected_token 0%nat)
           (Demo.fresh Cases.rejected_token 0%nat) ValueError).
  vm_compute. reflexivity.
Defined.

Lemma returned_list_matches_submissions_witness :
  let C := Demo.accepting Demo.two_dates in
  let s' := snd (create_google_calendar_event C (Demo.logged_in C tt) []
                   (Demo.fresh C 0%nat)) in
  exists event_dict r ds (xs : list (datetime * datetime * Handle C)),
    json_loads C [] = Ok event_dict
    /\ read_event_record event_dict = Ok r
    /\ py_iter (dates r) = Ok ds
    /\ Forall2 (fun date x => draft_times C date (fst (fst x)) (snd (fst x)))
               ds xs
    /\ [0%nat; 1%nat] = map snd xs
    /\ List.length [0%nat; 1%nat] = List.length ds
    /\ log s' = log (Demo.fresh C 0%nat) ++ map (draft_entry C r) xs.
Proof.
  cbv zeta.
  apply (returned_list_matches_submissions (Demo.accepting Demo.two_dates)
           (Demo.logged_in (Demo.accepting Demo.two_dates) tt) []
           (Demo.fresh (Demo.accepting Demo.two_dates) 0%nat)
           (snd (create_google_calendar_event (Demo.accepting Demo.two_dates)
                   (Demo.logged_in (Demo.accepting Demo.two_dates) tt) []
                   (Demo.fresh (Demo.accepting Demo.two_dates) 0%nat)))
           [0%nat; 1%nat]).
  vm_compute. reflexivity.
Defined.

Lemma failure_ends_with_one_message_witness :
  let C := Demo.refusing_second in
  let s' := snd (create_google_calendar_event C (Demo.logged_in C tt) []
                   (Demo.fresh C 0%nat)) in
  exists pre msg,
    Forall ok_insert pre /\ ~ is_insert msg
    /\ (log s' = log (Demo.fresh C 0%nat) ++ pre ++ [msg]
        \/ exists body e,
             log s' = log (Demo.fresh C 0%nat) ++ pre
                      ++ [Insert body (Raise e); msg]).
Proof.
  cbv zeta.
  apply (failure_ends_with_one_message Demo.refusing_second
           (Demo.logged_in Demo.refusing_second tt) []
           (Demo.fresh Demo.refusing_second 0%nat)
           (snd (create_google_calendar_event Demo.refusing_second
                   (Demo.logged_in Demo.refusing_second tt) []
                   (Demo.fresh Demo.refusing_second 0%nat)))).
  vm_compute. reflexivity.
Defined.

Lemma refused_submission_is_last_witness :
  let C := Demo.collaborators (Ok Demo.two_dates) Demo.clock
             (Demo.after 1 (HttpError 500)) in
  let first :=
    @Insert C (Demo.draft (py "회의") (mkDatetime 2024 1 1 9 0 0 0)
                          (mkDatetime 2024 1 1 10 0 0 0)) (Ok 0%nat) in
  let second :=
    @Insert C (Demo.draft (py "회의") (mkDatetime 2024 2 1 9 0 0 0)
                          (mkDatetime 2024 2 1 10 0 0 0))
            (Raise (HttpError 500)) in
  fst (create_google_calendar_event C (Demo.logged_in C tt) []
         (Demo.fresh C 0%nat)) = Ok None
  /\ exists pre,
       Forall ok_insert pre
       /\ [first; second; ErrorCalendarApi (HttpError 500)]
          = pre ++ [second; handler_effect C (HttpError 500)].
Proof.
  cbv zeta.
  apply (refused_submission_is_last
           (Demo.collaborators (Ok Demo.two_dates) Demo.clock
              (Demo.after 1 (HttpError 500)))
           (Demo.logged_in
              (Demo.collaborators (Ok Demo.two_dates) Demo.clock
                 (Demo.after 1 (HttpError 500))) tt) []
           (Demo.fresh
              (Demo.collaborators (Ok Demo.two_dates) Demo.clock
                 (Demo.after 1 (HttpError 500))) 0%nat) _ _
           [@Insert (Demo.collaborators (Ok Demo.two_dates) Demo.clock
                       (Demo.after 1 (HttpError 500)))
                    (Demo.draft (py "회의") (mkDatetime 2024 1 1 9 0 0 0)
                                (mkDatetime 2024 1 1 10 0 0 0)) (Ok 0%nat);
            Insert (Demo.draft (py "회의") (mkDatetime 2024 2 1 9 0 0 0)
                               (mkDatetime 2024 2 1 10 0 0 0))
                   (Raise (HttpError 500));
            ErrorCalendarApi (HttpError 500)]
           (Demo.draft (py "회의") (mkDatetime 2024 2 1 9 0 0 0)
                       (mkDatetime 2024 2 1 10 0 0 0))
           (HttpError 500)
           (surjective_pairing _)).
  - vm_compute. reflexivity.
  - right. left. reflexivity.
Defined.

Lemma every_submission_is_a_draft_witness :
  let C := Demo.refusing_second in
  exists event_dict r ds date dt end_time,
    json_loads C [] = Ok event_dict
    /\ read_event_record event_dict = Ok r
    /\ py_iter (dates r) = Ok ds
    /\ In date ds
    /\ draft_times C date dt end_time
    /\ Demo.draft (py "회의") (mkDatetime 2024 2 1 9 0 0 0)
                  (mkDatetime 2024 2 1 10 0 0 0)
       = make_event (text r) (rec_location r) (details r) (reminder r)
                    dt end_time.
Proof.
  cbv zeta.
  apply (every_submission_is_a_draft Demo.refusing_second
           (Demo.logged_in Demo.refusing_second tt) []
           (Demo.fresh Demo.refusing_second 0%nat) _ _
           [@Insert Demo.refusing_second
                    (Demo.draft (py "회의") (mkDatetime 2024 1 1 9 0 0 0)
                                (mkDatetime 2024 1 1 10 0 0 0)) (Ok 0%nat);
            Insert (Demo.draft (py "회의") (mkDatetime 2024 2 1 9 0 0 0)
                               (mkDatetime 2024 2 1 10 0 0 0))
                   (Raise (HttpError 401));
            Warning auth_needed]
           (Demo.draft (py "회의") (mkDatetime 2024 2 1 9 0 0 0)
                       (mkDatetime 2024 2 1 10 0 0 0))
           (Raise (HttpError 401))
           (surjective_pairing _)).
  - vm_compute. reflexivity.
  - right. left. reflexivity.
Defined.

Lemma unreadable_answer_submits_nothing_witness :
  let C := Demo.accepting Cases.list_of_events in
  create_google_calendar_event C (Demo.logged_in C tt) [] (Demo.fresh C 0%nat)
  = (Ok None, @mkState C 0%nat [ErrorUnexpected AttributeError]).
Proof.
  cbv zeta.
  apply (proj1 (unreadable_answer_submits_nothing
                  (Demo.accepting Cases.list_of_events)
                  (Demo.logged_in (Demo.accepting Cases.list_of_events) tt) []
                  (Demo.fresh (Demo.accepting Cases.list_of_events) 0%nat)
                  tt tt tt Cases.list_of_events
                  eq_refl eq_refl eq_refl eq_refl)).
  intros items H. discriminate H.
Defined.

Lemma model_is_asked_about_extracted_text_witness :
  let C := Demo.accepting Demo.two_dates in
  let F := Cases.reading C Cases.answer_two_dates in
  exists text,
    fst (extract_text_from_image F tt (Cases.blank C 0%nat)) = Some text
    /\ text <> []
    /\ request_for (py "회의 안내")
       = mkRequest (py "gpt-4") [(py "system", SYSTEM_PROMPT); (py "user", text)].
Proof.
  cbv zeta.
  apply (model_is_asked_about_extracted_text (Demo.accepting Demo.two_dates)
           (Cases.reading (Demo.accepting Demo.two_dates) Cases.answer_two_dates)
           (Demo.logged_in (Demo.accepting Demo.two_dates) tt) tt
           (Cases.blank (Demo.accepting Demo.two_dates) 0%nat)
           (screen
              (analyze_and_create
                 (Cases.reading (Demo.accepting Demo.two_dates)
                    Cases.answer_two_dates)
                 (Demo.logged_in (Demo.accepting Demo.two_dates) tt) tt
                 (Cases.blank (Demo.accepting Demo.two_dates) 0%nat)))
           (request_for (py "회의 안내"))).
  - reflexivity.
  - vm_compute. right. right. left. reflexivity.
Defined.

Lemma calendar_stage_needs_braced_answer_witness :
  let C := Demo.accepting Demo.two_dates in
  let F := Cases.reading C Cases.answer_two_dates in
  let ss := Demo.logged_in C tt in
  let x := @Insert C (Demo.draft (py "회의") (mkDatetime 2024 1 1 9 0 0 0)
                                 (mkDatetime 2024 1 1 10 0 0 0)) (Ok 0%nat) in
  exists info before behind w,
    screen (analyze_and_create F ss tt (Cases.blank C 0%nat))
    = before ++ StJson info :: behind
    /\ In (Calendar x) behind
    /\ (info = [125] \/ exists mid, info = 123 :: mid ++ [125])
    /\ In x (log (snd (create_google_calendar_event C ss info (mkState w [])))).
Proof.
  cbv zeta.
  apply (calendar_stage_needs_braced_answer (Demo.accepting Demo.two_dates)
           (Cases.reading (Demo.accepting Demo.two_dates) Cases.answer_two_dates)
           (Demo.logged_in (Demo.accepting Demo.two_dates) tt) tt
           (Cases.blank (Demo.accepting Demo.two_dates) 0%nat)
           (screen
              (analyze_and_create
                 (Cases.reading (Demo.accepting Demo.two_dates)
                    Cases.answer_two_dates)
                 (Demo.logged_in (Demo.accepting Demo.two_dates) tt) tt
                 (Cases.blank (Demo.accepting Demo.two_dates) 0%nat)))
           (@Insert (Demo.accepting Demo.two_dates)
                    (Demo.draft (py "회의") (mkDatetime 2024 1 1 9 0 0 0)
                                (mkDatetime 2024 1 1 10 0 0 0)) (Ok 0%nat))).
  - reflexivity.
  - vm_compute. do 5 right. left. reflexivity.
Defined.

Lemma answer_without_closing_brace_fails_witness :
  let C := Demo.accepting Demo.no_dates in
  let F := Cases.reading C (py "죄송합니다. 일정을 찾지 못했습니다.") in
  screen (analyze_and_create F (Demo.logged_in C tt) tt (Cases.blank C 0%nat))
  = screen (snd (extract_text_from_image F tt (Cases.blank C 0%nat)))
    ++ [StMarkdown (py "<h3 class='sub-header'>추출된 텍스트</h3>");
        ShowExtracted (py "회의 안내"); ChatCreate (request_for (py "회의 안내"));
        StError (py "AI 분석에 실패했습니다.")].
Proof.
  cbv zeta.
  apply (answer_without_closing_brace_fails (Demo.accepting Demo.no_dates)
           (Cases.reading (Demo.accepting Demo.no_dates)
              (py "죄송합니다. 일정을 찾지 못했습니다."))
           (Demo.logged_in (Demo.accepting Demo.no_dates) tt) tt
           (Cases.blank (Demo.accepting Demo.no_dates) 0%nat)
           (py "회의 안내") (py "죄송합니다. 일정을 찾지 못했습니다.") []).
  - vm_compute. reflexivity.
  - discriminate.
  - vm_compute. reflexivity.
  - vm_compute. intuition discriminate.
Defined.

Lemma record_without_dates_asks_for_linking_witness :
  let C := Demo.accepting Demo.no_dates in
  let F := Cases.reading C Cases.answer_no_dates in
  screen (analyze_and_create F (Demo.logged_in C tt) tt (Cases.blank C 0%nat))
  = screen (snd (extract_text_from_image F tt (Cases.blank C 0%nat)))
    ++ [StMarkdown (py "<h3 class='sub-header'>추출된 텍스트</h3>");
        ShowExtracted (py "회의 안내"); ChatCreate (request_for (py "회의 안내"));
        StMarkdown (py "<h3 class='sub-header'>분석 결과</h3>");
        StJson (clean_json_string (strip Cases.answer_no_dates));
        StInfo (py "Google 계정 연동이 필요합니다.")].
Proof.
  cbv zeta.
  apply (record_without_dates_asks_for_linking (Demo.accepting Demo.no_dates)
           (Cases.reading (Demo.accepting Demo.no_dates) Cases.answer_no_dates)
           (Demo.logged_in (Demo.accepting Demo.no_dates) tt) tt
           (Cases.blank (Demo.accepting Demo.no_dates) 0%nat)
           (py "회의 안내") Cases.answer_no_dates [] tt tt tt Demo.no_dates
           (mkRecord (JStr (py "회의")) (JArr []) (JStr []) (JStr [])
                     (JStr (py "기본 알림")))).
  - vm_compute. reflexivity.
  - discriminate.
  - vm_compute. reflexivity.
  - vm_compute. discriminate.
  - reflexivity.
  - reflexivity.
  - reflexivity.
  - reflexivity.
  - vm_compute. reflexivity.
  - reflexivity.
Defined.

Lemma links_follow_created_events_witness :
  let C := Demo.accepting Demo.two_dates in
  let F := Cases.reading C Cases.answer_two_dates in
  let ss := Demo.logged_in C tt in
  exists (r : event_record) (xs : list (datetime * datetime * Handle C))
         (tail : list (shown C)),
    [0%nat; 1%nat] = map snd xs
    /\ screen (analyze_and_create F ss tt (Cases.blank C 0%nat))
       = screen (snd (extract_text_from_image F tt (Cases.blank C 0%nat)))
         ++ [StMarkdown (py "<h3 class='sub-header'>추출된 텍스트</h3>");
             ShowExtracted (py "회의 안내");
             ChatCreate (request_for (py "회의 안내"));
             StMarkdown (py "<h3 class='sub-header'>분석 결과</h3>");
             StJson (clean_json_string (strip Cases.answer_two_dates))]
         ++ map (fun x => Calendar (draft_entry C r x)) xs
         ++ StMarkdown (py "<h3 class='sub-header'>생성된 Google 캘린더 이벤트</h3>")
            :: tail
    /\ List.length tail = List.length [0%nat; 1%nat]
    /\ forall n h, nth_error [0%nat; 1%nat] n = Some h ->
                   nth_error tail n = Some (@ShowLink C (S n) h).
Proof.
  cbv zeta.
  apply (links_follow_created_events (Demo.accepting Demo.two_dates)
           (Cases.reading (Demo.accepting Demo.two_dates) Cases.answer_two_dates)
           (Demo.logged_in (Demo.accepting Demo.two_dates) tt) tt
           (Cases.blank (Demo.accepting Demo.two_dates) 0%nat)
           (py "회의 안내") Cases.answer_two_dates [] [0%nat; 1%nat]
           (snd (create_google_calendar_event (Demo.accepting Demo.two_dates)
                   (Demo.logged_in (Demo.accepting Demo.two_dates) tt) []
                   (Demo.fresh (Demo.accepting Demo.two_dates) 0%nat)))).
  - vm_compute. reflexivity.
  - discriminate.
  - vm_compute. reflexivity.
  - vm_compute. discriminate.
  - vm_compute. reflexivity.
  - discriminate.
Defined.

Lemma no_text_message_iff_witness :
  let C := Demo.accepting Demo.no_dates in
  let F := Cases.frontend C (Ok []) (Ok []) in
  screen (analyze_and_create F (Demo.logged_in C tt) tt (Cases.blank C 0%nat))
  = screen (Cases.blank C 0%nat)
    ++ [StError (py "이미지에서 텍스트를 추출하지 못했습니다.")].
Proof.
  cbv zeta.
  apply (proj2 (no_text_message_iff (Demo.accepting Demo.no_dates)
                  (Cases.frontend (Demo.accepting Demo.no_dates) (Ok []) (Ok []))
                  (Demo.logged_in (Demo.accepting Demo.no_dates) tt) tt
                  (Cases.blank (Demo.accepting Demo.no_dates) 0%nat)
                  (Cases.blank (Demo.accepting Demo.no_dates) 0%nat)
                  tt [] 0%nat eq_refl eq_refl)).
  left. reflexivity.
Defined.

Lemma prompted_date_gives_its_draft_witness :
  let C := Demo.accepting Demo.two_dates in
  resolve_start C (JStr (py "2024년 03월 15일 10:00")) (Demo.fresh C 0%nat)
  = (Ok (mkDatetime 2024 3 15 10 0 0 0), Demo.fresh C 0%nat).
Proof.
  cbv zeta.
  refine (proj1 (prompted_date_gives_its_draft (Demo.accepting Demo.two_dates)
                   2024 3 15 10 0 _ _ _)
                (Demo.fresh (Demo.accepting Demo.two_dates) 0%nat)).
  - vm_compute. reflexivity.
  - lia.
  - lia.
Defined.

Lemma end_is_one_hour_later_witness :
  exists end_time,
    datetime_add Demo.clock one_hour = Ok end_time
    /\ end_time = mkDatetime 2024 3 1 (12 + 1) 30 15 250000
    /\ datetime_sub end_time Demo.clock = one_hour.
Proof.
  apply (end_is_one_hour_later Demo.clock).
  - vm_compute. reflexivity.
  - vm_compute. reflexivity.
Defined.

Lemma reminder_minutes_in_range_witness :
  reminders_for (JStr (py "당일 오전 8시 45분")) Demo.clock = UseDefault
  \/ exists m,
       reminders_for (JStr (py "당일 오전 8시 45분")) Demo.clock
       = Overrides [mkOverride (py "popup") m]
       /\ (m = 2880 \/ 0 <= m <= 525).
Proof.
  apply (reminder_minutes_in_range (JStr (py "당일 오전 8시 45분")) Demo.clock).
  vm_compute. reflexivity.
Defined.

Lemma parsed_start_is_whole_minute_witness :
  valid (mkDatetime 2024 3 5 9 5 0 0) = true
  /\ second (mkDatetime 2024 3 5 9 5 0 0) = 0
  /\ microsecond (mkDatetime 2024 3 5 9 5 0 0) = 0
  /\ isoformat (mkDatetime 2024 3 5 9 5 0 0) = py "2024-03-05T09:05:00"
  /\ List.length (isoformat (mkDatetime 2024 3 5 9 5 0 0)) = 19%nat
  /\ (9 < 23 ->
      datetime_add (mkDatetime 2024 3 5 9 5 0 0) one_hour
      = Ok (mkDatetime 2024 3 5 (9 + 1) 5 0 0)).
Proof.
  apply (parsed_start_is_whole_minute (py "2024년 3월 5일 9:05")
           (mkDatetime 2024 3 5 9 5 0 0)).
  vm_compute. reflexivity.
Defined.
